(** * smartmic-cloudimaging: the DICOM organizer, the HealthImaging client
      and the workflow driver, embedded and verified

    The three Python units ([DicomOrganizer.py], [HealthImaging.py] and
    [main.py]) are embedded as Rocq functions.  Python values that the code
    treats dynamically (service responses, keyword arguments) are values of
    [pyval]; a computation is a function on a [world] that records the clock,
    the number of requests sent to the imaging service and everything the
    program printed or called, and ends in a value, an exception or, for the
    one unbounded loop, in the exhaustion of its fuel. *)

From Stdlib Require Import ZArith Lia List String Ascii Strings.Byte Bool.
From stdpp Require Import gmap strings list.
Import ListNotations.
Local Open Scope string_scope.
Local Open Scope Z_scope.

(** ** Python values, exceptions and results *)

#[warnings="-register-all"]
Inductive pyval : Type :=
| PNone
| PBool (b : bool)
| PInt (z : Z)
| PStr (s : string)
| PBytes (b : list byte)
| PList (l : list pyval)
| PDict (d : list (string * pyval)).

(** An exception: its class and the text [str(e)] gives. *)
Record exn : Type := Exception { exn_class : string; exn_msg : string }.

(** What a remote service (or a library outside the repository) answers. *)
Inductive response (A : Type) : Type :=
| Success (a : A)
| Failure (e : exn).
Arguments Success {A} a.
Arguments Failure {A} e.

(** How a Python computation ends. *)
Inductive result (A : Type) : Type :=
| Ok (a : A)
| Raise (e : exn)
| OutOfFuel.
Arguments Ok {A} a.
Arguments Raise {A} e.
Arguments OutOfFuel {A}.

(** Truth value of a Python object, as [if x:], [not x] and [x or y] use it. *)
Definition truthy (v : pyval) : bool :=
  match v with
  | PNone => false
  | PBool b => b
  | PInt z => negb (z =? 0)
  | PStr s => negb (String.eqb s "")
  | PBytes b => match b with [] => false | _ => true end
  | PList l => match l with [] => false | _ => true end
  | PDict d => match d with [] => false | _ => true end
  end.

(** [x or y] *)
Definition py_or (x y : pyval) : pyval := if truthy x then x else y.

(** [v == 'literal'] *)
Definition eq_str (v : pyval) (s : string) : bool :=
  match v with
  | PStr s' => String.eqb s' s
  | _ => false
  end.

(** A Python dict with string keys, in insertion order. *)
Definition dict (V : Type) : Type := list (string * V).

(** Lookup in a dict (first binding wins; [dict_set] keeps keys unique). *)
Fixpoint assoc {V} (k : string) (d : dict V) : option V :=
  match d with
  | [] => None
  | (k', v) :: d' => if String.eqb k' k then Some v else assoc k d'
  end.

(** Store [d[k] = v]: overwrite in place, or append a new key. *)
Fixpoint dict_set {V} (k : string) (v : V) (d : dict V) : dict V :=
  match d with
  | [] => [(k, v)]
  | (k', v') :: d' =>
      if String.eqb k' k then (k, v) :: d' else (k', v') :: dict_set k v d'
  end.

(** ** Strings *)

Module Str.

(** [s.replace(old, new)] for one-character [old] and [new]. *)
Fixpoint replace (old new : ascii) (s : string) : string :=
  match s with
  | EmptyString => EmptyString
  | String c s' =>
      String (if Ascii.eqb c old then new else c) (replace old new s')
  end.

(** [s.endswith(suffix)] *)
Definition endswith (s suffix : string) : bool :=
  let n := String.length s in
  let k := String.length suffix in
  (k <=? n)%nat && String.eqb (substring (n - k) k s) suffix.

(** [s.endswith((a, b, ...))]: any of the suffixes. *)
Definition endswith_any (s : string) (suffixes : list string) : bool :=
  existsb (endswith s) suffixes.

(** [s.split(sep)] for a one-character separator: the pieces between the
    separators, always at least one piece. *)
Fixpoint split (sep : ascii) (s : string) : list string :=
  match s with
  | EmptyString => [EmptyString]
  | String c s' =>
      if Ascii.eqb c sep then EmptyString :: split sep s'
      else match split sep s' with
           | [] => [String c EmptyString]
           | p :: ps => String c p :: ps
           end
  end.

(** [sep.join(parts)] *)
Fixpoint join (sep : string) (parts : list string) : string :=
  match parts with
  | [] => EmptyString
  | [p] => p
  | p :: ps => p ++ sep ++ join sep ps
  end.

Fixpoint map (f : ascii -> ascii) (s : string) : string :=
  match s with
  | EmptyString => EmptyString
  | String c s' => String (f c) (map f s')
  end.

(** Does [k] occur in [s] as a run of consecutive characters? *)
Fixpoint infix (k s : string) : bool :=
  String.prefix k s ||
  match s with
  | EmptyString => false
  | String _ s' => infix k s'
  end.

(** Does the character occur in the string? *)
Fixpoint mem (c : ascii) (s : string) : bool :=
  match s with
  | EmptyString => false
  | String c' s' => Ascii.eqb c' c || mem c s'
  end.

End Str.

(** ** The world a computation runs in *)

(** One piece of a formatted line: literal text, or the text of a value. *)
Inductive fpart : Type :=
| Lit (s : string)
| Fmt (v : pyval)
| FmtExn (e : exn).

Inductive event : Type :=
| Printed (line : list fpart)
| S3_paginate (Bucket Prefix : string)
| S3_get_object (Bucket Key : string) (Range : option (nat * nat))
| S3_copy_object (CopySource : string * string) (Bucket Key : string)
| Dcmread (fp : list byte) (stop_before_pixels : bool)
| HI_call (op : string) (kwargs : list (string * pyval))
| Json_loads (blob : list byte)
| Sleep (secs : Z).

Record world : Type := World {
  now : Z;              (* the clock [time.time()] reads, in ticks *)
  requests : nat;       (* requests sent to the imaging service so far *)
  log : list event      (* what was printed and called, oldest first *)
}.

Definition M (A : Type) : Type := world -> result A * world.

Definition ret {A} (a : A) : M A := fun w => (Ok a, w).

Definition bind {A B} (m : M A) (f : A -> M B) : M B :=
  fun w =>
    match m w with
    | (Ok a, w') => f a w'
    | (Raise e, w') => (Raise e, w')
    | (OutOfFuel, w') => (OutOfFuel, w')
    end.

Definition raise {A} (e : exn) : M A := fun w => (Raise e, w).

Definition out_of_fuel {A} : M A := fun w => (OutOfFuel, w).

(** [try: m  except Exception as e: handler e] *)
Definition try_except {A} (m : M A) (handler : exn -> M A) : M A :=
  fun w =>
    match m w with
    | (Raise e, w') => handler e w'
    | r => r
    end.

Declare Scope py_scope.
Delimit Scope py_scope with py.
Notation "x <- m ;; k" := (bind m (fun x => k))
  (at level 100, m at next level, right associativity) : py_scope.
Notation "m ;; k" := (bind m (fun _ => k))
  (at level 100, right associativity) : py_scope.
Local Open Scope py_scope.

Definition emit (e : event) : M unit :=
  fun w => (Ok tt, World (now w) (requests w) (log w ++ [e])).

Definition print (line : list fpart) : M unit := emit (Printed line).

(** Turn the answer of a service into the end of the call. *)
Definition answer {A} (r : response A) : M A :=
  match r with
  | Success a => ret a
  | Failure e => raise e
  end.

(** [d[k]], raising [KeyError] when the key is absent. *)
Definition getitem (d : pyval) (k : string) : M pyval :=
  match d with
  | PDict kv =>
      match assoc k kv with
      | Some v => ret v
      | None => raise (Exception "KeyError" k)
      end
  | _ => raise (Exception "TypeError" "object is not subscriptable")
  end.

(** [d.get(k, default)] on a dict. *)
Definition dict_get (d : pyval) (k : string) (default : pyval) : M pyval :=
  match d with
  | PDict kv => ret (match assoc k kv with Some v => v | None => default end)
  | _ => raise (Exception "AttributeError" "object has no attribute 'get'")
  end.

(** [k in d]: a key of a dict, an item of a list, a part of a string. *)
Definition contains (d : pyval) (k : string) : M bool :=
  match d with
  | PDict kv => ret (match assoc k kv with Some _ => true | None => false end)
  | PList l => ret (existsb (fun v => eq_str v k) l)
  | PStr s => ret (Str.infix k s)
  | _ => raise (Exception "TypeError" "argument is not iterable")
  end.

(** [for x in xs: body x] *)
Fixpoint for_each {A} (xs : list A) (body : A -> M unit) : M unit :=
  match xs with
  | [] => ret tt
  | x :: xs' => body x ;; for_each xs' body
  end.

(** [for x in xs: acc = body acc x], for a loop that updates a local. *)
Fixpoint fold_m {A S} (xs : list A) (body : S -> A -> M S) (acc : S) : M S :=
  match xs with
  | [] => ret acc
  | x :: xs' => acc' <- body acc x ;; fold_m xs' body acc'
  end.

(** The newline character a Python literal writes as backslash-n. *)
Definition nl : string := String (ascii_of_nat 10) EmptyString.

#[global] Instance byte_eq_dec : EqDecision byte := Byte.byte_eq_dec.

(** ** DicomOrganizer.py *)

Module DicomOrganizer.

Record S3DICOMOrganizer : Type := {
  source_bucket : string;
  source_prefix : string;
  target_bucket : string;
  target_prefix : string
}.

(** [__init__]: [target_bucket or source_bucket]. *)
Definition init (source_bucket source_prefix : string)
    (target_bucket : option string) (target_prefix : string)
  : S3DICOMOrganizer :=
  {| source_bucket := source_bucket;
     source_prefix := source_prefix;
     target_bucket :=
       match target_bucket with
       | Some b => if String.eqb b "" then source_bucket else b
       | None => source_bucket
       end;
     target_prefix := target_prefix |}.

(** One page of a listing: the keys under ['Contents'], or no such entry. *)
Definition page : Type := option (list string).

(** The header fields [pydicom] read, by keyword. *)
Abbreviation dataset := (gmap string string).

(** The object store and the DICOM parser, as the organizer sees them
    during a run. *)
Record services : Type := {
  paginate : string -> string -> list (response page);
  object_body : string -> string -> response (list byte);
  copy_object : string * string -> string -> string -> response unit;
  dcmread : list byte -> bool -> response dataset
}.

(** A ranged read [bytes=first-last] of a body, as the object store serves
    it: the bytes from [first] to [last], cut at the end of the object, and
    an error when the object ends before [first]. *)
Definition byte_range (first last : nat) (body : list byte)
  : response (list byte) :=
  if (length body <=? first)%nat
  then Failure (Exception "ClientError" "InvalidRange")
  else Success (take (S last - first) (drop first body)).

(** The eight characters [_sanitize] replaces; character 34 is the double
    quote. *)
Definition invalid_chars : string :=
  "<>:" ++ String (ascii_of_nat 34) "|?*\".

(** [_sanitize] *)
Definition _sanitize (text : string) : string :=
  fold_left (fun text char => Str.replace char "_"%char text)
            (list_ascii_of_string invalid_chars) text.

Definition dicom_suffixes : list string :=
  [".dcm"; ".dicom"; ".DCM"; ".DICOM"].

Definition DICM : list byte := ["D"; "I"; "C"; "M"]%byte.

(** [ds.get(keyword, default)] *)
Definition ds_get (ds : dataset) (keyword default : string) : string :=
  match ds !! keyword with
  | Some v => v
  | None => default
  end.

(** Lines 53 to 58: the key a file with header [ds] is copied to. *)
Definition new_key (self : S3DICOMOrganizer) (ds : dataset) : string :=
  let patient_id := _sanitize (ds_get ds "PatientID" "Unknown_Patient") in
  let study_uid := _sanitize (ds_get ds "StudyInstanceUID" "Unknown_Study") in
  let series_uid :=
    _sanitize (ds_get ds "SeriesInstanceUID" "Unknown_Series") in
  let sop_instance_uid :=
    _sanitize (ds_get ds "SOPInstanceUID" "Unknown_Instance") in
  target_prefix self ++ "/" ++ patient_id ++ "/" ++ study_uid ++ "/"
    ++ series_uid ++ "/" ++ sop_instance_uid ++ ".dcm".

(** [parts[-k]], for [k] at most [len(parts)]. *)
Definition from_end (parts : list string) (k : nat) : string :=
  nth (length parts - k) parts "".

(** Lines 174 to 188: one listed key added to the structure. *)
Definition add_key (structure : dict (dict (list string))) (key : string)
  : dict (dict (list string)) :=
  let parts := Str.split "/" key in
  if (4 <=? length parts)%nat then
    let patient := from_end parts 4 in
    let study := from_end parts 3 in
    let series := from_end parts 2 in
    let structure :=
      match assoc patient structure with
      | None => dict_set patient [] structure
      | Some _ => structure
      end in
    let studies := default [] (assoc patient structure) in
    let studies :=
      match assoc study studies with
      | None => dict_set study [] studies
      | Some _ => studies
      end in
    let series_list := default [] (assoc study studies) in
    let series_list :=
      if bool_decide (series ∈ series_list) then series_list
      else (series_list ++ [series])%list in
    dict_set patient (dict_set study series_list studies) structure
  else structure.

Section Organizer.

Context (svc : services).

(** [self.s3_client.get_object(Bucket=..., Key=..., Range=...)] followed
    by [response['Body'].read()]. *)
Definition get_object (Bucket Key : string) (Range : option (nat * nat))
  : M (list byte) :=
  emit (S3_get_object Bucket Key Range) ;;
  body <- answer (object_body svc Bucket Key) ;;
  match Range with
  | None => ret body
  | Some (first, last) => answer (byte_range first last body)
  end.

(** [_is_dicom_file] *)
Definition _is_dicom_file (self : S3DICOMOrganizer) (s3_key : string)
  : M bool :=
  try_except
    (header <- get_object (source_bucket self) s3_key (Some (128, 131))%nat ;;
     ret (bool_decide (header = DICM)))
    (fun _ => ret false).

(** Lines 92 to 94: one listed object. *)
Definition list_object (self : S3DICOMOrganizer)
    (dicom_files : list string) (key : string) : M (list string) :=
  is_dicom <-
    (if Str.endswith_any key dicom_suffixes then ret true
     else _is_dicom_file self key) ;;
  ret (if is_dicom then (dicom_files ++ [key])%list else dicom_files).

(** [_list_dicom_files] *)
Definition _list_dicom_files (self : S3DICOMOrganizer) : M (list string) :=
  emit (S3_paginate (source_bucket self) (source_prefix self)) ;;
  fold_m (paginate svc (source_bucket self) (source_prefix self))
    (fun dicom_files fetched =>
       page <- answer fetched ;;
       match page with
       | None => ret dicom_files
       | Some contents => fold_m contents (list_object self) dicom_files
       end)
    [].

(** [_read_dicom_metadata] *)
Definition _read_dicom_metadata (self : S3DICOMOrganizer)
    (s3_key : string) : M dataset :=
  dicom_bytes <- get_object (source_bucket self) s3_key None ;;
  emit (Dcmread dicom_bytes true) ;;
  answer (dcmread svc dicom_bytes true).

(** Lines 51 to 70: the body of the loop over the files found. *)
Definition organize_file (self : S3DICOMOrganizer) (s3_key : string)
  : M unit :=
  try_except
    (ds <- _read_dicom_metadata self s3_key ;;
     let new_key := new_key self ds in
     let copy_source := (source_bucket self, s3_key) in
     emit (S3_copy_object copy_source (target_bucket self) new_key) ;;
     answer (copy_object svc copy_source (target_bucket self) new_key) ;;
     print [Lit "Organized: "; Fmt (PStr s3_key); Lit " -> ";
            Fmt (PStr new_key)])
    (fun e =>
       print [Lit "Error processing "; Fmt (PStr s3_key); Lit ": ";
              FmtExn e]).

(** [organize_by_patient_study_series] *)
Definition organize_by_patient_study_series (self : S3DICOMOrganizer)
  : M unit :=
  dicom_files <- _list_dicom_files self ;;
  print [Lit "Found "; Fmt (PInt (Z.of_nat (length dicom_files)));
         Lit " DICOM files to organize"] ;;
  for_each dicom_files (organize_file self) ;;
  print [Lit nl; Lit "Organization complete in bucket: ";
         Fmt (PStr (target_bucket self)); Lit "/";
         Fmt (PStr (target_prefix self))].

(** [get_organized_structure] *)
Definition get_organized_structure (self : S3DICOMOrganizer)
  : M (dict (dict (list string))) :=
  emit (S3_paginate (target_bucket self) (target_prefix self)) ;;
  fold_m (paginate svc (target_bucket self) (target_prefix self))
    (fun structure fetched =>
       page <- answer fetched ;;
       match page with
       | None => ret structure
       | Some contents => ret (fold_left add_key contents structure)
       end)
    [].

End Organizer.

End DicomOrganizer.

(** ** HealthImaging.py *)

Module HealthImaging.

Record AWSHealthImaging : Type := {
  datastore_id : pyval;
  region_name : pyval
}.

(** The imaging service and the clock, as the client sees them: what the
    [n]-th request is answered and how many ticks it takes, how many ticks
    a sleep started after [n] requests lasts beyond what was asked, and the
    JSON parser of the standard library. *)
Record service : Type := {
  respond : nat -> string -> dict pyval -> response pyval;
  latency : nat -> nat;
  oversleep : nat -> nat;
  json_loads : list byte -> response pyval
}.

(** Durations and clock readings are counted in ticks of the clock;
    [wait_for_import_completion] takes its two durations in ticks. *)

(** [len(v)] *)
Definition len (v : pyval) : M Z :=
  match v with
  | PStr s => ret (Z.of_nat (String.length s))
  | PBytes b => ret (Z.of_nat (length b))
  | PList l => ret (Z.of_nat (length l))
  | PDict d => ret (Z.of_nat (length d))
  | _ => raise (Exception "TypeError" "object has no len()")
  end.

(** The items [for x in v] visits. *)
Definition iter (v : pyval) : M (list pyval) :=
  match v with
  | PStr s =>
      ret (List.map (fun c => PStr (String c EmptyString))
                    (list_ascii_of_string s))
  | PBytes b => ret (List.map (fun x => PInt (Z.of_N (Byte.to_N x))) b)
  | PList l => ret l
  | PDict d => ret (List.map (fun kv => PStr (fst kv)) d)
  | _ => raise (Exception "TypeError" "object is not iterable")
  end.

(** [blob.read()] on the streaming body of a response. *)
Definition read (blob : pyval) : M (list byte) :=
  match blob with
  | PBytes b => ret b
  | _ => raise (Exception "AttributeError" "object has no attribute 'read'")
  end.

Section Client.

Context (svc : service).

(** A call [self.client.op(...)] with the keyword arguments [kwargs]. *)
Definition client_call (op : string) (kwargs : dict pyval) : M pyval :=
  fun w =>
    let n := requests w in
    let w' := World (now w + Z.of_nat (latency svc n)) (S n)
                    (log w ++ [HI_call op kwargs]) in
    match respond svc n op kwargs with
    | Success v => (Ok v, w')
    | Failure e => (Raise e, w')
    end.

(** [time.time()] *)
Definition time_time : M Z := fun w => (Ok (now w), w).

(** [time.sleep(secs)] *)
Definition time_sleep (secs : Z) : M unit :=
  fun w =>
    if secs <? 0
    then (Raise (Exception "ValueError"
                           "sleep length must be non-negative"), w)
    else (Ok tt,
          World (now w + secs + Z.of_nat (oversleep svc (requests w)))
                (requests w) (log w ++ [Sleep secs])).

(** [create_datastore] *)
Definition create_datastore (self : AWSHealthImaging)
    (datastore_name : pyval) : M pyval :=
  try_except
    (response <-
       client_call "create_datastore" [("datastoreName", datastore_name)] ;;
     id <- getitem response "datastoreId" ;;
     print [Lit "Created datastore: "; Fmt id] ;;
     getitem response "datastoreId")
    (fun e =>
       print [Lit "Error creating datastore: "; FmtExn e] ;;
       ret PNone).

(** [import_dicom_from_s3] *)
Definition import_dicom_from_s3 (self : AWSHealthImaging)
    (input_s3_uri output_s3_uri role_arn : pyval) : M pyval :=
  try_except
    (response <-
       client_call "start_dicom_import_job"
         [("datastoreId", datastore_id self);
          ("inputS3Uri", input_s3_uri);
          ("outputS3Uri", output_s3_uri);
          ("dataAccessRoleArn", role_arn)] ;;
     job_id <- getitem response "jobId" ;;
     print [Lit "Started import job: "; Fmt job_id] ;;
     ret job_id)
    (fun e =>
       print [Lit "Error starting import job: "; FmtExn e] ;;
       ret PNone).

(** [get_import_job_status] *)
Definition get_import_job_status (self : AWSHealthImaging)
    (job_id : pyval) : M pyval :=
  try_except
    (response <-
       client_call "get_dicom_import_job"
         [("datastoreId", datastore_id self); ("jobId", job_id)] ;;
     job_properties <- getitem response "jobProperties" ;;
     status <- getitem job_properties "jobStatus" ;;
     print [Lit "Job "; Fmt job_id; Lit " status: "; Fmt status] ;;
     has_message <- contains job_properties "message" ;;
     (if has_message then
        message <- getitem job_properties "message" ;;
        print [Lit "Message: "; Fmt message]
      else ret tt) ;;
     getitem response "jobProperties")
    (fun e =>
       print [Lit "Error getting job status: "; FmtExn e] ;;
       ret PNone).

(** The [while] loop of [wait_for_import_completion]; each turn of the
    loop uses one unit of fuel. *)
Fixpoint wait_loop (fuel : nat) (self : AWSHealthImaging) (job_id : pyval)
    (check_interval max_wait start_time : Z) : M bool :=
  match fuel with
  | O => out_of_fuel
  | S fuel' =>
      t <- time_time ;;
      if t - start_time <? max_wait then
        job_props <- get_import_job_status self job_id ;;
        if negb (truthy job_props) then ret false
        else
          status <- getitem job_props "jobStatus" ;;
          if eq_str status "COMPLETED" then
            print [Lit "Import job completed successfully!"] ;;
            ret true
          else if existsb (eq_str status)
                          ["FAILED"; "COMPLETED_WITH_ERRORS"] then
            print [Lit "Import job ended with status: "; Fmt status] ;;
            ret false
          else
            print [Lit "Waiting... (status: "; Fmt status; Lit ")"] ;;
            time_sleep check_interval ;;
            wait_loop fuel' self job_id check_interval max_wait start_time
      else
        print [Lit "Max wait time exceeded"] ;;
        ret false
  end.

(** [wait_for_import_completion] *)
Definition wait_for_import_completion (fuel : nat)
    (self : AWSHealthImaging) (job_id : pyval)
    (check_interval max_wait : Z) : M bool :=
  start_time <- time_time ;;
  wait_loop fuel self job_id check_interval max_wait start_time.

(** Lines 139 to 148: one image set of the search result printed. *)
Definition print_image_set (img_set : pyval) : M unit :=
  id <- getitem img_set "imageSetId" ;;
  print [Lit nl; Lit "  Image Set ID: "; Fmt id] ;;
  version <- dict_get img_set "version" (PStr "N/A") ;;
  print [Lit "  Version: "; Fmt version] ;;
  has_tags <- contains img_set "DICOMTags" ;;
  if has_tags then
    tags <- getitem img_set "DICOMTags" ;;
    patient <- dict_get tags "DICOMPatientId" (PStr "N/A") ;;
    print [Lit "  Patient ID: "; Fmt patient] ;;
    date <- dict_get tags "DICOMStudyDate" (PStr "N/A") ;;
    print [Lit "  Study Date: "; Fmt date] ;;
    description <- dict_get tags "DICOMStudyDescription" (PStr "N/A") ;;
    print [Lit "  Modality: "; Fmt description]
  else ret tt.

(** [search_studies] *)
Definition search_studies (self : AWSHealthImaging)
    (filters max_results : pyval) : M pyval :=
  try_except
    (let params :=
       [("datastoreId", datastore_id self); ("maxResults", max_results)] in
     let params :=
       if truthy filters then dict_set "searchCriteria" filters params
       else params in
     response <- client_call "search_image_sets" params ;;
     image_sets <-
       dict_get response "imageSetsMetadataSummaries" (PList []) ;;
     n <- len image_sets ;;
     print [Lit nl; Lit "Found "; Fmt (PInt n); Lit " image set(s):"] ;;
     items <- iter image_sets ;;
     for_each items print_image_set ;;
     ret image_sets)
    (fun e =>
       print [Lit "Error searching image sets: "; FmtExn e] ;;
       ret (PList [])).

(** Lines 187 to 194: one series of the metadata printed. *)
Definition print_series (series : pyval) : M unit :=
  series_dicom <- dict_get series "DICOM" (PDict []) ;;
  print [Lit nl; Lit "    Series:"] ;;
  modality <- dict_get series_dicom "Modality" (PStr "N/A") ;;
  print [Lit "      Modality: "; Fmt modality] ;;
  description <- dict_get series_dicom "SeriesDescription" (PStr "N/A") ;;
  print [Lit "      Description: "; Fmt description] ;;
  instances <- dict_get series "Instances" (PList []) ;;
  n <- len instances ;;
  print [Lit "      Instances: "; Fmt (PInt n); Lit " images"].

(** Lines 181 to 194: one study of the metadata printed. *)
Definition print_study (study : pyval) : M unit :=
  study_dicom <- dict_get study "DICOM" (PDict []) ;;
  print [Lit nl; Lit "  Study:"] ;;
  date <- dict_get study_dicom "StudyDate" (PStr "N/A") ;;
  print [Lit "    Date: "; Fmt date] ;;
  description <- dict_get study_dicom "StudyDescription" (PStr "N/A") ;;
  print [Lit "    Description: "; Fmt description] ;;
  series_list <- dict_get study "Series" (PList []) ;;
  items <- iter series_list ;;
  for_each items print_series.

(** [get_image_set_metadata] *)
Definition get_image_set_metadata (self : AWSHealthImaging)
    (image_set_id version_id : pyval) : M pyval :=
  try_except
    (let params :=
       [("datastoreId", datastore_id self);
        ("imageSetId", image_set_id)] in
     let params :=
       if truthy version_id then dict_set "versionId" version_id params
       else params in
     response <- client_call "get_image_set_metadata" params ;;
     metadata_blob <- getitem response "imageSetMetadataBlob" ;;
     text <- read metadata_blob ;;
     emit (Json_loads text) ;;
     metadata <- answer (json_loads svc text) ;;
     print [Lit nl; Lit "=== Image Set Metadata ==="] ;;
     print [Lit "Image Set ID: "; Fmt image_set_id] ;;
     has_patient <- contains metadata "Patient" ;;
     (if has_patient then
        patient <- getitem metadata "Patient" ;;
        patient_dicom <- dict_get patient "DICOM" (PDict []) ;;
        patient_id <- dict_get patient_dicom "PatientID" (PStr "N/A") ;;
        print [Lit nl; Lit "Patient ID: "; Fmt patient_id] ;;
        studies <- dict_get patient "Study" (PList []) ;;
        items <- iter studies ;;
        for_each items print_study
      else ret tt) ;;
     ret metadata)
    (fun e =>
       print [Lit "Error getting image set metadata: "; FmtExn e] ;;
       ret PNone).

(** [get_image_frame] *)
Definition get_image_frame (self : AWSHealthImaging)
    (image_set_id image_frame_id : pyval) : M pyval :=
  try_except
    (response <-
       client_call "get_image_frame"
         [("datastoreId", datastore_id self);
          ("imageSetId", image_set_id);
          ("imageFrameInformation",
           PDict [("imageFrameId", image_frame_id)])] ;;
     image_blob <- getitem response "imageFrameBlob" ;;
     image_data <- read image_blob ;;
     print [Lit "Retrieved image frame: ";
            Fmt (PInt (Z.of_nat (length image_data))); Lit " bytes"] ;;
     content_type <- dict_get response "contentType" (PStr "N/A") ;;
     print [Lit "Content type: "; Fmt content_type] ;;
     ret (PBytes image_data))
    (fun e =>
       print [Lit "Error getting image frame: "; FmtExn e] ;;
       ret PNone).

(** [delete_image_set] *)
Definition delete_image_set (self : AWSHealthImaging)
    (image_set_id : pyval) : M pyval :=
  try_except
    (response <-
       client_call "delete_image_set"
         [("datastoreId", datastore_id self);
          ("imageSetId", image_set_id)] ;;
     print [Lit "Deleted image set: "; Fmt image_set_id] ;;
     state <- getitem response "imageSetState" ;;
     print [Lit "Status: "; Fmt state] ;;
     ret (PBool true))
    (fun e =>
       print [Lit "Error deleting image set: "; FmtExn e] ;;
       ret (PBool false)).

(** [delete_datastore] *)
Definition delete_datastore (self : AWSHealthImaging)
    (datastore_id : pyval) : M pyval :=
  let ds_id := py_or datastore_id (HealthImaging.datastore_id self) in
  try_except
    (response <- client_call "delete_datastore" [("datastoreId", ds_id)] ;;
     print [Lit "Deleted datastore: "; Fmt ds_id] ;;
     status <- getitem response "datastoreStatus" ;;
     print [Lit "Status: "; Fmt status] ;;
     ret (PBool true))
    (fun e =>
       print [Lit "Error deleting datastore: "; FmtExn e] ;;
       print [Lit "Note: Datastore must be empty before deletion"] ;;
       ret (PBool false)).

End Client.

End HealthImaging.

(** ** main.py *)

Module Main.

Import DicomOrganizer HealthImaging.

(** *** Calls, as Python binds their arguments *)

(** The parameters of a [def] after [self]: names and default values. *)
Definition signature : Type := list (string * option pyval).

(** Bind positional and keyword arguments to the parameters, left to
    right.  (When several arguments are missing Python names them all in
    one message; here the first one is named.) *)
Fixpoint bind_params (fname : string) (params : signature)
    (args : list pyval) (kwargs : dict pyval) : response (list pyval) :=
  match params with
  | [] =>
      match args with
      | [] => Success []
      | _ :: _ =>
          Failure (Exception "TypeError"
                     (fname ++ "() takes fewer positional arguments"))
      end
  | (name, default) :: params' =>
      let rest (v : pyval) (args' : list pyval) :=
        match bind_params fname params' args' kwargs with
        | Success vs => Success (v :: vs)
        | Failure e => Failure e
        end in
      match args with
      | a :: args' =>
          match assoc name kwargs with
          | Some _ =>
              Failure (Exception "TypeError"
                         (fname ++ "() got multiple values for argument '"
                                ++ name ++ "'"))
          | None => rest a args'
          end
      | [] =>
          match assoc name kwargs, default with
          | Some v, _ => rest v []
          | None, Some d => rest d []
          | None, None =>
              Failure (Exception "TypeError"
                         (fname ++ "() missing required positional argument: '"
                                ++ name ++ "'"))
          end
      end
  end.

Definition bind_args (fname : string) (params : signature)
    (args : list pyval) (kwargs : dict pyval) : M (list pyval) :=
  match
    List.find (fun kv => negb (existsb (String.eqb (fst kv))
                                       (List.map fst params))) kwargs
  with
  | Some (k, _) =>
      raise (Exception "TypeError"
               (fname ++ "() got an unexpected keyword argument '"
                      ++ k ++ "'"))
  | None => answer (bind_params fname params args kwargs)
  end.

(** [v[i]] for a position [i]. *)
Definition getindex (v : pyval) (i : nat) : M pyval :=
  match v with
  | PList l =>
      match nth_error l i with
      | Some x => ret x
      | None => raise (Exception "IndexError" "list index out of range")
      end
  | PStr s =>
      match String.get i s with
      | Some c => ret (PStr (String c EmptyString))
      | None => raise (Exception "IndexError" "string index out of range")
      end
  | PBytes b =>
      match nth_error b i with
      | Some x => ret (PInt (Z.of_N (Byte.to_N x)))
      | None => raise (Exception "IndexError" "index out of range")
      end
  | PDict _ => raise (Exception "KeyError" "0")
  | _ => raise (Exception "TypeError" "object is not subscriptable")
  end.

(** A number given where the code computes with it. *)
Definition as_number (v : pyval) : M Z :=
  match v with
  | PInt z => ret z
  | PBool b => ret (if b then 1 else 0)
  | _ => raise (Exception "TypeError" "unsupported operand type(s)")
  end.

(** *** The class [AWSHealthImaging], as [main] uses it *)

(** What the program runs against: the object store and the DICOM parser,
    the imaging service, the number of clock ticks in a second, and the
    built-in [str] that formats a value inside a string. *)
Record runtime : Type := {
  s3 : DicomOrganizer.services;
  imaging : HealthImaging.service;
  second : Z;
  str : pyval -> string
}.

Definition init_params : signature :=
  [("datastore_id", None); ("region_name", Some (PStr "us-east-1"))].

(** [AWSHealthImaging(...)] *)
Definition construct (args : list pyval) (kwargs : dict pyval)
  : M AWSHealthImaging :=
  vals <- bind_args "__init__" init_params args kwargs ;;
  ret {| datastore_id := nth 0 vals PNone;
         region_name := nth 1 vals PNone |}.

Section Driver.

Context (rt : runtime).

(** The methods [class AWSHealthImaging] defines besides [__init__]:
    name, parameters, and the body applied to the bound arguments. *)
Definition methods
  : dict (signature * (nat -> AWSHealthImaging -> list pyval -> M pyval)) :=
  let arg (vals : list pyval) (i : nat) := nth i vals PNone in
  [("create_datastore",
    ([("datastore_name", None)],
     fun _ self a => create_datastore (imaging rt) self (arg a 0%nat)));
   ("import_dicom_from_s3",
    ([("input_s3_uri", None); ("output_s3_uri", None);
      ("role_arn", None)],
     fun _ self a =>
       import_dicom_from_s3 (imaging rt) self
         (arg a 0%nat) (arg a 1%nat) (arg a 2%nat)));
   ("get_import_job_status",
    ([("job_id", None)],
     fun _ self a => get_import_job_status (imaging rt) self (arg a 0%nat)));
   ("wait_for_import_completion",
    ([("job_id", None); ("check_interval", Some (PInt 30));
      ("max_wait", Some (PInt 3600))],
     fun fuel self a =>
       check_interval <- as_number (arg a 1%nat) ;;
       max_wait <- as_number (arg a 2%nat) ;;
       done <- wait_for_import_completion (imaging rt) fuel self
                 (arg a 0%nat) (check_interval * second rt)
                 (max_wait * second rt) ;;
       ret (PBool done)));
   ("search_studies",
    ([("filters", Some PNone); ("max_results", Some (PInt 50))],
     fun _ self a =>
       search_studies (imaging rt) self (arg a 0%nat) (arg a 1%nat)));
   ("get_image_set_metadata",
    ([("image_set_id", None); ("version_id", Some PNone)],
     fun _ self a =>
       get_image_set_metadata (imaging rt) self
         (arg a 0%nat) (arg a 1%nat)));
   ("get_image_frame",
    ([("image_set_id", None); ("image_frame_id", None)],
     fun _ self a =>
       get_image_frame (imaging rt) self (arg a 0%nat) (arg a 1%nat)));
   ("delete_image_set",
    ([("image_set_id", None)],
     fun _ self a => delete_image_set (imaging rt) self (arg a 0%nat)));
   ("delete_datastore",
    ([("datastore_id", Some PNone)],
     fun _ self a => delete_datastore (imaging rt) self (arg a 0%nat)))].

(** The attributes [__init__] sets on the instance. *)
Definition instance_attributes : list string :=
  ["client"; "datastore_id"; "region_name"].

(** A call [self.name(...)]: look the attribute up, bind the arguments,
    run the body. *)
Definition call_method (fuel : nat) (self : AWSHealthImaging)
    (name : string) (args : list pyval) (kwargs : dict pyval) : M pyval :=
  match assoc name methods with
  | Some (params, body) =>
      vals <- bind_args name params args kwargs ;;
      body fuel self vals
  | None =>
      if existsb (String.eqb name) instance_attributes
      then raise (Exception "TypeError" "object is not callable")
      else raise (Exception "AttributeError"
                    ("'AWSHealthImaging' object has no attribute '"
                       ++ name ++ "'"))
  end.

(** *** [main] *)

Definition SOURCE_BUCKET : string := "arn:aws:s3:::source-healthimaging-test".
Definition SOURCE_PREFIX : string := "".
Definition TARGET_BUCKET : string := "arn:aws:s3:::target-healthimaging-test".
Definition TARGET_PREFIX : string := "".
Definition IMPORT_OUTPUT_BUCKET : string :=
  "arn:aws:s3:::output-healthimaging-test".
Definition IMPORT_OUTPUT_PREFIX : string := "".
Definition HEALTHIMAGING_ROLE_ARN : string :=
  "arn:aws:iam::123456789012:role/HealthImagingImportRole".
Definition DATASTORE_NAME : string := "test-healthimaging-datastore".
Definition AWS_REGION : string := "us-east-1".

(** Sixty equals signs. *)
Definition rule : string := string_of_list_ascii (repeat "="%char 60).

(** The three lines that open every step. *)
Definition banner (title : string) : M unit :=
  print [Lit (nl ++ rule)] ;;
  print [Lit title] ;;
  print [Lit rule].

(** Lines 214 to 219. *)
Definition main_complete (datastore_id : pyval) : M unit :=
  banner "WORKFLOW COMPLETE" ;;
  print [Lit nl; Lit "Datastore ID: "; Fmt datastore_id] ;;
  print [Lit "Region: "; Fmt (PStr AWS_REGION)].

(** Lines 179 to 211: one image frame fetched. *)
Definition main_frame (fuel : nat) (healthimaging : AWSHealthImaging)
    (first_image_set_id metadata : pyval) : M unit :=
  banner "STEP 7: Retrieving image frame (pixel data)" ;;
  if truthy metadata then
    try_except
      (patient <- dict_get metadata "Patient" (PDict []) ;;
       studies <- dict_get patient "Study" (PList [PDict []]) ;;
       study <- getindex studies 0 ;;
       series_list <- dict_get study "Series" (PList [PDict []]) ;;
       series <- getindex series_list 0 ;;
       instances <- dict_get series "Instances" (PList [PDict []]) ;;
       instance <- getindex instances 0 ;;
       series_dicom <- dict_get series "DICOM" (PDict []) ;;
       series_uid <- dict_get series_dicom "SeriesInstanceUID" PNone ;;
       instance_dicom <- dict_get instance "DICOM" (PDict []) ;;
       instance_uid <- dict_get instance_dicom "SOPInstanceUID" PNone ;;
       if truthy series_uid && truthy instance_uid then
         let image_frame_id :=
           PStr (str rt series_uid ++ "/" ++ str rt instance_uid ++ "/1") in
         print [Lit nl; Lit "Retrieving image frame: ";
                Fmt image_frame_id] ;;
         image_data <-
           call_method fuel healthimaging "get_image_frame" []
             [("image_set_id", first_image_set_id);
              ("image_frame_id", image_frame_id)] ;;
         if truthy image_data then
           n <- len image_data ;;
           print [Lit "Successfully retrieved "; Fmt (PInt n);
                  Lit " bytes of image data"] ;;
           print [Lit "Note: Data is in HTJ2K format and needs decoding"]
         else ret tt
       else ret tt)
      (fun e => print [Lit "Could not retrieve image frame: "; FmtExn e])
  else ret tt.

(** Lines 159 to 219: metadata of the first image set, then one frame. *)
Definition main_retrieve (fuel : nat) (healthimaging : AWSHealthImaging)
    (datastore_id image_sets : pyval) : M unit :=
  banner "STEP 6: Retrieving detailed metadata" ;;
  if truthy image_sets then
    first <- getindex image_sets 0 ;;
    first_image_set_id <- getitem first "imageSetId" ;;
    print [Lit nl; Lit "Retrieving metadata for image set: ";
           Fmt first_image_set_id] ;;
    metadata <-
      call_method fuel healthimaging "get_image_set_metadata"
        [first_image_set_id] [] ;;
    (if truthy metadata then
       print [Lit nl; Lit "Metadata retrieved successfully!"] ;;
       print [Lit "You can now use this to:"] ;;
       print [Lit "  - Display study information in a UI"] ;;
       print [Lit "  - Find specific images to retrieve"] ;;
       print [Lit "  - Build a DICOM viewer"]
     else ret tt) ;;
    main_frame fuel healthimaging first_image_set_id metadata ;;
    main_complete datastore_id
  else
    banner "STEP 7: Retrieving image frame (pixel data)" ;;
    raise (Exception "UnboundLocalError"
             "cannot access local variable 'metadata'").

(** Lines 125 to 219: the searches, then the retrieval. *)
Definition main_search (fuel : nat) (healthimaging : AWSHealthImaging)
    (datastore_id : pyval) : M unit :=
  banner "STEP 5: Searching for imported image sets" ;;
  print [Lit nl; Lit "Searching for all image sets..."] ;;
  image_sets <-
    call_method fuel healthimaging "search_image_sets" []
      [("max_results", PInt 10)] ;;
  if negb (truthy image_sets) then
    print [Lit "No image sets found. Import may have failed."]
  else
    print [Lit nl; Lit "--- Searching by Patient ID ---"] ;;
    let patient_filter :=
      PDict [("filters",
              PList [PDict [("values",
                             PList [PDict [("DICOMPatientId",
                                            PStr "PATIENT001")]]);
                            ("operator", PStr "EQUAL")]])] in
    call_method fuel healthimaging "search_image_sets" []
      [("filters", patient_filter)] ;;
    print [Lit nl; Lit "--- Searching for CT scans ---"] ;;
    let modality_filter :=
      PDict [("filters",
              PList [PDict [("values",
                             PList [PDict [("DICOMSeriesModality",
                                            PStr "CT")]]);
                            ("operator", PStr "EQUAL")]])] in
    call_method fuel healthimaging "search_image_sets" []
      [("filters", modality_filter)] ;;
    main_retrieve fuel healthimaging datastore_id image_sets.

(** Lines 87 to 219: the import job, then the searches. *)
Definition main_import (fuel : nat) (healthimaging : AWSHealthImaging)
    (datastore_id : pyval) : M unit :=
  banner "STEP 4: Importing DICOM files into HealthImaging" ;;
  let input_s3_uri := "s3://" ++ TARGET_BUCKET ++ "/" ++ TARGET_PREFIX in
  let output_s3_uri :=
    "s3://" ++ IMPORT_OUTPUT_BUCKET ++ "/" ++ IMPORT_OUTPUT_PREFIX in
  print [Lit nl; Lit "Input location: "; Fmt (PStr input_s3_uri)] ;;
  print [Lit "Output location: "; Fmt (PStr output_s3_uri)] ;;
  print [Lit "IAM Role: "; Fmt (PStr HEALTHIMAGING_ROLE_ARN)] ;;
  job_id <-
    call_method fuel healthimaging "import_dicom_from_s3" []
      [("input_s3_uri", PStr input_s3_uri);
       ("output_s3_uri", PStr output_s3_uri);
       ("role_arn", PStr HEALTHIMAGING_ROLE_ARN)] ;;
  if negb (truthy job_id) then
    print [Lit "Failed to start import job. Exiting."]
  else
    print [Lit nl; Lit "Waiting for import to complete..."] ;;
    success <-
      call_method fuel healthimaging "wait_for_import_completion" []
        [("job_id", job_id); ("check_interval", PInt 30);
         ("max_wait", PInt 3600)] ;;
    if negb (truthy success) then
      print [Lit nl; Lit "Import did not complete successfully."] ;;
      print [Lit "Check import logs at: "; Fmt (PStr output_s3_uri)]
    else main_search fuel healthimaging datastore_id.

(** Lines 67 to 219: what [main] does with the client once it has one. *)
Definition main_with_client (fuel : nat) (healthimaging : AWSHealthImaging)
  : M unit :=
  print [Lit nl; Lit "Listing existing datastores..."] ;;
  datastores <- call_method fuel healthimaging "list_datastores" [] [] ;;
  if truthy datastores then
    first <- getindex datastores 0 ;;
    datastore_id <- getitem first "datastoreId" ;;
    let healthimaging :=
      {| HealthImaging.datastore_id := datastore_id;
         region_name := region_name healthimaging |} in
    print [Lit nl; Lit "Using existing datastore: "; Fmt datastore_id] ;;
    main_import fuel healthimaging datastore_id
  else
    print [Lit nl; Lit "Creating new datastore: ";
           Fmt (PStr DATASTORE_NAME)] ;;
    datastore_id <-
      call_method fuel healthimaging "create_datastore"
        [PStr DATASTORE_NAME] [] ;;
    if negb (truthy datastore_id) then
      print [Lit "Failed to create datastore. Exiting."]
    else main_import fuel healthimaging datastore_id.

(** Lines 52 to 57: the organized structure printed. *)
Definition print_structure (structure : dict (dict (list string)))
  : M unit :=
  for_each structure (fun '(patient_id, studies) =>
    print [Lit nl; Lit "Patient: "; Fmt (PStr patient_id)] ;;
    for_each studies (fun '(study_id, series_list) =>
      print [Lit "  Study: "; Fmt (PStr study_id)] ;;
      for_each series_list (fun series_id =>
        print [Lit "    Series: "; Fmt (PStr series_id)]))).

(** Lines 34 to 57: the files organized and the result shown. *)
Definition main_organize : M unit :=
  banner "STEP 1: Organizing DICOM files in S3" ;;
  let organizer :=
    DicomOrganizer.init SOURCE_BUCKET SOURCE_PREFIX (Some TARGET_BUCKET)
                        TARGET_PREFIX in
  organize_by_patient_study_series (s3 rt) organizer ;;
  print [Lit nl; Lit "--- Organized Structure ---"] ;;
  structure <- get_organized_structure (s3 rt) organizer ;;
  print_structure structure.

(** [main] *)
Definition main (fuel : nat) : M unit :=
  main_organize ;;
  banner "STEP 3: Setting up AWS HealthImaging" ;;
  healthimaging <- construct [] [("region_name", PStr AWS_REGION)] ;;
  main_with_client fuel healthimaging.

End Driver.

End Main.

(** The world after the events [es] have been logged. *)
Definition logged (w : world) (es : list event) : world :=
  World (now w) (requests w) (log w ++ es).

(** Whatever the world, the computation changes nothing but the log, every
    event it logs satisfies [P], and it does not run out of fuel. *)
Definition emits {A} (P : event -> Prop) (m : M A) : Prop :=
  forall w,
    fst (m w) <> OutOfFuel /\
    exists es, snd (m w) = logged w es /\ Forall P es.

(** ** Vocabulary of the specification *)

Module OrganizerSpec.

Import DicomOrganizer.

(** A listed character becomes an underscore, any other stays. *)
Definition replace_listed (c : ascii) : ascii :=
  if Str.mem c invalid_chars then "_"%char else c.




(** What replacing the characters of [chars] one after the other does to
    one character. *)
Definition replace_each (chars : list ascii) (c : ascii) : ascii :=
  fold_left (fun a ch => if Ascii.eqb a ch then "_"%char else a) chars c.

(** [suffix] is [s] or what is left of [s] after some leading characters. *)
Fixpoint is_tail (suffix s : string) : bool :=
  String.eqb s suffix ||
  match s with
  | EmptyString => false
  | String _ s' => is_tail suffix s'
  end.

(** The extension of a key: the key from its last dot on, empty when the
    key has no dot. *)
Fixpoint extension (key : string) : string :=
  match key with
  | EmptyString => EmptyString
  | String c key' =>
      if Str.mem "."%char key' then extension key'
      else if Ascii.eqb c "."%char then key
      else EmptyString
  end.

(** The bytes at offsets 128 to 131 are the marker. *)
Definition marker_at_128 (body : list byte) : Prop :=
  body !! 128%nat = Some "D"%byte /\ body !! 129%nat = Some "I"%byte /\
  body !! 130%nat = Some "C"%byte /\ body !! 131%nat = Some "M"%byte.

(** The classification rule: a known extension, or the marker in the
    object the store holds under the key. *)
Definition is_dicom (svc : services) (self : S3DICOMOrganizer)
    (key : string) : Prop :=
  extension key ∈ dicom_suffixes \/
  exists body,
    object_body svc (source_bucket self) key = Success body /\
    marker_at_128 body.

(** What a ranged read of the marker bytes of the object tells. *)
Definition marker_read (svc : services) (self : S3DICOMOrganizer)
    (key : string) : bool :=
  match object_body svc (source_bucket self) key with
  | Success body =>
      match byte_range 128 131 body with
      | Success header => bool_decide (header = DICM)
      | Failure _ => false
      end
  | Failure _ => false
  end.

(** The test the listing applies to a key. *)
Definition classify (svc : services) (self : S3DICOMOrganizer)
    (key : string) : bool :=
  Str.endswith_any key dicom_suffixes || marker_read svc self key.

(** The keys of a listing, page after page. *)
Definition listed (pages : list page) : list string :=
  concat (List.map (default []) pages).

(** The structure has [series] under [study] under [patient]. *)
Definition under (structure : dict (dict (list string)))
    (patient study series : string) : Prop :=
  exists studies series_list,
    (patient, studies) ∈ structure /\ (study, series_list) ∈ studies /\
    series ∈ series_list.

(** The series the structure lists for a patient and a study. *)
Definition series_of (structure : dict (dict (list string)))
    (patient study : string) : list string :=
  match assoc patient structure with
  | Some studies => default [] (assoc study studies)
  | None => []
  end.

(** The key has at least four components and these are its fourth-,
    third- and second-from-last. *)
Definition placed (key patient study series : string) : Prop :=
  let parts := Str.split "/" key in
  (4 <= length parts)%nat /\ from_end parts 4 = patient /\
  from_end parts 3 = study /\ from_end parts 2 = series.

(** The ranged reads a listing of [keys] makes: one for each key without
    a known extension, in order. *)
Definition probes (self : S3DICOMOrganizer) (keys : list string)
  : list event :=
  flat_map
    (fun key =>
       if Str.endswith_any key dicom_suffixes then []
       else [S3_get_object (source_bucket self) key (Some (128, 131)%nat)])
    keys.

(** Keys are unique at both levels, looked up, and no series is listed
    twice. *)
Definition well_formed (s : dict (dict (list string))) : Prop :=
  NoDup (List.map fst s) /\
  (forall p studies,
      assoc p s = Some studies -> NoDup (List.map fst studies)) /\
  (forall p st, NoDup (series_of s p st)).


(** What the organizer does to the world: it prints, it calls the object
    store, and it parses headers up to the pixel data. *)
Definition organizer_event (e : event) : Prop :=
  match e with
  | Printed _ | S3_paginate _ _ | S3_get_object _ _ _
  | S3_copy_object _ _ _ => True
  | Dcmread _ stop_before_pixels => stop_before_pixels = true
  | HI_call _ _ | Json_loads _ | Sleep _ => False
  end.

(** Keys are unique at both levels of the structure. *)
Definition unique_keys (structure : dict (dict (list string))) : Prop :=
  NoDup (List.map fst structure) /\
  forall patient studies,
    (patient, studies) ∈ structure -> NoDup (List.map fst studies).

End OrganizerSpec.

Module ImagingSpec.

Import HealthImaging.

(** The keyword arguments of a status query. *)
Definition status_query (self : AWSHealthImaging) (job_id : pyval)
  : dict pyval :=
  [("datastoreId", datastore_id self); ("jobId", job_id)].

(** The job properties in the answer to request [n], when that request is
    a status query that is answered and carries a job status. *)
Definition job_properties (svc : service) (self : AWSHealthImaging)
    (job_id : pyval) (n : nat) : option (dict pyval) :=
  match respond svc n "get_dicom_import_job" (status_query self job_id) with
  | Success (PDict response) =>
      match assoc "jobProperties" response with
      | Some (PDict properties) =>
          match assoc "jobStatus" properties with
          | Some _ => Some properties
          | None => None
          end
      | _ => None
      end
  | _ => None
  end.

(** The status observed by request [n]; [None] when the query failed. *)
Definition observed (svc : service) (self : AWSHealthImaging)
    (job_id : pyval) (n : nat) : option pyval :=
  match job_properties svc self job_id n with
  | Some properties => assoc "jobStatus" properties
  | None => None
  end.

(** The exception a failed status query ends in inside
    [get_import_job_status]. *)
Definition query_error (svc : service) (self : AWSHealthImaging)
    (job_id : pyval) (n : nat) : exn :=
  match respond svc n "get_dicom_import_job" (status_query self job_id) with
  | Failure e => e
  | Success (PDict response) =>
      match assoc "jobProperties" response with
      | None => Exception "KeyError" "jobProperties"
      | Some (PDict properties) => Exception "KeyError" "jobStatus"
      | Some _ => Exception "TypeError" "object is not subscriptable"
      end
  | Success _ => Exception "TypeError" "object is not subscriptable"
  end.

(** The status query, as the log shows it. *)
Definition query_event (self : AWSHealthImaging) (job_id : pyval) : event :=
  HI_call "get_dicom_import_job" (status_query self job_id).

(** The world after a request has been sent and answered. *)
Definition after_request (svc : service) (w : world) (call : event)
  : world :=
  World (now w + Z.of_nat (latency svc (requests w))) (S (requests w))
        (log w ++ [call]).

(** What [get_import_job_status] prints for the properties of a job. *)
Definition status_prints (job_id : pyval) (properties : dict pyval)
  : list event :=
  Printed [Lit "Job "; Fmt job_id; Lit " status: ";
         Fmt (default PNone (assoc "jobStatus" properties))]
  :: match assoc "message" properties with
     | Some message => [Printed [Lit "Message: "; Fmt message]]
     | None => []
     end.

(** The world after a sleep of [c] ticks. *)
Definition slept (svc : service) (w : world) (c : Z) : world :=
  World (now w + c + Z.of_nat (oversleep svc (requests w))) (requests w)
        (log w ++ [Sleep c]).

(** The line printed before the loop sleeps. *)
Definition waiting (status : pyval) : event :=
  Printed [Lit "Waiting... (status: "; Fmt status; Lit ")"].

(** The line that reports a failed status query. *)
Definition query_failed (e : exn) : event :=
  Printed [Lit "Error getting job status: "; FmtExn e].

(** The keyword arguments [search_studies] sends. *)
Definition search_params (self : AWSHealthImaging)
    (filters max_results : pyval) : dict pyval :=
  let params :=
    [("datastoreId", datastore_id self); ("maxResults", max_results)] in
  if truthy filters then dict_set "searchCriteria" filters params
  else params.

(** The keyword arguments [get_image_set_metadata] sends. *)
Definition metadata_params (self : AWSHealthImaging)
    (image_set_id version_id : pyval) : dict pyval :=
  let params :=
    [("datastoreId", datastore_id self); ("imageSetId", image_set_id)] in
  if truthy version_id then dict_set "versionId" version_id params
  else params.

(** The request the service is sent next fails with [e]. *)
Definition fails (svc : service) (w : world) (op : string)
    (kwargs : dict pyval) (e : exn) : Prop :=
  respond svc (requests w) op kwargs = Failure e.

(** The world after a failed request has been reported under [title]. *)
Definition reported (svc : service) (w : world) (op : string)
    (kwargs : dict pyval) (title : string) (e : exn) : world :=
  logged (after_request svc w (HI_call op kwargs))
         [Printed [Lit title; FmtExn e]].

Definition success_status (status : pyval) : bool :=
  eq_str status "COMPLETED".

Definition failure_status (status : pyval) : bool :=
  eq_str status "FAILED" || eq_str status "COMPLETED_WITH_ERRORS".

Definition terminal (status : pyval) : bool :=
  success_status status || failure_status status.

(** The observation is a status and the job goes on. *)
Definition pending (o : option pyval) : Prop :=
  exists status, o = Some status /\ terminal status = false.

(** [ceil(m / c)] for a positive [c]. *)
Definition ceil_div (m c : Z) : Z := (m + c - 1) / c.

(** The calls in a log, without what was printed. *)
Definition calls (l : list event) : list event :=
  List.filter (fun e => match e with Printed _ => false | _ => true end) l.

(** [k] rounds of a status query followed by a sleep of [c]. *)
Fixpoint rounds (k : nat) (query : event) (c : Z) : list event :=
  match k with
  | O => []
  | S k' => query :: Sleep c :: rounds k' query c
  end.

End ImagingSpec.

(** ** Sample stores, services and headers *)

Module Examples.

Import DicomOrganizer HealthImaging.

(** The world before anything has run. *)
Definition w0 : world := World 0 0 [].

Definition organizer : S3DICOMOrganizer :=
  DicomOrganizer.init "raw" "uploads/" (Some "sorted") "organized".

Definition denied : exn := Exception "ClientError" "AccessDenied".

(** A header with a colon in the patient identifier and no series. *)
Definition header : dataset :=
  <["PatientID" := "A:B"]>
    (<["StudyInstanceUID" := "1.2"]> (<["SOPInstanceUID" := "5.6"]> ∅)).

(** The header of the example in the comment of [_sanitize]. *)
Definition slash_header : dataset :=
  <["PatientID" := "Patient: John/Doe"]>
    (<["StudyInstanceUID" := "1.2"]>
       (<["SeriesInstanceUID" := "3.4"]>
          (<["SOPInstanceUID" := "5.6"]> ∅))).

(** A body with the marker after a preamble of 128 zero bytes. *)
Definition marked : list byte :=
  (repeat "000"%byte 128 ++ DICM ++ ["001"; "002"]%byte)%list.

(** A store: three listed objects in bucket [raw], two organized keys in
    any other bucket; [scan] carries the marker, [notes.txt] is short. *)
Definition store : services :=
  {| paginate bucket prefix :=
       if String.eqb bucket "raw"
       then [Success (Some ["uploads/a.dcm"; "uploads/scan"]);
             Success None;
             Success (Some ["uploads/notes.txt"])]
       else [Success (Some ["organized/P1/S1/T1/i1.dcm";
                            "organized/P1/S1/T1/i2.dcm";
                            "organized/P1/S1/T2/i3.dcm";
                            "short/key"])];
     object_body bucket key :=
       if String.eqb key "uploads/notes.txt"
       then Success ["h"; "i"]%byte
       else Success marked;
     copy_object source bucket key := Success tt;
     dcmread body stop_before_pixels :=
       if stop_before_pixels then Success header
       else Failure (Exception "MemoryError" "pixel data") |}.

(** A store whose listing is refused. *)
Definition unlisted : services :=
  {| paginate bucket prefix := [Failure denied];
     object_body bucket key := Failure denied;
     copy_object source bucket key := Failure denied;
     dcmread body stop_before_pixels := Failure denied |}.

(** A store that lists the key the example header is organized under. *)
Definition slash_store : services :=
  {| paginate bucket prefix :=
       [Success (Some [new_key organizer slash_header])];
     object_body bucket key := Success marked;
     copy_object source bucket key := Success tt;
     dcmread body stop_before_pixels := Success slash_header |}.

Definition imaging_client : AWSHealthImaging :=
  {| datastore_id := PStr "ds-1"; region_name := PStr "us-east-1" |}.

(** The answer to a status query for a job in the given status. *)
Definition status_reply (status : string) : response pyval :=
  Success (PDict [("jobProperties",
                   PDict [("jobId", PStr "job-1");
                          ("jobStatus", PStr status)])]).

(** A service that answers its requests from a script, one tick each, and
    fails once the script is over. *)
Definition scripted (replies : list (response pyval)) : service :=
  {| respond n op kwargs :=
       nth n replies (Failure (Exception "ClientError" "Throttled"));
     latency n := 1%nat;
     oversleep n := 0%nat;
     json_loads text := Failure (Exception "JSONDecodeError" "no text") |}.

(** A service that is down. *)
Definition down : service := scripted [].

End Examples.

(** ** Further vocabulary: what the operations guarantee beyond the claims *)

Module ExtraSpec.

Import DicomOrganizer HealthImaging OrganizerSpec ImagingSpec.

(** Does the text hold one of the characters [_sanitize] replaces? *)
Fixpoint any_listed (text : string) : bool :=
  match text with
  | EmptyString => false
  | String c text' => Str.mem c invalid_chars || any_listed text'
  end.

(** The four identifier fields of a header, as [new_key] reads them. *)
Definition identifiers (ds : dataset) : list string :=
  [ds_get ds "PatientID" "Unknown_Patient";
   ds_get ds "StudyInstanceUID" "Unknown_Study";
   ds_get ds "SeriesInstanceUID" "Unknown_Series";
   ds_get ds "SOPInstanceUID" "Unknown_Instance"].

(** The header with every absent identifier set to its placeholder. *)
Definition with_placeholders (ds : dataset) : dataset :=
  <["PatientID" := ds_get ds "PatientID" "Unknown_Patient"]>
    (<["StudyInstanceUID" := ds_get ds "StudyInstanceUID" "Unknown_Study"]>
       (<["SeriesInstanceUID" :=
            ds_get ds "SeriesInstanceUID" "Unknown_Series"]>
          (<["SOPInstanceUID" :=
               ds_get ds "SOPInstanceUID" "Unknown_Instance"]> ds))).

(** The items of a list in the order they are first seen. *)
Definition first_seen (xs : list string) : list string :=
  fold_left
    (fun seen x => if bool_decide (x ∈ seen) then seen else (seen ++ [x])%list)
    xs [].

(** The patient components of the keys that have four components. *)
Definition patients_of (keys : list string) : list string :=
  flat_map
    (fun key =>
       let parts := Str.split "/" key in
       if (4 <=? length parts)%nat then [from_end parts 4] else [])
    keys.

(** What the loop of [organize_by_patient_study_series] logs for one file:
    the read, then the parse if the read succeeded, then the copy if the
    parse succeeded, then one printed line. *)
Definition file_events (svc : services) (self : S3DICOMOrganizer)
    (key : string) : list event :=
  let failed (e : exn) :=
    Printed [Lit "Error processing "; Fmt (PStr key); Lit ": "; FmtExn e] in
  S3_get_object (source_bucket self) key None
  :: match object_body svc (source_bucket self) key with
     | Failure e => [failed e]
     | Success body =>
         Dcmread body true
         :: match dcmread svc body true with
            | Failure e => [failed e]
            | Success ds =>
                [S3_copy_object (source_bucket self, key)
                                (target_bucket self) (new_key self ds);
                 match copy_object svc (source_bucket self, key)
                                   (target_bucket self) (new_key self ds)
                 with
                 | Success _ =>
                     Printed [Lit "Organized: "; Fmt (PStr key); Lit " -> ";
                            Fmt (PStr (new_key self ds))]
                 | Failure e => failed e
                 end]
            end
     end.



(** Whatever the world, the computation returns a value and has sent
    exactly one request to the imaging service by then. *)
Definition answers_after_one_request {A} (m : M A) : Prop :=
  forall w, exists v w', m w = (Ok v, w') /\ requests w' = S (requests w).

(** When the computation returns, it returns [v]. *)
Definition yields {A} (v : A) (m : M A) : Prop :=
  forall w x w', m w = (Ok x, w') -> x = v.

(** The field [k] of the dict a request is answered with. *)
Definition reply_field (r : response pyval) (k : string) : option pyval :=
  match r with
  | Success (PDict d) => assoc k d
  | _ => None
  end.

(** No condition on the events a computation logs. *)
Definition any_event (e : event) : Prop := True.

(** Does the answer carry the field? *)
Definition has_field (r : response pyval) (k : string) : bool :=
  match reply_field r k with
  | Some _ => true
  | None => false
  end.

(** A summary [search_studies] can print: a dict with an image set
    identifier whose tags, when it has any, are a dict. *)
Definition printable_summary (img_set : pyval) : bool :=
  match img_set with
  | PDict d =>
      match assoc "imageSetId" d, assoc "DICOMTags" d with
      | Some _, None => true
      | Some _, Some (PDict _) => true
      | _, _ => false
      end
  | _ => false
  end.

(** The answer to the request an operation sends first. *)
Definition next_reply (svc : service) (w : world) (op : string)
    (kwargs : dict pyval) : response pyval :=
  respond svc (requests w) op kwargs.

(** What [organize_by_patient_study_series] logs when the listing shows
    [pages]: the listing, the marker reads, the number of files found,
    the events of each file, the closing line. *)
Definition organize_log (svc : services) (self : S3DICOMOrganizer)
    (pages : list page) : list event :=
  let files := List.filter (classify svc self) (listed pages) in
  (S3_paginate (source_bucket self) (source_prefix self)
     :: probes self (listed pages)
     ++ [Printed [Lit "Found "; Fmt (PInt (Z.of_nat (length files)));
                Lit " DICOM files to organize"]]
     ++ flat_map (file_events svc self) files
     ++ [Printed [Lit nl; Lit "Organization complete in bucket: ";
                Fmt (PStr (target_bucket self)); Lit "/";
                Fmt (PStr (target_prefix self))]])%list.


(** The three lines of a banner. *)
Definition banner_lines (title : string) : list event :=
  [Printed [Lit (nl ++ Main.rule)]; Printed [Lit title];
   Printed [Lit Main.rule]].

(** The organizer [main] builds. *)
Definition main_organizer : S3DICOMOrganizer :=
  DicomOrganizer.init Main.SOURCE_BUCKET Main.SOURCE_PREFIX
                      (Some Main.TARGET_BUCKET) Main.TARGET_PREFIX.


(** The computation does not run out of fuel and sends at most [n]
    requests to the imaging service. *)
Definition sends_at_most {A} (n : nat) (m : M A) : Prop :=
  forall w,
    fst (m w) <> OutOfFuel /\
    (requests w <= requests (snd (m w)) <= requests w + n)%nat.


(** The same with a store whose listing is refused. *)
Definition unlisted_runtime : Main.runtime :=
  {| Main.s3 := Examples.unlisted;
     Main.imaging := Examples.down;
     Main.second := 1;
     Main.str v := match v with PStr s => s | _ => "?" end |}.

End ExtraSpec.

(** ** Running computations *)

Lemma run_bind {A B} (m : M A) (f : A -> M B) w :
  bind m f w =
  match m w with
  | (Ok a, w') => f a w'
  | (Raise e, w') => (Raise e, w')
  | (OutOfFuel, w') => (OutOfFuel, w')
  end.
Proof. reflexivity. Qed.

Lemma run_bind_ok {A B} (m : M A) (f : A -> M B) w a w' :
  m w = (Ok a, w') -> bind m f w = f a w'.
Proof. intros H. rewrite run_bind, H. reflexivity. Qed.

Lemma run_bind_raise {A B} (m : M A) (f : A -> M B) w e w' :
  m w = (Raise e, w') -> bind m f w = (Raise e, w').
Proof. intros H. rewrite run_bind, H. reflexivity. Qed.

Lemma run_try_ok {A} (m : M A) h w a w' :
  m w = (Ok a, w') -> try_except m h w = (Ok a, w').
Proof. intros H. unfold try_except. rewrite H. reflexivity. Qed.

Lemma run_try_raise {A} (m : M A) h w e w' :
  m w = (Raise e, w') -> try_except m h w = h e w'.
Proof. intros H. unfold try_except. rewrite H. reflexivity. Qed.


Lemma logged_nil w : logged w [] = w.
Proof. destruct w. unfold logged. cbn. now rewrite app_nil_r. Qed.

Lemma logged_logged w es es' : logged (logged w es) es' = logged w (es ++ es').
Proof. unfold logged. cbn. now rewrite <- app_assoc. Qed.

Lemma run_emit e w : emit e w = (Ok tt, logged w [e]).
Proof. reflexivity. Qed.

(** ** Dicts *)

Section Dicts.
Context {V : Type}.
Implicit Types (d : dict V) (k : string) (v : V).

Lemma assoc_dict_set_eq k v d : assoc k (dict_set k v d) = Some v.
Proof.
  induction d as [|[k' v'] d IH]; cbn.
  - now rewrite String.eqb_refl.
  - destruct (String.eqb k' k) eqn:E; cbn.
    + now rewrite String.eqb_refl.
    + now rewrite E.
Qed.

Lemma assoc_dict_set_ne k k' v d :
  k <> k' -> assoc k' (dict_set k v d) = assoc k' d.
Proof.
  intros Hne. induction d as [|[k0 v0] d IH]; cbn.
  - destruct (String.eqb_spec k k'); [contradiction | reflexivity].
  - destruct (String.eqb_spec k0 k) as [->|Hk0]; cbn.
    + destruct (String.eqb_spec k k'); [contradiction | reflexivity].
    + destruct (String.eqb_spec k0 k'); [reflexivity | exact IH].
Qed.

Lemma assoc_Some_elem k v d : assoc k d = Some v -> (k, v) ∈ d.
Proof.
  induction d as [|[k' v'] d IH]; cbn; [discriminate|].
  destruct (String.eqb_spec k' k) as [->|Hne].
  - intros [= ->]. left.
  - intros H. right. auto.
Qed.

Lemma assoc_None_keys k d : assoc k d = None -> k ∉ List.map fst d.
Proof.
  induction d as [|[k' v'] d IH]; cbn; [intros _; apply not_elem_of_nil|].
  destruct (String.eqb_spec k' k) as [->|Hne]; [discriminate|].
  intros H. apply not_elem_of_cons. split; [congruence | auto].
Qed.

Lemma elem_assoc k v d :
  NoDup (List.map fst d) -> (k, v) ∈ d -> assoc k d = Some v.
Proof.
  induction d as [|[k' v'] d IH]; cbn; [intros _ H; inversion H|].
  intros Hnd Hin. apply NoDup_cons in Hnd as [Hnotin Hnd].
  apply elem_of_cons in Hin as [Heq|Hin].
  - inversion Heq; subst. now rewrite String.eqb_refl.
  - destruct (String.eqb_spec k' k) as [->|Hne]; [|auto].
    exfalso. apply Hnotin. apply (list_elem_of_fmap_2 fst _ _ Hin).
Qed.

Lemma keys_dict_set k v d :
  List.map fst (dict_set k v d) =
  match assoc k d with
  | Some _ => List.map fst d
  | None => (List.map fst d ++ [k])%list
  end.
Proof.
  induction d as [|[k' v'] d IH]; cbn; [reflexivity|].
  destruct (String.eqb_spec k' k) as [->|Hne]; cbn; [reflexivity|].
  rewrite IH. now destruct (assoc k d).
Qed.

Lemma NoDup_dict_set k v d :
  NoDup (List.map fst d) -> NoDup (List.map fst (dict_set k v d)).
Proof.
  intros Hnd. rewrite keys_dict_set.
  destruct (assoc k d) eqn:E; [exact Hnd|].
  apply NoDup_app. repeat split; [exact Hnd | | apply NoDup_singleton].
  intros x Hx Hin. apply list_elem_of_singleton in Hin as ->.
  now apply assoc_None_keys in E.
Qed.

End Dicts.

Module OrganizerProofs.
Import DicomOrganizer OrganizerSpec.

(** *** The structure listing *)

Lemma well_formed_nil : well_formed [].
Proof.
  repeat split; cbn; try constructor; discriminate.
Qed.

(** The three names a key is filed under, when it has four components. *)
Lemma add_key_short s key :
  (length (Str.split "/" key) < 4)%nat -> add_key s key = s.
Proof.
  intros H. unfold add_key.
  destruct (Nat.leb_spec 4 (length (Str.split "/" key))); [lia | reflexivity].
Qed.

Lemma series_of_add_key s key p st :
  (4 <= length (Str.split "/" key))%nat ->
  series_of (add_key s key) p st =
  let parts := Str.split "/" key in
  if bool_decide (p = from_end parts 4 /\ st = from_end parts 3) then
    let old := series_of s p st in
    if bool_decide (from_end parts 2 ∈ old) then old
    else (old ++ [from_end parts 2])%list
  else series_of s p st.
Proof.
  intros Hlen. unfold add_key.
  destruct (Nat.leb_spec 4 (length (Str.split "/" key))); [|lia].
  cbv zeta.
  set (parts := Str.split "/" key).
  set (p0 := from_end parts 4). set (st0 := from_end parts 3).
  set (se0 := from_end parts 2).
  set (s1 := match assoc p0 s with None => dict_set p0 [] s | Some _ => s end).
  assert (Hs1 : default [] (assoc p0 s1) = default [] (assoc p0 s)).
  { subst s1. destruct (assoc p0 s) eqn:E; [now rewrite E|].
    now rewrite assoc_dict_set_eq. }
  set (studies0 := default [] (assoc p0 s1)) in *.
  set (studies1 := match assoc st0 studies0 with
                   | None => dict_set st0 [] studies0
                   | Some _ => studies0 end).
  assert (Hst1 : forall st', default [] (assoc st' studies1)
                             = default [] (assoc st' studies0)).
  { intros st'. subst studies1. destruct (assoc st0 studies0) eqn:E; [reflexivity|].
    destruct (decide (st0 = st')) as [<-|Hne].
    - now rewrite assoc_dict_set_eq, E.
    - now rewrite assoc_dict_set_ne. }
  assert (Hold : forall st', series_of s p0 st' = default [] (assoc st' studies0)).
  { intros st'. unfold series_of. rewrite Hs1.
    destruct (assoc p0 s); reflexivity. }
  unfold series_of at 1.
  destruct (decide (p = p0)) as [->|Hp].
  - rewrite assoc_dict_set_eq.
    destruct (decide (st = st0)) as [->|Hst].
    + rewrite assoc_dict_set_eq. cbn [default].
      rewrite (bool_decide_true (p0 = p0 /\ st0 = st0)) by (split; reflexivity).
      rewrite Hst1, <- Hold. reflexivity.
    + rewrite assoc_dict_set_ne by auto.
      rewrite (bool_decide_false (p0 = p0 /\ st = st0))
        by (intros [_ ?]; contradiction).
      now rewrite Hst1, Hold.
  - rewrite assoc_dict_set_ne by auto.
    rewrite (bool_decide_false (p = p0 /\ st = st0))
      by (intros [? _]; contradiction).
    unfold series_of. subst s1. destruct (assoc p0 s) eqn:E; [reflexivity|].
    now rewrite assoc_dict_set_ne by auto.
Qed.

Lemma well_formed_add_key s key : well_formed s -> well_formed (add_key s key).
Proof.
  intros (Hk & Hst & Hse).
  destruct (Nat.leb_spec 4 (length (Str.split "/" key))) as [Hlen|Hlen];
    [|rewrite add_key_short by lia; now repeat split].
  split; [|split].
  - unfold add_key.
    destruct (Nat.leb_spec 4 (length (Str.split "/" key))); [|lia].
    cbv zeta. apply NoDup_dict_set.
    destruct (assoc _ s); [exact Hk | now apply NoDup_dict_set].
  - intros p studies. unfold add_key.
    destruct (Nat.leb_spec 4 (length (Str.split "/" key))); [|lia].
    cbv zeta.
    set (parts := Str.split "/" key).
    set (p0 := from_end parts 4). set (st0 := from_end parts 3).
    set (s1 := match assoc p0 s with None => dict_set p0 [] s | Some _ => s end).
    assert (Hs1 : NoDup (List.map fst (default [] (assoc p0 s1)))).
    { subst s1. destruct (assoc p0 s) eqn:E.
      - rewrite E. cbn. eauto.
      - rewrite assoc_dict_set_eq. constructor. }
    destruct (decide (p = p0)) as [->|Hp].
    + rewrite assoc_dict_set_eq. intros [= <-].
      apply NoDup_dict_set.
      destruct (assoc st0 _); [exact Hs1 | now apply NoDup_dict_set].
    + rewrite assoc_dict_set_ne by auto. subst s1.
      destruct (assoc p0 s) eqn:E; [apply Hst|].
      rewrite assoc_dict_set_ne by auto. apply Hst.
  - intros p st. rewrite series_of_add_key by exact Hlen. cbv zeta.
    case_bool_decide; [|apply Hse].
    case_bool_decide; [apply Hse|].
    apply NoDup_app. repeat split; [apply Hse | | apply NoDup_singleton].
    intros x Hx Hin. apply list_elem_of_singleton in Hin as ->. contradiction.
Qed.

Lemma series_of_add_key_elem s key p st se :
  se ∈ series_of (add_key s key) p st <->
  se ∈ series_of s p st \/ placed key p st se.
Proof.
  unfold placed. cbv zeta.
  destruct (Nat.leb_spec 4 (length (Str.split "/" key))) as [Hlen|Hlen];
    [|rewrite add_key_short by lia; intuition lia].
  rewrite series_of_add_key by exact Hlen. cbv zeta.
  case_bool_decide as Hp.
  - destruct Hp as [-> ->]. case_bool_decide as Hin.
    + split; [auto|]. intros [H|(_ & _ & _ & <-)]; assumption.
    + rewrite elem_of_app, list_elem_of_singleton. intuition.
  - split; [auto|]. intros [H|(_ & <- & <- & _)]; [assumption|].
    exfalso. auto.
Qed.

Lemma fold_add_key_spec contents :
  forall s,
    well_formed s ->
    well_formed (fold_left add_key contents s) /\
    forall p st se,
      se ∈ series_of (fold_left add_key contents s) p st <->
      se ∈ series_of s p st \/ exists key, key ∈ contents /\ placed key p st se.
Proof.
  induction contents as [|key contents IH]; intros s Hwf; cbn [fold_left].
  - split; [exact Hwf|]. intros p st se. split; [auto|].
    intros [H|(key & Hin & _)]; [exact H | inversion Hin].
  - destruct (IH (add_key s key) (well_formed_add_key s key Hwf)) as [Hwf' Hin].
    split; [exact Hwf'|]. intros p st se.
    rewrite Hin, series_of_add_key_elem. split.
    + intros [[H|H]|(k & Hk & H)]; [auto | right | right].
      * exists key. split; [left | exact H].
      * exists k. split; [now right | exact H].
    + intros [H|(k & Hk & H)]; [auto|].
      apply elem_of_cons in Hk as [->|Hk]; [auto|].
      right. exists k. auto.
Qed.

(** In a well-formed structure, membership and lookup agree. *)
Lemma under_series_of s p st se :
  well_formed s -> under s p st se <-> se ∈ series_of s p st.
Proof.
  intros (Hk & Hst & _). unfold under, series_of. split.
  - intros (studies & l & Hp & Hs & Hin).
    apply elem_assoc in Hp; [|exact Hk]. rewrite Hp.
    apply elem_assoc in Hs; [|eauto]. now rewrite Hs.
  - destruct (assoc p s) as [studies|] eqn:Ep; [|intros H; inversion H].
    destruct (assoc st studies) as [l|] eqn:Es; [|intros H; inversion H].
    cbn. intros Hin. exists studies, l.
    auto using assoc_Some_elem.
Qed.

Lemma listed_cons page pages :
  listed (page :: pages) = (default [] page ++ listed pages)%list.
Proof. reflexivity. Qed.

Section Runs.

Context (svc : services) (self : S3DICOMOrganizer).

Lemma structure_pages_run pages :
  forall s w,
    fold_m (List.map Success pages)
      (fun structure fetched =>
         page <- answer fetched ;;
         match page with
         | None => ret structure
         | Some contents => ret (fold_left add_key contents structure)
         end) s w
    = (Ok (fold_left add_key (listed pages) s), w).
Proof.
  induction pages as [|page pages IH]; intros s w; [reflexivity|].
  rewrite listed_cons, fold_left_app. cbn [List.map fold_m].
  destruct page as [contents|]; cbn [default id];
    (erewrite run_bind_ok by reflexivity); apply IH.
Qed.

Lemma get_organized_structure_run pages w :
  paginate svc (target_bucket self) (target_prefix self)
  = List.map Success pages ->
  get_organized_structure svc self w
  = (Ok (fold_left add_key (listed pages) []),
     logged w [S3_paginate (target_bucket self) (target_prefix self)]).
Proof.
  intros Hpages. unfold get_organized_structure.
  erewrite run_bind_ok by apply run_emit.
  rewrite Hpages. apply structure_pages_run.
Qed.

End Runs.

(** C5. From the flat list of keys the listing returns,
    [get_organized_structure] builds a grouping of patients, studies and
    series in which no study lists a series twice (and no patient or study
    appears twice), and in which a series appears under a patient and a
    study exactly when some listed key with at least four components
    separated by slashes has them as its fourth-, third- and
    second-from-last components. *)
Theorem structure_groups_series svc self pages w :
  paginate svc (target_bucket self) (target_prefix self)
  = List.map Success pages ->
  exists structure,
    get_organized_structure svc self w
    = (Ok structure,
       logged w [S3_paginate (target_bucket self) (target_prefix self)]) /\
    unique_keys structure /\
    (forall patient studies study series_list,
        (patient, studies) ∈ structure -> (study, series_list) ∈ studies ->
        NoDup series_list) /\
    (forall patient study series,
        under structure patient study series <->
        exists key, key ∈ listed pages /\ placed key patient study series).
Proof.
  intros Hpages. exists (fold_left add_key (listed pages) []).
  split; [now apply get_organized_structure_run|].
  destruct (fold_add_key_spec (listed pages) [] well_formed_nil) as [Hwf Hin].
  set (structure := fold_left add_key (listed pages) []) in *.
  pose proof Hwf as (Hk & Hst & Hse).
  split; [|split].
  - split; [exact Hk|]. intros p studies Hp.
    apply (Hst p). now apply elem_assoc.
  - intros p studies st l Hp Hs.
    specialize (Hse p st). unfold series_of in Hse.
    apply elem_assoc in Hp; [|exact Hk]. rewrite Hp in Hse.
    apply elem_assoc in Hs; [|eauto]. now rewrite Hs in Hse.
  - intros p st se. rewrite under_series_of by exact Hwf.
    rewrite Hin. split; [|auto].
    intros [H|H]; [inversion H | exact H].
Qed.

End OrganizerProofs.

Module SanitizeProofs.
Import DicomOrganizer OrganizerSpec.

Lemma fold_replace_cons chars c s :
  fold_left (fun text char => Str.replace char "_"%char text) chars
            (String c s)
  = String (replace_each chars c)
           (fold_left (fun text char => Str.replace char "_"%char text)
                      chars s).
Proof.
  revert c s. induction chars as [|ch chars IH]; intros c s; [reflexivity|].
  cbn [fold_left Str.replace]. rewrite IH. reflexivity.
Qed.

Lemma fold_replace_empty chars :
  fold_left (fun text char => Str.replace char "_"%char text) chars
            EmptyString = EmptyString.
Proof. induction chars; [reflexivity | assumption]. Qed.

Lemma replace_each_cons ch chars c :
  replace_each (ch :: chars) c
  = replace_each chars (if Ascii.eqb c ch then "_"%char else c).
Proof. reflexivity. Qed.

Lemma replace_each_underscore chars : replace_each chars "_"%char = "_"%char.
Proof.
  induction chars as [|ch chars IH]; [reflexivity|].
  rewrite replace_each_cons. destruct (Ascii.eqb "_" ch); exact IH.
Qed.

Lemma replace_each_mem chars c :
  replace_each (list_ascii_of_string chars) c
  = if Str.mem c chars then "_"%char else c.
Proof.
  revert c. induction chars as [|ch chars IH]; intros c; [reflexivity|].
  cbn [list_ascii_of_string Str.mem]. rewrite replace_each_cons.
  rewrite (Ascii.eqb_sym ch c).
  destruct (Ascii.eqb c ch); cbn [orb].
  - apply replace_each_underscore.
  - apply IH.
Qed.

(** Replacing the listed characters one after the other is replacing each
    character of the text on its own. *)
Lemma _sanitize_map text : _sanitize text = Str.map replace_listed text.
Proof.
  unfold _sanitize.
  induction text as [|c text IH]; cbn [Str.map].
  - apply fold_replace_empty.
  - rewrite fold_replace_cons, IH. f_equal. apply replace_each_mem.
Qed.



(** The eight characters, one by one. *)
Lemma replace_listed_cases c :
  replace_listed c =
  if bool_decide (c ∈ ["<"; ">"; ":"; ascii_of_nat 34; "|"; "?"; "*"; "\"]%char)
  then "_"%char else c.
Proof.
  unfold replace_listed.
  replace (Str.mem c invalid_chars)
    with (bool_decide (c ∈ ["<"; ">"; ":"; ascii_of_nat 34; "|"; "?"; "*"; "\"]%char));
    [reflexivity|].
  change invalid_chars
    with (string_of_list_ascii
            ["<"; ">"; ":"; ascii_of_nat 34; "|"; "?"; "*"; "\"]%char).
  cbn [Str.mem string_of_list_ascii].
  repeat match goal with
  | |- context [Ascii.eqb ?a c] =>
      destruct (Ascii.eqb_spec a c) as [<-|?]; [reflexivity|]
  end.
  cbn [orb]. apply bool_decide_false.
  rewrite !elem_of_cons, elem_of_nil. intuition.
Qed.

End SanitizeProofs.

Module LogProofs.

(** *** Logs *)

Lemma emits_ret {A} P (a : A) : emits P (ret a).
Proof.
  intros w. split; [discriminate|]. exists []. now rewrite logged_nil.
Qed.

Lemma emits_raise {A} P e : emits P (@raise A e).
Proof.
  intros w. split; [discriminate|]. exists []. now rewrite logged_nil.
Qed.

Lemma emits_answer {A} P (r : response A) : emits P (answer r).
Proof. destruct r; [apply emits_ret | apply emits_raise]. Qed.

Lemma emits_emit (P : event -> Prop) e : P e -> emits P (emit e).
Proof.
  intros He w. split; [discriminate|].
  exists [e]. split; [reflexivity | now constructor].
Qed.

Lemma emits_bind {A B} P (m : M A) (f : A -> M B) :
  emits P m -> (forall a, emits P (f a)) -> emits P (bind m f).
Proof.
  intros Hm Hf w. destruct (Hm w) as (Hfuel & es & Hw & Hes).
  rewrite run_bind. destruct (m w) as [[a| |] w1]; cbn in Hw, Hfuel; subst w1.
  - destruct (Hf a (logged w es)) as (Hfuel' & es' & Hw' & Hes').
    split; [exact Hfuel'|].
    exists (es ++ es')%list. rewrite Hw', logged_logged.
    split; [reflexivity | now apply Forall_app].
  - split; [discriminate | now exists es].
  - contradiction.
Qed.

Lemma emits_try {A} P (m : M A) h :
  emits P m -> (forall e, emits P (h e)) -> emits P (try_except m h).
Proof.
  intros Hm Hh w. destruct (Hm w) as (Hfuel & es & Hw & Hes).
  unfold try_except.
  destruct (m w) as [[a| |] w1]; cbn in Hw, Hfuel; subst w1.
  - split; [discriminate | now exists es].
  - destruct (Hh e (logged w es)) as (Hfuel' & es' & Hw' & Hes').
    split; [exact Hfuel'|].
    exists (es ++ es')%list. rewrite Hw', logged_logged.
    split; [reflexivity | now apply Forall_app].
  - contradiction.
Qed.

Lemma emits_fold_m {A S} P (xs : list A) (body : S -> A -> M S) :
  (forall acc x, emits P (body acc x)) ->
  forall acc, emits P (fold_m xs body acc).
Proof.
  intros Hbody. induction xs as [|x xs IH]; intros acc; cbn [fold_m].
  - apply emits_ret.
  - apply emits_bind; [apply Hbody | apply IH].
Qed.

Lemma emits_for_each {A} P (xs : list A) (body : A -> M unit) :
  (forall x, emits P (body x)) -> emits P (for_each xs body).
Proof.
  intros Hbody. induction xs as [|x xs IH]; cbn [for_each].
  - apply emits_ret.
  - apply emits_bind; [apply Hbody | intros _; apply IH].
Qed.


End LogProofs.

Module OrganizerRuns.
Import DicomOrganizer OrganizerSpec OrganizerProofs SanitizeProofs LogProofs.

Section Runs.

Context (svc : services) (self : S3DICOMOrganizer).

Lemma get_object_run Bucket Key Range w :
  get_object svc Bucket Key Range w
  = (match object_body svc Bucket Key with
     | Failure e => Raise e
     | Success body =>
         match Range with
         | None => Ok body
         | Some (first, last) =>
             match byte_range first last body with
             | Success part => Ok part
             | Failure e => Raise e
             end
         end
     end, logged w [S3_get_object Bucket Key Range]).
Proof.
  unfold get_object. erewrite run_bind_ok by apply run_emit.
  rewrite run_bind.
  destruct (object_body svc Bucket Key) as [body|e]; [|reflexivity].
  cbn [answer ret]. destruct Range as [[first last]|]; [|reflexivity].
  now destruct (byte_range first last body).
Qed.

Lemma _read_dicom_metadata_run s3_key w :
  _read_dicom_metadata svc self s3_key w
  = match object_body svc (source_bucket self) s3_key with
    | Failure e =>
        (Raise e, logged w [S3_get_object (source_bucket self) s3_key None])
    | Success body =>
        (match dcmread svc body true with
         | Success ds => Ok ds
         | Failure e => Raise e
         end,
         logged w [S3_get_object (source_bucket self) s3_key None;
                   Dcmread body true])
    end.
Proof.
  unfold _read_dicom_metadata. rewrite run_bind, get_object_run.
  destruct (object_body svc (source_bucket self) s3_key) as [body|e];
    [|reflexivity].
  erewrite run_bind_ok by apply run_emit. rewrite logged_logged.
  now destruct (dcmread svc body true).
Qed.


Lemma get_object_emits Bucket Key Range :
  emits organizer_event (get_object svc Bucket Key Range).
Proof.
  unfold get_object.
  apply emits_bind; [now apply emits_emit|]. intros _.
  apply emits_bind; [apply emits_answer|]. intros body.
  destruct Range as [[first last]|]; [apply emits_answer | apply emits_ret].
Qed.

Lemma _read_dicom_metadata_emits s3_key :
  emits organizer_event (_read_dicom_metadata svc self s3_key).
Proof.
  unfold _read_dicom_metadata.
  apply emits_bind; [apply get_object_emits|]. intros body.
  apply emits_bind; [now apply emits_emit|]. intros _.
  apply emits_answer.
Qed.

Lemma _list_dicom_files_emits :
  emits organizer_event (_list_dicom_files svc self).
Proof.
  unfold _list_dicom_files.
  apply emits_bind; [now apply emits_emit|]. intros _.
  apply emits_fold_m. intros acc fetched.
  apply emits_bind; [apply emits_answer|]. intros [contents|];
    [|apply emits_ret].
  apply emits_fold_m. intros acc' key. unfold list_object.
  apply emits_bind; [|intros; apply emits_ret].
  destruct (Str.endswith_any key dicom_suffixes); [apply emits_ret|].
  unfold _is_dicom_file. apply emits_try; [|intros; apply emits_ret].
  apply emits_bind; [apply get_object_emits | intros; apply emits_ret].
Qed.

Lemma organize_file_emits s3_key :
  emits organizer_event (organize_file svc self s3_key).
Proof.
  unfold organize_file.
  apply emits_try; [|intros; now apply emits_emit].
  apply emits_bind; [apply _read_dicom_metadata_emits|]. intros ds.
  apply emits_bind; [now apply emits_emit|]. intros _.
  apply emits_bind; [apply emits_answer|]. intros _.
  now apply emits_emit.
Qed.

Lemma organize_emits :
  emits organizer_event (organize_by_patient_study_series svc self).
Proof.
  unfold organize_by_patient_study_series.
  apply emits_bind; [apply _list_dicom_files_emits|]. intros files.
  apply emits_bind; [now apply emits_emit|]. intros _.
  apply emits_bind; [|intros; now apply emits_emit].
  apply emits_for_each. apply organize_file_emits.
Qed.

Lemma get_organized_structure_emits :
  emits organizer_event (get_organized_structure svc self).
Proof.
  unfold get_organized_structure.
  apply emits_bind; [now apply emits_emit|]. intros _.
  apply emits_fold_m. intros acc fetched.
  apply emits_bind; [apply emits_answer|].
  intros [contents|]; apply emits_ret.
Qed.


End Runs.



End OrganizerRuns.

Module KeyProofs.
Import DicomOrganizer OrganizerSpec OrganizerProofs SanitizeProofs OrganizerRuns.
Import Examples.

(** *** Splitting a key *)

Lemma split_nonempty sep s : exists p ps, Str.split sep s = p :: ps.
Proof.
  induction s as [|c s (p & ps & IH)]; cbn [Str.split]; [eauto|].
  destruct (Ascii.eqb c sep); [eauto|]. rewrite IH. eauto.
Qed.

Lemma split_app_sep sep prefix rest :
  Str.split sep (prefix ++ String sep rest)
  = (Str.split sep prefix ++ Str.split sep rest)%list.
Proof.
  induction prefix as [|c prefix IH].
  - replace ("" ++ String sep rest) with (String sep rest) by reflexivity.
    cbn [Str.split]. now rewrite Ascii.eqb_refl.
  - replace (String c prefix ++ String sep rest)
      with (String c (prefix ++ String sep rest)) by reflexivity.
    cbn [Str.split].
    destruct (Ascii.eqb c sep); [now rewrite IH|].
    rewrite IH. destruct (split_nonempty sep prefix) as (p & ps & ->).
    reflexivity.
Qed.

Lemma from_end_app (l1 l2 : list string) k :
  (k <= length l2)%nat -> from_end (l1 ++ l2) k = from_end l2 k.
Proof.
  intros Hk. unfold from_end. rewrite length_app.
  rewrite app_nth2 by lia. f_equal. lia.
Qed.

Lemma slash_header_key self :
  new_key self slash_header
  = target_prefix self ++ "/" ++ "Patient_ John/Doe/1.2/3.4/5.6.dcm".
Proof. unfold new_key. f_equal. Qed.

Lemma slash_header_add_key self :
  add_key [] (new_key self slash_header) = [("Doe", [("1.2", ["3.4"])])].
Proof.
  rewrite slash_header_key. unfold add_key.
  change (target_prefix self ++ "/" ++ "Patient_ John/Doe/1.2/3.4/5.6.dcm")
    with (target_prefix self ++ String "/" "Patient_ John/Doe/1.2/3.4/5.6.dcm").
  rewrite split_app_sep.
  change (Str.split "/" "Patient_ John/Doe/1.2/3.4/5.6.dcm")
    with ["Patient_ John"; "Doe"; "1.2"; "3.4"; "5.6.dcm"].
  rewrite length_app. cbn [length].
  destruct (Nat.leb_spec 4 (length (Str.split "/" (target_prefix self)) + 5));
    [|lia].
  cbv zeta. rewrite !from_end_app by (cbn; lia).
  reflexivity.
Qed.

(** C7. [_sanitize] replaces the eight listed characters and no other, so
    a slash stays.  The header of the example in its own comment, whose
    patient identifier holds a slash, is given a destination key with more
    than four segments below the target prefix, and when that key is
    listed [get_organized_structure] files it under a patient, study and
    series that are not the sanitized fields it was organized under. *)
Theorem slash_breaks_grouping svc self w :
  paginate svc (target_bucket self) (target_prefix self)
  = [Success (Some [new_key self slash_header])] ->
  (forall text, _sanitize text = Str.map replace_listed text) /\
  (forall c,
      replace_listed c =
      if bool_decide
           (c ∈ ["<"; ">"; ":"; ascii_of_nat 34; "|"; "?"; "*"; "\"]%char)
      then "_"%char else c) /\
  replace_listed "/" = "/"%char /\
  (exists rest,
      new_key self slash_header = target_prefix self ++ "/" ++ rest /\
      (4 < length (Str.split "/" rest))%nat) /\
  exists patient study series w',
    get_organized_structure svc self w
    = (Ok [(patient, [(study, [series])])], w') /\
    (patient, study, series)
    <> (_sanitize (ds_get slash_header "PatientID" "Unknown_Patient"),
        _sanitize (ds_get slash_header "StudyInstanceUID" "Unknown_Study"),
        _sanitize (ds_get slash_header "SeriesInstanceUID" "Unknown_Series")).
Proof.
  intros Hpages.
  split; [apply _sanitize_map|].
  split; [apply replace_listed_cases|].
  split; [reflexivity|].
  split.
  - eexists. split; [apply slash_header_key|]. cbn. lia.
  - exists "Doe", "1.2", "3.4". eexists. split.
    + rewrite (get_organized_structure_run svc self
                 [Some [new_key self slash_header]] w Hpages).
      cbn [listed List.map concat default id app fold_left].
      rewrite slash_header_add_key. reflexivity.
    + discriminate.
Qed.

End KeyProofs.

Module ClassifyProofs.
Import DicomOrganizer OrganizerSpec OrganizerProofs SanitizeProofs OrganizerRuns.

(** *** Suffixes and extensions *)

Lemma substring_all s : substring 0 (String.length s) s = s.
Proof. induction s as [|c s IH]; cbn; [reflexivity | now rewrite IH]. Qed.

Lemma eqb_length s t : String.eqb s t = true -> String.length s = String.length t.
Proof. intros H. apply String.eqb_eq in H. now subst. Qed.

Lemma is_tail_length suffix s :
  is_tail suffix s = true -> (String.length suffix <= String.length s)%nat.
Proof.
  induction s as [|c s IH]; cbn [is_tail].
  - rewrite orb_false_r. intros H. apply eqb_length in H. lia.
  - intros H. apply orb_true_iff in H as [H|H].
    + apply eqb_length in H. lia.
    + apply IH in H. cbn. lia.
Qed.

(** [endswith] compares the last characters; that is being a tail. *)
Lemma endswith_is_tail s suffix : Str.endswith s suffix = is_tail suffix s.
Proof.
  unfold Str.endswith. induction s as [|c s IH].
  - cbn. destruct suffix; reflexivity.
  - cbn [is_tail String.length].
    set (k := String.length suffix) in *. set (n := String.length s) in *.
    destruct (le_lt_dec k n) as [Hle|Hgt].
    + assert (Hne : String.eqb (String c s) suffix = false).
      { apply String.eqb_neq. intros <-. subst k n. cbn in Hle. lia. }
      rewrite Hne. cbn [orb]. rewrite <- IH.
      rewrite !(proj2 (Nat.leb_le _ _)) by lia.
      replace (S n - k)%nat with (S (n - k)) by lia.
      reflexivity.
    + assert (Htail : is_tail suffix s = false).
      { destruct (is_tail suffix s) eqn:E; [|reflexivity].
        apply is_tail_length in E. subst k n. lia. }
      rewrite Htail, orb_false_r.
      destruct (Nat.eq_dec k (S n)) as [Heq|Hneq].
      * rewrite Heq, Nat.leb_refl, Nat.sub_diag. cbn [andb].
        subst n. change (S (String.length s)) with (String.length (String c s)).
        now rewrite substring_all.
      * rewrite (proj2 (Nat.leb_gt _ _)) by lia.
        cbn [andb]. symmetry. apply String.eqb_neq. intros <-.
        subst k n. cbn in *. lia.
Qed.

Lemma mem_is_tail c suffix s :
  is_tail suffix s = true -> Str.mem c suffix = true -> Str.mem c s = true.
Proof.
  induction s as [|c' s IH]; cbn [is_tail Str.mem].
  - rewrite orb_false_r. intros H. apply String.eqb_eq in H. now subst.
  - intros H Hc. apply orb_true_iff in H as [H|H].
    + apply String.eqb_eq in H. subst suffix. exact Hc.
    + rewrite (IH H Hc). apply orb_true_r.
Qed.

(** For a suffix that is a dot and then no dot, to end with it is to have
    it as extension. *)
Lemma is_tail_extension t s :
  Str.mem "."%char t = false ->
  is_tail (String "." t) s = true <-> extension s = String "." t.
Proof.
  intros Ht. induction s as [|c s IH]; cbn [is_tail extension].
  - cbn. split; discriminate.
  - destruct (Str.mem "." s) eqn:Hs.
    + assert (Hne : String.eqb (String c s) (String "." t) = false).
      { apply String.eqb_neq. intros [= -> ->]. congruence. }
      rewrite Hne. exact IH.
    + assert (Htail : is_tail (String "." t) s = false).
      { destruct (is_tail (String "." t) s) eqn:E; [|reflexivity].
        apply (mem_is_tail "."%char) in E; [congruence | reflexivity]. }
      rewrite Htail, orb_false_r.
      destruct (Ascii.eqb_spec c ".") as [->|Hc].
      * split; [now intros H%String.eqb_eq | intros ->; apply String.eqb_refl].
      * split; [|discriminate]. intros H%String.eqb_eq. congruence.
Qed.

Lemma endswith_any_extension key :
  Str.endswith_any key dicom_suffixes = true <-> extension key ∈ dicom_suffixes.
Proof.
  unfold Str.endswith_any, dicom_suffixes. cbn [existsb].
  rewrite !endswith_is_tail, !orb_true_iff, !elem_of_cons, elem_of_nil.
  rewrite !is_tail_extension by reflexivity.
  intuition discriminate.
Qed.

(** *** The marker *)

Lemma take4_drop128 (body : list byte) a b c d :
  (128 < length body)%nat ->
  take 4 (drop 128 body) = [a; b; c; d] <->
  body !! 128%nat = Some a /\ body !! 129%nat = Some b /\
  body !! 130%nat = Some c /\ body !! 131%nat = Some d.
Proof.
  intros _.
  pose proof (fun i => lookup_drop body 128 i) as H.
  change (body !! 131%nat) with (body !! (128 + 3)%nat).
  change (body !! 130%nat) with (body !! (128 + 2)%nat).
  change (body !! 129%nat) with (body !! (128 + 1)%nat).
  change (body !! 128%nat) with (body !! (128 + 0)%nat).
  rewrite <- !H. clear H.
  generalize (drop 128 body) as l. intros l.
  destruct l as [|x0 [|x1 [|x2 [|x3 l]]]]; cbn; split;
    try (intros (? & ? & ? & ?)); try intros ?; simplify_eq; auto.
Qed.

Section Runs.

Context (svc : services) (self : S3DICOMOrganizer).

Lemma marker_read_spec key :
  marker_read svc self key = true <->
  exists body,
    object_body svc (source_bucket self) key = Success body /\
    marker_at_128 body.
Proof.
  unfold marker_read, byte_range, marker_at_128.
  destruct (object_body svc (source_bucket self) key) as [body|e].
  - destruct (Nat.leb_spec (length body) 128) as [Hle|Hgt].
    + split; [discriminate|]. intros (b & [= <-] & H128 & _).
      apply lookup_lt_Some in H128. lia.
    + rewrite bool_decide_eq_true. unfold DICM.
      change (S 131 - 128)%nat with 4%nat.
      rewrite take4_drop128 by exact Hgt. split.
      * intros H. now exists body.
      * now intros (b & [= <-] & H).
  - split; [discriminate|]. now intros (b & [=] & _).
Qed.

Lemma classify_spec key : classify svc self key = true <-> is_dicom svc self key.
Proof.
  unfold classify, is_dicom.
  now rewrite orb_true_iff, endswith_any_extension, marker_read_spec.
Qed.

Lemma _is_dicom_file_run key w :
  _is_dicom_file svc self key w
  = (Ok (marker_read svc self key),
     logged w [S3_get_object (source_bucket self) key (Some (128, 131)%nat)]).
Proof.
  unfold _is_dicom_file, try_except, marker_read.
  rewrite run_bind, get_object_run.
  destruct (object_body svc (source_bucket self) key) as [body|e];
    [|reflexivity].
  now destruct (byte_range 128 131 body).
Qed.

Lemma list_object_run files key w :
  list_object svc self files key w
  = (Ok (files ++ List.filter (classify svc self) [key])%list,
     logged w (probes self [key])).
Proof.
  unfold list_object, classify, probes. cbn [flat_map List.filter].
  rewrite app_nil_r.
  destruct (Str.endswith_any key dicom_suffixes); cbn [orb].
  - erewrite run_bind_ok by reflexivity. cbn. now rewrite logged_nil.
  - erewrite run_bind_ok by apply _is_dicom_file_run.
    destruct (marker_read svc self key); cbn; [reflexivity|].
    now rewrite app_nil_r.
Qed.

Lemma probes_app keys keys' :
  probes self (keys ++ keys') = (probes self keys ++ probes self keys')%list.
Proof. apply flat_map_app. Qed.

Lemma list_contents_run contents :
  forall files w,
    fold_m contents (list_object svc self) files w
    = (Ok (files ++ List.filter (classify svc self) contents)%list,
       logged w (probes self contents)).
Proof.
  induction contents as [|key contents IH]; intros files w; cbn [fold_m].
  - cbn. now rewrite app_nil_r, logged_nil.
  - erewrite run_bind_ok by apply list_object_run.
    rewrite IH, logged_logged, <- app_assoc.
    change (key :: contents) with ([key] ++ contents)%list.
    now rewrite List.filter_app, probes_app.
Qed.

Lemma list_pages_run pages :
  forall files w,
    fold_m (List.map Success pages)
      (fun dicom_files fetched =>
         page <- answer fetched ;;
         match page with
         | None => ret dicom_files
         | Some contents =>
             fold_m contents (list_object svc self) dicom_files
         end) files w
    = (Ok (files ++ List.filter (classify svc self) (listed pages))%list,
       logged w (probes self (listed pages))).
Proof.
  induction pages as [|page pages IH]; intros files w.
  - cbn. now rewrite app_nil_r, logged_nil.
  - rewrite listed_cons, List.filter_app, probes_app.
    cbn [List.map fold_m].
    destruct page as [contents|]; cbn [default id].
    + erewrite run_bind_ok
        by (erewrite run_bind_ok by reflexivity; apply list_contents_run).
      rewrite IH, logged_logged, <- app_assoc. reflexivity.
    + erewrite run_bind_ok by reflexivity.
      rewrite IH. reflexivity.
Qed.

End Runs.

(** C2. A listed key is taken for a DICOM file if and only if its
    extension is one of [.dcm], [.dicom], [.DCM], [.DICOM], or the object
    the store holds under the key has the bytes [DICM] at offsets 128 to
    131; [_list_dicom_files] returns exactly the listed keys that pass this
    test, in the order of the listing, and reads the marker only of the
    keys without a known extension. *)
Theorem listing_classifies_dicom svc self pages w :
  paginate svc (source_bucket self) (source_prefix self)
  = List.map Success pages ->
  exists accept : string -> bool,
    (forall key, accept key = true <-> is_dicom svc self key) /\
    _list_dicom_files svc self w
    = (Ok (List.filter accept (listed pages)),
       logged w (S3_paginate (source_bucket self) (source_prefix self)
                   :: probes self (listed pages))) /\
    forall files key w',
      list_object svc self files key w'
      = (Ok (if accept key then (files ++ [key])%list else files),
         logged w' (probes self [key])).
Proof.
  intros Hpages. exists (classify svc self).
  split; [apply classify_spec|]. split.
  - unfold _list_dicom_files.
    erewrite run_bind_ok by apply run_emit.
    rewrite Hpages, list_pages_run, logged_logged. reflexivity.
  - intros files key w'. rewrite list_object_run. cbn [List.filter].
    destruct (classify svc self key); [reflexivity | now rewrite app_nil_r].
Qed.

End ClassifyProofs.

Module PollingProofs.
Import HealthImaging ImagingSpec.

Section Polling.

Context (svc : service) (self : AWSHealthImaging) (job_id : pyval).

Lemma client_call_run op kwargs w :
  client_call svc op kwargs w
  = (match respond svc (requests w) op kwargs with
     | Success v => Ok v
     | Failure e => Raise e
     end, after_request svc w (HI_call op kwargs)).
Proof.
  unfold client_call, after_request.
  now destruct (respond svc (requests w) op kwargs).
Qed.

Lemma get_import_job_status_run w :
  get_import_job_status svc self job_id w
  = match job_properties svc self job_id (requests w) with
    | Some properties =>
        (Ok (PDict properties),
         logged (after_request svc w (query_event self job_id))
                (status_prints job_id properties))
    | None =>
        (Ok PNone,
         logged (after_request svc w (query_event self job_id))
                [query_failed (query_error svc self job_id (requests w))])
    end.
Proof.
  unfold get_import_job_status, try_except, job_properties, query_error.
  rewrite run_bind, client_call_run.
  fold (status_query self job_id). fold (query_event self job_id).
  destruct (respond svc (requests w) "get_dicom_import_job"
                    (status_query self job_id)) as [response|e];
    [|reflexivity].
  destruct response as [| | | | |l |response]; try reflexivity.
  unfold getitem at 1. rewrite run_bind.
  destruct (assoc "jobProperties" response) as [properties|] eqn:Hprops;
    [|reflexivity].
  cbn [ret]. 
  destruct properties as [| | | | |l |properties]; try reflexivity.
  unfold getitem at 1. rewrite run_bind.
  destruct (assoc "jobStatus" properties) as [status|] eqn:Hstatus;
    [|reflexivity].
  cbn [ret]. unfold print. erewrite run_bind_ok by apply run_emit.
  unfold contains. erewrite run_bind_ok by reflexivity.
  unfold status_prints. rewrite Hstatus. cbn [default id].
  destruct (assoc "message" properties) as [message|] eqn:Hmessage.
  - unfold getitem at 1. rewrite Hmessage.
    erewrite run_bind_ok
      by (erewrite run_bind_ok by reflexivity; apply run_emit).
    unfold getitem. rewrite Hprops. cbn [ret].
    now rewrite logged_logged.
  - erewrite run_bind_ok by reflexivity.
    unfold getitem. rewrite Hprops. reflexivity.
Qed.

Lemma job_properties_status n properties :
  job_properties svc self job_id n = Some properties ->
  exists status,
    assoc "jobStatus" properties = Some status /\
    observed svc self job_id n = Some status.
Proof.
  intros H. unfold observed. rewrite H. unfold job_properties in H.
  destruct (respond svc n _ _) as [[| | | | | |response]|]; try discriminate.
  destruct (assoc "jobProperties" response) as [[| | | | | |p]|];
    try discriminate.
  destruct (assoc "jobStatus" p) as [status|] eqn:E; [|discriminate].
  injection H as <-. eauto.
Qed.

Lemma job_properties_None n :
  job_properties svc self job_id n = None ->
  observed svc self job_id n = None.
Proof. intros H. unfold observed. now rewrite H. Qed.

Lemma truthy_properties (properties : dict pyval) status :
  assoc "jobStatus" properties = Some status ->
  truthy (PDict properties) = true.
Proof. destruct properties; [discriminate | reflexivity]. Qed.

(** One turn of the loop. *)
Lemma wait_loop_step fuel c m start w :
  wait_loop svc (S fuel) self job_id c m start w
  = if now w - start <? m then
      let w1 := after_request svc w (query_event self job_id) in
      match job_properties svc self job_id (requests w) with
      | None =>
          (Ok false,
           logged w1
             [query_failed (query_error svc self job_id (requests w))])
      | Some properties =>
          let status := default PNone (assoc "jobStatus" properties) in
          let w2 := logged w1 (status_prints job_id properties) in
          if success_status status then
            (Ok true,
             logged w2 [Printed [Lit "Import job completed successfully!"]])
          else if failure_status status then
            (Ok false,
             logged w2
               [Printed [Lit "Import job ended with status: "; Fmt status]])
          else if c <? 0 then
            (Raise (Exception "ValueError"
                              "sleep length must be non-negative"),
             logged w2 [waiting status])
          else
            wait_loop svc fuel self job_id c m start
              (slept svc (logged w2 [waiting status]) c)
      end
    else (Ok false, logged w [Printed [Lit "Max wait time exceeded"]]).
Proof.
  cbn [wait_loop]. unfold time_time at 1. rewrite run_bind. cbv beta iota.
  destruct (now w - start <? m); [|reflexivity].
  rewrite run_bind, get_import_job_status_run.
  destruct (job_properties svc self job_id (requests w)) as [properties|]
    eqn:Hprops; [|reflexivity].
  destruct (job_properties_status _ _ Hprops) as (status & Hstatus & _).
  rewrite (truthy_properties _ _ Hstatus). cbn [negb].
  unfold getitem at 1. rewrite Hstatus, run_bind. cbn [ret default id].
  cbv zeta. unfold success_status, failure_status.
  destruct (eq_str status "COMPLETED"); [reflexivity|].
  cbn [existsb]. rewrite orb_false_r.
  destruct (eq_str status "FAILED" || eq_str status "COMPLETED_WITH_ERRORS");
    [reflexivity|].
  unfold print. erewrite run_bind_ok by apply run_emit.
  rewrite run_bind. unfold time_sleep at 1. cbn [requests logged].
  destruct (c <? 0); reflexivity.
Qed.

End Polling.
End PollingProofs.

Module LoopProofs.
Import HealthImaging ImagingSpec PollingProofs.

(** *** Rounding up *)

Lemma ceil_div_shift m c : 0 < c -> ceil_div m c = (m - 1) / c + 1.
Proof.
  intros Hc. unfold ceil_div.
  replace (m + c - 1) with (m - 1 + 1 * c) by lia.
  now rewrite Z.div_add by lia.
Qed.

(** [ceil_div m c] is the least [q] with [m <= q * c]. *)
Lemma ceil_div_least m c q : 0 < c -> ceil_div m c <= q <-> m <= q * c.
Proof.
  intros Hc. rewrite ceil_div_shift by exact Hc. split; intros H.
  - assert (m - 1 < (q - 1 + 1) * c); [|lia].
    replace ((q - 1 + 1) * c) with (c * (q - 1) + c) by lia.
    pose proof (Z.mod_pos_bound (m - 1) c Hc).
    pose proof (Z.div_mod (m - 1) c ltac:(lia)). nia.
  - assert ((m - 1) / c < q); [|lia].
    apply Z.div_lt_upper_bound; lia.
Qed.

Lemma ceil_div_pos m c : 0 < c -> 0 < m -> 1 <= ceil_div m c.
Proof.
  intros Hc Hm. rewrite ceil_div_shift by exact Hc.
  pose proof (Z.div_pos (m - 1) c). lia.
Qed.

Lemma ceil_div_step m c d :
  0 < c -> 0 < m -> c <= d ->
  1 + Z.max 0 (ceil_div (m - d) c) <= ceil_div m c.
Proof.
  intros Hc Hm Hd. rewrite (ceil_div_shift m) by exact Hc.
  assert (ceil_div (m - d) c <= (m - 1) / c).
  { apply ceil_div_least; [exact Hc|].
    pose proof (Z.mod_pos_bound (m - 1) c Hc).
    pose proof (Z.div_mod (m - 1) c ltac:(lia)). nia. }
  pose proof (Z.div_pos (m - 1) c). lia.
Qed.

(** *** The calls of a run *)

Lemma calls_app l l' : calls (l ++ l') = (calls l ++ calls l')%list.
Proof. apply List.filter_app. Qed.

Lemma calls_status_prints job_id properties :
  calls (status_prints job_id properties) = [].
Proof.
  unfold status_prints. now destruct (assoc "message" properties).
Qed.

Lemma rounds_snoc k query c :
  (rounds k query c ++ [query; Sleep c])%list = rounds (S k) query c.
Proof.
  induction k as [|k IH]; [reflexivity|].
  cbn [rounds app]. now rewrite IH.
Qed.

Lemma rounds_cons_app k query c tail :
  query :: Sleep c :: (rounds k query c ++ tail)
  = (rounds (S k) query c ++ tail)%list.
Proof. reflexivity. Qed.

Lemma eq_str_true v s : eq_str v s = true <-> v = PStr s.
Proof.
  destruct v; cbn; try (split; [discriminate | intros [=]]).
  rewrite String.eqb_eq. split; [now intros -> | now intros [= ->]].
Qed.

End LoopProofs.

Module WaitProofs.
Import HealthImaging ImagingSpec PollingProofs LoopProofs.

Section Waiting.

Context (svc : service) (self : AWSHealthImaging) (job_id : pyval).

Abbreviation obs := (observed svc self job_id).
Abbreviation query := (query_event self job_id).

Lemma calls_query l : calls (query :: l) = query :: calls l.
Proof. reflexivity. Qed.

(** Everything a run of the loop tells: how many checks it made, what it
    logged, what it observed, and how it ended. *)
Lemma wait_loop_spec c m start :
  forall fuel w r w',
    wait_loop svc fuel self job_id c m start w = (r, w') ->
    exists k es,
      requests w' = (requests w + k)%nat /\
      log w' = (log w ++ es)%list /\
      (forall i, (requests w <= i)%nat -> (S i < requests w')%nat ->
                 pending (obs i)) /\
      (0 < c ->
       Z.of_nat k <= Z.max 0 (ceil_div (m - (now w - start)) c)) /\
      match r with
      | Ok true =>
          (0 < k)%nat /\
          calls es = (rounds (k - 1) query c ++ [query])%list /\
          obs (pred (requests w')) = Some (PStr "COMPLETED")
      | Ok false =>
          ((0 < k)%nat /\
           calls es = (rounds (k - 1) query c ++ [query])%list /\
           ((obs (pred (requests w')) = None /\
             (exists pre,
                 es = (pre ++
                       [query;
                        query_failed
                          (query_error svc self job_id
                                       (pred (requests w')))])%list) /\
             now w' - start
             < m + Z.of_nat (latency svc (pred (requests w')))) \/
            (exists status,
                obs (pred (requests w')) = Some status /\
                failure_status status = true))) \/
          (calls es = rounds k query c /\
           (forall i, (requests w <= i < requests w')%nat ->
                      pending (obs i)) /\
           m <= now w' - start)
      | Raise e =>
          c < 0 /\
          forall i, (requests w <= i < requests w')%nat -> pending (obs i)
      | OutOfFuel =>
          k = fuel /\ calls es = rounds k query c /\
          forall i, (requests w <= i < requests w')%nat -> pending (obs i)
      end.
Proof.
  induction fuel as [|fuel IH]; intros w r w' Hrun.
  { cbn in Hrun. injection Hrun as <- <-.
    exists 0%nat, []. rewrite Nat.add_0_r, app_nil_r.
    repeat split; try reflexivity; intros; lia. }
  rewrite wait_loop_step in Hrun.
  destruct (Z.ltb_spec (now w - start) m) as [Htime|Htime].
  2:{ injection Hrun as <- <-. exists 0%nat, [Printed [Lit "Max wait time exceeded"]].
      cbn [requests log now logged]. rewrite Nat.add_0_r.
      split; [reflexivity|]. split; [reflexivity|].
      split; [intros; lia|]. split; [lia|].
      right. repeat split; [intros; lia | lia]. }
  assert (Hbound1 : 0 < c -> 1 <= Z.max 0 (ceil_div (m - (now w - start)) c)).
  { intros Hc. pose proof (ceil_div_pos (m - (now w - start)) c Hc). lia. }
  cbv zeta in Hrun.
  destruct (job_properties svc self job_id (requests w)) as [properties|]
    eqn:Hprops.
  2:{ injection Hrun as <- <-.
      exists 1%nat.
      exists [query;
              query_failed (query_error svc self job_id (requests w))].
      cbn [requests log now logged after_request pred].
      split; [lia|]. split; [now rewrite <- app_assoc|].
      split; [intros; lia|]. split; [exact Hbound1|].
      left. split; [lia|]. split; [reflexivity|]. left.
      split; [now apply job_properties_None|].
      split; [now exists [] | lia]. }
  destruct (job_properties_status svc self job_id _ _ Hprops)
    as (status & Hstatus & Hobs).
  rewrite Hstatus in Hrun. cbn [default id] in Hrun.
  destruct (success_status status) eqn:Hsuccess.
  { injection Hrun as <- <-.
    exists 1%nat.
    exists (query :: status_prints job_id properties
              ++ [Printed [Lit "Import job completed successfully!"]])%list.
    cbn [requests log now logged after_request pred].
    split; [lia|]. split; [now rewrite <- !app_assoc|].
    split; [intros; lia|]. split; [exact Hbound1|].
    split; [lia|]. split.
    - rewrite calls_query, calls_app, calls_status_prints. reflexivity.
    - rewrite Hobs. f_equal. now apply eq_str_true. }
  destruct (failure_status status) eqn:Hfailure.
  { injection Hrun as <- <-.
    exists 1%nat.
    exists (query :: status_prints job_id properties
              ++ [Printed [Lit "Import job ended with status: ";
                         Fmt status]])%list.
    cbn [requests log now logged after_request pred].
    split; [lia|]. split; [now rewrite <- !app_assoc|].
    split; [intros; lia|]. split; [exact Hbound1|].
    left. split; [lia|]. split.
    - rewrite calls_query, calls_app, calls_status_prints. reflexivity.
    - right. eauto. }
  assert (Hpending : pending (obs (requests w))).
  { exists status. split; [exact Hobs|].
    unfold terminal. now rewrite Hsuccess, Hfailure. }
  assert (Hrange : forall n' i, (requests w <= i < n')%nat ->
            (forall j, (S (requests w) <= j < n')%nat -> pending (obs j)) ->
            pending (obs i)).
  { intros n' i Hi Hrest.
    destruct (decide (i = requests w)) as [->|Hne]; [exact Hpending|].
    apply Hrest. lia. }
  destruct (Z.ltb_spec c 0) as [Hneg|Hnonneg].
  { injection Hrun as <- <-.
    exists 1%nat.
    exists (query :: status_prints job_id properties
              ++ [waiting status])%list.
    cbn [requests log now logged after_request pred].
    split; [lia|]. split; [now rewrite <- !app_assoc|].
    split; [intros; lia|]. split; [exact Hbound1|].
    split; [exact Hneg|].
    intros i Hi. replace i with (requests w) by lia. exact Hpending. }
  apply IH in Hrun as (k & es & Hreq & Hlog & Hbefore & Hbound & Hend).
  cbn [requests log now logged after_request slept] in Hreq, Hlog, Hbefore, Hbound, Hend.
  exists (S k).
  exists (query :: status_prints job_id properties
            ++ [waiting status; Sleep c] ++ es)%list.
  split; [lia|].
  split; [rewrite Hlog, <- !app_assoc; reflexivity|].
  split.
  { intros i Hi Hlast.
    destruct (decide (i = requests w)) as [->|Hne]; [exact Hpending|].
    apply Hbefore; lia. }
  split.
  { intros Hc. specialize (Hbound Hc).
    pose proof (ceil_div_step (m - (now w - start)) c
                  (Z.of_nat (latency svc (requests w)) + c
                   + Z.of_nat (oversleep svc (S (requests w))))
                  Hc ltac:(lia) ltac:(lia)) as Hstep.
    replace (m - (now w + Z.of_nat (latency svc (requests w)) + c
                  + Z.of_nat (oversleep svc (S (requests w))) - start))
      with (m - (now w - start)
            - (Z.of_nat (latency svc (requests w)) + c
               + Z.of_nat (oversleep svc (S (requests w))))) in Hbound
      by lia.
    lia. }
  assert (Hcalls : forall tail,
             calls es = tail ->
             calls (query :: status_prints job_id properties
                      ++ [waiting status; Sleep c] ++ es)
             = query :: Sleep c :: tail).
  { intros tail <-.
    rewrite calls_query, !calls_app, calls_status_prints. reflexivity. }
  destruct r as [[|]|e|].
  - destruct Hend as (Hk & Hc & Hlast).
    split; [lia|]. split; [|exact Hlast].
    rewrite (Hcalls _ Hc), rounds_cons_app. do 2 f_equal. lia.
  - destruct Hend as [(Hk & Hc & Hlast)|(Hc & Hall & Hm)].
    + left. split; [lia|]. split.
      * rewrite (Hcalls _ Hc), rounds_cons_app. do 2 f_equal. lia.
      * destruct Hlast as [(Hnone & (pre & Hpre) & Hlate)|Hfail];
          [left | right; exact Hfail].
        split; [exact Hnone|]. split; [|exact Hlate].
        eexists. rewrite Hpre.
        rewrite !app_comm_cons, !app_assoc. reflexivity.
    + right. split; [exact (Hcalls _ Hc)|]. split; [|exact Hm].
      intros i Hi. apply (Hrange (requests w')); [lia|].
      intros j Hj. apply Hall. lia.
  - destruct Hend as (Hc & Hall). split; [exact Hc|].
    intros i Hi. apply (Hrange (requests w')); [lia|].
    intros j Hj. apply Hall. lia.
  - destruct Hend as (Hk & Hc & Hall).
    split; [lia|]. split; [exact (Hcalls _ Hc)|].
    intros i Hi. apply (Hrange (requests w')); [lia|].
    intros j Hj. apply Hall. lia.
Qed.

End Waiting.
End WaitProofs.

Module PollingTheorems.
Import HealthImaging ImagingSpec PollingProofs LoopProofs WaitProofs.

Lemma wait_for_import_completion_run svc fuel self job_id c m w :
  wait_for_import_completion svc fuel self job_id c m w
  = wait_loop svc fuel self job_id c m (now w) w.
Proof. reflexivity. Qed.

Lemma pending_not_failure o status :
  pending o -> o = Some status -> failure_status status = true -> False.
Proof.
  intros (s & -> & Hs) [= ->] Hf. unfold terminal in Hs.
  rewrite Hf, orb_true_r in Hs. discriminate.
Qed.

Lemma pending_not_None o : pending o -> o <> None.
Proof. now intros (s & -> & _). Qed.

Lemma pending_not_completed o : pending o -> o <> Some (PStr "COMPLETED").
Proof. intros (s & -> & Hs) [= ->]. discriminate. Qed.

(** C3. [wait_for_import_completion] returns true only when the statuses
    it observed end in [COMPLETED], all the earlier ones being statuses of
    a job still going on; it returns false when it observed [FAILED] or
    [COMPLETED_WITH_ERRORS]; and it returns false, the maximum wait having
    elapsed, when every status it observed was that of a job still going
    on. *)
Theorem polling_verdict svc self job_id fuel c m w r w' :
  wait_for_import_completion svc fuel self job_id c m w = (r, w') ->
  (r = Ok true ->
   (requests w < requests w')%nat /\
   observed svc self job_id (pred (requests w')) = Some (PStr "COMPLETED") /\
   forall i, (requests w <= i)%nat -> (S i < requests w')%nat ->
             pending (observed svc self job_id i)) /\
  ((exists i status,
       (requests w <= i < requests w')%nat /\
       observed svc self job_id i = Some status /\
       failure_status status = true) ->
   r = Ok false) /\
  (0 < c -> (Z.to_nat (ceil_div m c) < fuel)%nat ->
   (forall i, (requests w <= i < requests w')%nat ->
              pending (observed svc self job_id i)) ->
   r = Ok false /\ m <= now w' - now w).
Proof.
  rewrite wait_for_import_completion_run. intros Hrun.
  apply wait_loop_spec in Hrun
    as (k & es & Hreq & Hlog & Hbefore & Hbound & Hend).
  split; [|split].
  - intros ->. destruct Hend as (Hk & _ & Hlast).
    split; [lia|]. split; [exact Hlast | exact Hbefore].
  - intros (i & status & Hi & Hobs & Hfail).
    assert (Hlast : i = pred (requests w')).
    { destruct (decide (S i < requests w')%nat) as [Hlt|Hge]; [|lia].
      exfalso. eapply pending_not_failure; eauto.
      apply Hbefore; lia. }
    subst i.
    destruct r as [[|]|e|]; [|reflexivity| |].
    + destruct Hend as (_ & _ & Hc). rewrite Hc in Hobs.
      injection Hobs as <-. discriminate.
    + destruct Hend as (_ & Hall). exfalso.
      eapply pending_not_failure; eauto.
    + destruct Hend as (_ & _ & Hall). exfalso.
      eapply pending_not_failure; eauto.
  - intros Hc Hfuel Hall.
    destruct r as [[|]|e|].
    + destruct Hend as (Hk & _ & Hlast). exfalso.
      eapply pending_not_completed; [|exact Hlast]. apply Hall. lia.
    + destruct Hend as [(Hk & _ & [(Hnone & _)|(s & Hs & Hf)])|(_ & _ & Hm)].
      * exfalso. eapply pending_not_None; [|exact Hnone]. apply Hall. lia.
      * exfalso. eapply pending_not_failure; [|exact Hs|exact Hf].
        apply Hall. lia.
      * split; [reflexivity | exact Hm].
    + destruct Hend as (Hneg & _). lia.
    + destruct Hend as (Hk & _). specialize (Hbound Hc).
      replace (m - (now w - now w)) with m in Hbound by lia. lia.
Qed.

(** C8. With a positive check interval [c] and a maximum wait [m] the
    polling loop ends and returns: it makes at most [ceil(m / c)] status
    checks, hence at most [ceil(m / c) + 1]; between two consecutive
    checks it sleeps [c] exactly once; and when every check is answered
    with a status it stops at the first terminal status, or else when the
    time elapsed has reached [m]. *)
Theorem polling_terminates svc self job_id fuel c m w :
  0 < c -> (Z.to_nat (ceil_div m c) < fuel)%nat ->
  exists b w' k es,
    wait_for_import_completion svc fuel self job_id c m w = (Ok b, w') /\
    requests w' = (requests w + k)%nat /\
    log w' = (log w ++ es)%list /\
    (k <= Z.to_nat (ceil_div m c))%nat /\
    (k <= Z.to_nat (ceil_div m c + 1))%nat /\
    (0 <= m -> Z.of_nat k <= ceil_div m c + 1) /\
    (calls es = rounds k (query_event self job_id) c \/
     (0 < k)%nat /\
     calls es = (rounds (k - 1) (query_event self job_id) c
                   ++ [query_event self job_id])%list) /\
    ((forall i, (requests w <= i < requests w')%nat ->
                observed svc self job_id i <> None) ->
     (forall i, (requests w <= i)%nat -> (S i < requests w')%nat ->
                pending (observed svc self job_id i)) /\
     ((0 < k)%nat /\
      (exists status,
          observed svc self job_id (pred (requests w')) = Some status /\
          terminal status = true) \/
      (forall i, (requests w <= i < requests w')%nat ->
                 pending (observed svc self job_id i)) /\
      m <= now w' - now w)).
Proof.
  intros Hc Hfuel.
  destruct (wait_for_import_completion svc fuel self job_id c m w)
    as [r w'] eqn:Hrun.
  rewrite wait_for_import_completion_run in Hrun.
  apply wait_loop_spec in Hrun
    as (k & es & Hreq & Hlog & Hbefore & Hbound & Hend).
  specialize (Hbound Hc).
  replace (m - (now w - now w)) with m in Hbound by lia.
  assert (Hk : (k <= Z.to_nat (ceil_div m c))%nat) by lia.
  destruct r as [b|e|].
  - exists b, w', k, es.
    split; [reflexivity|]. split; [exact Hreq|]. split; [exact Hlog|].
    split; [exact Hk|]. split; [lia|].
    split; [intros Hm; pose proof (Z.div_pos (m + c - 1) c);
            unfold ceil_div in *; lia|].
    destruct b.
    + destruct Hend as (Hpos & Hcalls & Hlast).
      split; [right; auto|]. intros _. split; [exact Hbefore|].
      left. split; [exact Hpos|]. eauto.
    + destruct Hend as [(Hpos & Hcalls & Hlast)|(Hcalls & Hall & Hm)].
      * split; [right; auto|]. intros Hanswered. split; [exact Hbefore|].
        left. split; [exact Hpos|].
        destruct Hlast as [(Hnone & _)|(status & Hs & Hf)].
        -- exfalso. apply (Hanswered (pred (requests w'))); [lia | exact Hnone].
        -- exists status. split; [exact Hs|].
           unfold terminal. now rewrite Hf, orb_true_r.
      * split; [left; exact Hcalls|]. intros _. split; [exact Hbefore|].
        right. auto.
  - destruct Hend as (Hneg & _). lia.
  - destruct Hend as (Hfuel' & _). lia.
Qed.

(** C9. When a status query made during polling fails,
    [wait_for_import_completion] returns false at once: the failed query
    is the last request it sends (no retry), the report of the failure is
    the last thing it logs (no sleep after it), and the time elapsed when
    it returns is less than the maximum wait plus the latency of that
    query. *)
Theorem failed_query_ends_polling svc self job_id fuel c m w r w' i :
  wait_for_import_completion svc fuel self job_id c m w = (r, w') ->
  (requests w <= i < requests w')%nat ->
  observed svc self job_id i = None ->
  r = Ok false /\
  i = pred (requests w') /\
  (exists pre,
      log w' = (pre ++ [query_event self job_id;
                        query_failed (query_error svc self job_id i)])%list) /\
  now w' - now w < m + Z.of_nat (latency svc i).
Proof.
  rewrite wait_for_import_completion_run. intros Hrun Hi Hnone.
  apply wait_loop_spec in Hrun
    as (k & es & Hreq & Hlog & Hbefore & Hbound & Hend).
  assert (Hlast : i = pred (requests w')).
  { destruct (decide (S i < requests w')%nat) as [Hlt|Hge]; [|lia].
    exfalso. eapply pending_not_None; [|exact Hnone].
    apply Hbefore; lia. }
  subst i.
  destruct r as [[|]|e|].
  - destruct Hend as (_ & _ & Hc). congruence.
  - destruct Hend as [(Hk & _ & [(_ & (pre & Hpre) & Hlate)|(s & Hs & _)])
                     |(_ & Hall & _)].
    + split; [reflexivity|]. split; [reflexivity|]. split; [|exact Hlate].
      exists (log w ++ pre)%list. rewrite Hlog, Hpre.
      now rewrite app_assoc.
    + congruence.
    + exfalso. eapply pending_not_None; [|exact Hnone]. apply Hall. lia.
  - destruct Hend as (_ & Hall). exfalso.
    eapply pending_not_None; [|exact Hnone]. apply Hall. lia.
  - destruct Hend as (_ & _ & Hall). exfalso.
    eapply pending_not_None; [|exact Hnone]. apply Hall. lia.
Qed.

End PollingTheorems.

Module GuardProofs.
Import DicomOrganizer HealthImaging OrganizerSpec ImagingSpec.
Import OrganizerRuns PollingProofs.

(** A guarded request that fails goes straight to the handler. *)
Lemma guarded_call_failure {A} svc op kwargs (rest : pyval -> M A) handler
      w e :
  fails svc w op kwargs e ->
  try_except (response <- client_call svc op kwargs ;; rest response)
             handler w
  = handler e (after_request svc w (HI_call op kwargs)).
Proof.
  intros Hfail. unfold try_except.
  rewrite run_bind, client_call_run, Hfail. reflexivity.
Qed.

Section Imaging.

Context (svc : service) (self : AWSHealthImaging) (w : world) (e : exn).

Lemma create_datastore_failure name :
  fails svc w "create_datastore" [("datastoreName", name)] e ->
  create_datastore svc self name w
  = (Ok PNone,
     reported svc w "create_datastore" [("datastoreName", name)]
              "Error creating datastore: " e).
Proof.
  intros H. unfold create_datastore.
  now rewrite (guarded_call_failure _ _ _ _ _ _ _ H).
Qed.

Lemma import_dicom_from_s3_failure input output role :
  fails svc w "start_dicom_import_job"
        [("datastoreId", datastore_id self); ("inputS3Uri", input);
         ("outputS3Uri", output); ("dataAccessRoleArn", role)] e ->
  import_dicom_from_s3 svc self input output role w
  = (Ok PNone,
     reported svc w "start_dicom_import_job"
              [("datastoreId", datastore_id self); ("inputS3Uri", input);
               ("outputS3Uri", output); ("dataAccessRoleArn", role)]
              "Error starting import job: " e).
Proof.
  intros H. unfold import_dicom_from_s3.
  now rewrite (guarded_call_failure _ _ _ _ _ _ _ H).
Qed.

Lemma get_import_job_status_failure job_id :
  fails svc w "get_dicom_import_job" (status_query self job_id) e ->
  get_import_job_status svc self job_id w
  = (Ok PNone,
     reported svc w "get_dicom_import_job" (status_query self job_id)
              "Error getting job status: " e).
Proof.
  intros H. unfold get_import_job_status.
  now rewrite (guarded_call_failure _ _ _ _ _ _ _ H).
Qed.

Lemma search_studies_failure filters max_results :
  fails svc w "search_image_sets"
        (search_params self filters max_results) e ->
  search_studies svc self filters max_results w
  = (Ok (PList []),
     reported svc w "search_image_sets"
              (search_params self filters max_results)
              "Error searching image sets: " e).
Proof.
  intros H. unfold search_studies. cbv zeta.
  now rewrite (guarded_call_failure _ _ _ _ _ _ _ H).
Qed.

Lemma get_image_set_metadata_failure image_set_id version_id :
  fails svc w "get_image_set_metadata"
        (metadata_params self image_set_id version_id) e ->
  get_image_set_metadata svc self image_set_id version_id w
  = (Ok PNone,
     reported svc w "get_image_set_metadata"
              (metadata_params self image_set_id version_id)
              "Error getting image set metadata: " e).
Proof.
  intros H. unfold get_image_set_metadata. cbv zeta.
  now rewrite (guarded_call_failure _ _ _ _ _ _ _ H).
Qed.

Lemma get_image_frame_failure image_set_id image_frame_id :
  fails svc w "get_image_frame"
        [("datastoreId", datastore_id self); ("imageSetId", image_set_id);
         ("imageFrameInformation",
          PDict [("imageFrameId", image_frame_id)])] e ->
  get_image_frame svc self image_set_id image_frame_id w
  = (Ok PNone,
     reported svc w "get_image_frame"
              [("datastoreId", datastore_id self);
               ("imageSetId", image_set_id);
               ("imageFrameInformation",
                PDict [("imageFrameId", image_frame_id)])]
              "Error getting image frame: " e).
Proof.
  intros H. unfold get_image_frame.
  now rewrite (guarded_call_failure _ _ _ _ _ _ _ H).
Qed.

Lemma delete_image_set_failure image_set_id :
  fails svc w "delete_image_set"
        [("datastoreId", datastore_id self); ("imageSetId", image_set_id)]
        e ->
  delete_image_set svc self image_set_id w
  = (Ok (PBool false),
     reported svc w "delete_image_set"
              [("datastoreId", datastore_id self);
               ("imageSetId", image_set_id)]
              "Error deleting image set: " e).
Proof.
  intros H. unfold delete_image_set.
  now rewrite (guarded_call_failure _ _ _ _ _ _ _ H).
Qed.

Lemma delete_datastore_failure id :
  fails svc w "delete_datastore"
        [("datastoreId", py_or id (datastore_id self))] e ->
  delete_datastore svc self id w
  = (Ok (PBool false),
     logged (reported svc w "delete_datastore"
                      [("datastoreId", py_or id (datastore_id self))]
                      "Error deleting datastore: " e)
            [Printed [Lit "Note: Datastore must be empty before deletion"]]).
Proof.
  intros H. unfold delete_datastore. cbv zeta.
  rewrite (guarded_call_failure _ _ _ _ _ _ _ H).
  unfold reported, print.
  do 2 (erewrite run_bind_ok by apply run_emit).
  now rewrite logged_logged.
Qed.

End Imaging.

Section Organizer.

Context (store : services) (self : S3DICOMOrganizer) (w : world) (e : exn).

(** A listing that fails after some pages ends the fold with the
    exception, whatever the pages before it held. *)
Lemma fold_pages_failure {S} (body : S -> page -> M S) pages rest :
  (forall acc page w1, exists acc' w2, body acc page w1 = (Ok acc', w2)) ->
  forall acc w1,
    fst (fold_m (List.map Success pages ++ Failure e :: rest)%list
           (fun acc fetched => page <- answer fetched ;; body acc page)
           acc w1)
    = Raise e.
Proof.
  intros Hbody. induction pages as [|page pages IH]; intros acc w1.
  - reflexivity.
  - cbn [List.map app fold_m].
    destruct (Hbody acc page w1) as (acc' & w2 & Hstep).
    erewrite run_bind_ok
      by (erewrite run_bind_ok by reflexivity; exact Hstep).
    apply IH.
Qed.

Lemma _list_dicom_files_failure pages rest :
  paginate store (source_bucket self) (source_prefix self)
  = (List.map Success pages ++ Failure e :: rest)%list ->
  fst (_list_dicom_files store self w) = Raise e.
Proof.
  intros Hpages. unfold _list_dicom_files.
  erewrite run_bind_ok by apply run_emit. rewrite Hpages.
  apply (fold_pages_failure
           (fun dicom_files page =>
              match page with
              | None => ret dicom_files
              | Some contents =>
                  fold_m contents (list_object store self) dicom_files
              end)).
  intros acc [contents|] w1; [|now eexists _, _].
  rewrite ClassifyProofs.list_contents_run. now eexists _, _.
Qed.

Lemma get_organized_structure_failure pages rest :
  paginate store (target_bucket self) (target_prefix self)
  = (List.map Success pages ++ Failure e :: rest)%list ->
  fst (get_organized_structure store self w) = Raise e.
Proof.
  intros Hpages. unfold get_organized_structure.
  erewrite run_bind_ok by apply run_emit. rewrite Hpages.
  apply (fold_pages_failure
           (fun structure page =>
              match page with
              | None => ret structure
              | Some contents =>
                  ret (fold_left add_key contents structure)
              end)).
  intros acc [contents|] w1; now eexists _, _.
Qed.

Lemma organize_failure pages rest :
  paginate store (source_bucket self) (source_prefix self)
  = (List.map Success pages ++ Failure e :: rest)%list ->
  fst (organize_by_patient_study_series store self w) = Raise e.
Proof.
  intros Hpages. unfold organize_by_patient_study_series.
  rewrite run_bind.
  pose proof (_list_dicom_files_failure pages rest Hpages) as Hlist.
  destruct (_list_dicom_files store self w) as [r w1].
  cbn in Hlist. now subst r.
Qed.

Lemma _is_dicom_file_failure key :
  object_body store (source_bucket self) key = Failure e ->
  _is_dicom_file store self key w
  = (Ok false,
     logged w [S3_get_object (source_bucket self) key
                             (Some (128, 131)%nat)]).
Proof.
  intros H. rewrite ClassifyProofs._is_dicom_file_run.
  unfold marker_read. now rewrite H.
Qed.

Lemma organize_file_failure key :
  object_body store (source_bucket self) key = Failure e ->
  organize_file store self key w
  = (Ok tt,
     logged w [S3_get_object (source_bucket self) key None;
               Printed [Lit "Error processing "; Fmt (PStr key); Lit ": ";
                      FmtExn e]]).
Proof.
  intros H. unfold organize_file, try_except.
  rewrite run_bind, _read_dicom_metadata_run, H.
  unfold print. rewrite run_emit, logged_logged. reflexivity.
Qed.

End Organizer.

End GuardProofs.

Module MainProofs.
Import DicomOrganizer HealthImaging Main OrganizerSpec ImagingSpec.
Import LogProofs OrganizerRuns.

Section Driver.

Context (rt : runtime) (fuel : nat).

Lemma banner_emits title : emits organizer_event (banner title).
Proof.
  unfold banner, print.
  repeat (apply emits_bind; [now apply emits_emit | intros _]).
  now apply emits_emit.
Qed.

Lemma banner_run title w :
  banner title w
  = (Ok tt,
     logged w [Printed [Lit (nl ++ rule)]; Printed [Lit title];
               Printed [Lit rule]]).
Proof.
  unfold banner, print.
  do 2 (erewrite run_bind_ok by apply run_emit).
  now rewrite run_emit, !logged_logged.
Qed.

Lemma print_structure_emits structure :
  emits organizer_event (print_structure structure).
Proof.
  unfold print_structure, print.
  apply emits_for_each. intros [patient_id studies].
  apply emits_bind; [now apply emits_emit | intros _].
  apply emits_for_each. intros [study_id series_list].
  apply emits_bind; [now apply emits_emit | intros _].
  apply emits_for_each. intros series_id. now apply emits_emit.
Qed.

Lemma main_organize_emits : emits organizer_event (main_organize rt).
Proof.
  unfold main_organize. cbv zeta.
  apply emits_bind; [apply banner_emits | intros _].
  apply emits_bind; [apply organize_emits | intros _].
  apply emits_bind; [now apply emits_emit | intros _].
  apply emits_bind; [apply get_organized_structure_emits|].
  intros structure. apply print_structure_emits.
Qed.

Lemma construct_without_datastore_id w :
  construct [] [("region_name", PStr AWS_REGION)] w
  = (Raise (Exception "TypeError"
              "__init__() missing required positional argument: 'datastore_id'"),
     w).
Proof. reflexivity. Qed.

Lemma main_with_client_run healthimaging w :
  main_with_client rt fuel healthimaging w
  = (Raise (Exception "AttributeError"
              "'AWSHealthImaging' object has no attribute 'list_datastores'"),
     logged w [Printed [Lit nl; Lit "Listing existing datastores..."]]).
Proof. reflexivity. Qed.

Lemma main_search_run healthimaging datastore_id w :
  main_search rt fuel healthimaging datastore_id w
  = (Raise (Exception "AttributeError"
              "'AWSHealthImaging' object has no attribute 'search_image_sets'"),
     logged w
       [Printed [Lit (nl ++ rule)];
        Printed [Lit "STEP 5: Searching for imported image sets"];
        Printed [Lit rule];
        Printed [Lit nl; Lit "Searching for all image sets..."]]).
Proof.
  unfold main_search.
  erewrite run_bind_ok by apply banner_run.
  unfold print at 1. erewrite run_bind_ok by apply run_emit.
  rewrite logged_logged. reflexivity.
Qed.

Lemma main_run w :
  exists e es,
    main rt fuel w = (Raise e, logged w es) /\ Forall organizer_event es.
Proof.
  unfold main. rewrite run_bind.
  destruct (main_organize_emits w) as (Hfuel & es & Hw & Hes).
  destruct (main_organize rt w) as [[[]|e|] w1]; cbn in Hw, Hfuel; subst w1.
  - erewrite run_bind_ok by apply banner_run.
    rewrite run_bind, construct_without_datastore_id, logged_logged.
    eexists _, _. split; [reflexivity|].
    apply Forall_app. split; [exact Hes|]. repeat constructor.
  - now exists e, es.
  - contradiction.
Qed.

End Driver.

(** C6. Every run of [main] ends in an exception before any request is
    sent to the imaging service: if the organizing step does not raise,
    the construction of [AWSHealthImaging] without [datastore_id] raises a
    [TypeError].  Given a client all the same, the rest of [main] raises an
    [AttributeError] at [list_datastores], and its search step raises one
    at [search_image_sets]: the class defines neither, it defines
    [search_studies]. *)
Theorem main_never_imports rt fuel :
  (forall w, exists e es,
      main rt fuel w = (Raise e, logged w es) /\
      Forall organizer_event es) /\
  (forall w,
      construct [] [("region_name", PStr AWS_REGION)] w
      = (Raise (Exception "TypeError"
                  "__init__() missing required positional argument: 'datastore_id'"),
         w)) /\
  (forall healthimaging w,
      main_with_client rt fuel healthimaging w
      = (Raise (Exception "AttributeError"
                  "'AWSHealthImaging' object has no attribute 'list_datastores'"),
         logged w [Printed [Lit nl; Lit "Listing existing datastores..."]])) /\
  (forall healthimaging datastore_id w,
      fst (main_search rt fuel healthimaging datastore_id w)
      = Raise (Exception "AttributeError"
                 "'AWSHealthImaging' object has no attribute 'search_image_sets'")) /\
  List.map fst (methods rt)
  = ["create_datastore"; "import_dicom_from_s3"; "get_import_job_status";
     "wait_for_import_completion"; "search_studies";
     "get_image_set_metadata"; "get_image_frame"; "delete_image_set";
     "delete_datastore"].
Proof.
  split; [apply main_run|].
  split; [apply construct_without_datastore_id|].
  split; [apply main_with_client_run|].
  split; [|reflexivity].
  intros healthimaging datastore_id w. now rewrite main_search_run.
Qed.

End MainProofs.

Module GuardTheorems.
Import DicomOrganizer HealthImaging OrganizerSpec ImagingSpec Examples.
Import GuardProofs.

(** C4, refuted as stated.  A listing that the store refuses is not
    guarded: [_list_dicom_files] and [get_organized_structure] end in the
    exception of the store, and nothing is printed. *)
Lemma listing_failure_propagates :
  _list_dicom_files unlisted organizer w0
  = (Raise denied, World 0 0 [S3_paginate "raw" "uploads/"]) /\
  get_organized_structure unlisted organizer w0
  = (Raise denied, World 0 0 [S3_paginate "sorted" "organized"]).
Proof. split; reflexivity. Qed.

(** C4, amended.  Every operation of the imaging client guards the
    request it sends: when the request fails the failure is printed and
    the operation returns [None] ([create_datastore],
    [import_dicom_from_s3], [get_import_job_status],
    [get_image_set_metadata], [get_image_frame]), the empty list
    ([search_studies]) or [False] ([delete_image_set],
    [delete_datastore]).  In the organizer a file that cannot be read is
    reported and skipped, a marker that cannot be read counts as absent
    without a report, and a listing that fails is not guarded: its
    exception reaches the caller. *)
Theorem client_failures_return_sentinels svc self store organizer w e :
  (forall name,
      fails svc w "create_datastore" [("datastoreName", name)] e ->
      create_datastore svc self name w
      = (Ok PNone,
         reported svc w "create_datastore" [("datastoreName", name)]
                  "Error creating datastore: " e)) /\
  (forall input output role,
      fails svc w "start_dicom_import_job"
            [("datastoreId", datastore_id self); ("inputS3Uri", input);
             ("outputS3Uri", output); ("dataAccessRoleArn", role)] e ->
      import_dicom_from_s3 svc self input output role w
      = (Ok PNone,
         reported svc w "start_dicom_import_job"
                  [("datastoreId", datastore_id self);
                   ("inputS3Uri", input); ("outputS3Uri", output);
                   ("dataAccessRoleArn", role)]
                  "Error starting import job: " e)) /\
  (forall job_id,
      fails svc w "get_dicom_import_job" (status_query self job_id) e ->
      get_import_job_status svc self job_id w
      = (Ok PNone,
         reported svc w "get_dicom_import_job" (status_query self job_id)
                  "Error getting job status: " e)) /\
  (forall filters max_results,
      fails svc w "search_image_sets"
            (search_params self filters max_results) e ->
      search_studies svc self filters max_results w
      = (Ok (PList []),
         reported svc w "search_image_sets"
                  (search_params self filters max_results)
                  "Error searching image sets: " e)) /\
  (forall image_set_id version_id,
      fails svc w "get_image_set_metadata"
            (metadata_params self image_set_id version_id) e ->
      get_image_set_metadata svc self image_set_id version_id w
      = (Ok PNone,
         reported svc w "get_image_set_metadata"
                  (metadata_params self image_set_id version_id)
                  "Error getting image set metadata: " e)) /\
  (forall image_set_id image_frame_id,
      fails svc w "get_image_frame"
            [("datastoreId", datastore_id self);
             ("imageSetId", image_set_id);
             ("imageFrameInformation",
              PDict [("imageFrameId", image_frame_id)])] e ->
      get_image_frame svc self image_set_id image_frame_id w
      = (Ok PNone,
         reported svc w "get_image_frame"
                  [("datastoreId", datastore_id self);
                   ("imageSetId", image_set_id);
                   ("imageFrameInformation",
                    PDict [("imageFrameId", image_frame_id)])]
                  "Error getting image frame: " e)) /\
  (forall image_set_id,
      fails svc w "delete_image_set"
            [("datastoreId", datastore_id self);
             ("imageSetId", image_set_id)] e ->
      delete_image_set svc self image_set_id w
      = (Ok (PBool false),
         reported svc w "delete_image_set"
                  [("datastoreId", datastore_id self);
                   ("imageSetId", image_set_id)]
                  "Error deleting image set: " e)) /\
  (forall id,
      fails svc w "delete_datastore"
            [("datastoreId", py_or id (datastore_id self))] e ->
      delete_datastore svc self id w
      = (Ok (PBool false),
         logged (reported svc w "delete_datastore"
                          [("datastoreId", py_or id (datastore_id self))]
                          "Error deleting datastore: " e)
                [Printed [Lit "Note: Datastore must be empty before deletion"]])) /\
  (forall key,
      object_body store (source_bucket organizer) key = Failure e ->
      organize_file store organizer key w
      = (Ok tt,
         logged w [S3_get_object (source_bucket organizer) key None;
                   Printed [Lit "Error processing "; Fmt (PStr key);
                          Lit ": "; FmtExn e]])) /\
  (forall key,
      object_body store (source_bucket organizer) key = Failure e ->
      _is_dicom_file store organizer key w
      = (Ok false,
         logged w [S3_get_object (source_bucket organizer) key
                                 (Some (128, 131)%nat)])) /\
  (forall pages rest,
      paginate store (source_bucket organizer) (source_prefix organizer)
      = (List.map Success pages ++ Failure e :: rest)%list ->
      fst (_list_dicom_files store organizer w) = Raise e /\
      fst (organize_by_patient_study_series store organizer w) = Raise e) /\
  (forall pages rest,
      paginate store (target_bucket organizer) (target_prefix organizer)
      = (List.map Success pages ++ Failure e :: rest)%list ->
      fst (get_organized_structure store organizer w) = Raise e).
Proof.
  split; [intros; now apply create_datastore_failure|].
  split; [intros; now apply import_dicom_from_s3_failure|].
  split; [intros; now apply get_import_job_status_failure|].
  split; [intros; now apply search_studies_failure|].
  split; [intros; now apply get_image_set_metadata_failure|].
  split; [intros; now apply get_image_frame_failure|].
  split; [intros; now apply delete_image_set_failure|].
  split; [intros; now apply delete_datastore_failure|].
  split; [intros; now apply organize_file_failure|].
  split; [intros key H; exact (_is_dicom_file_failure _ _ _ _ key H)|].
  split.
  - intros pages rest H. split.
    + exact (_list_dicom_files_failure _ _ _ _ pages rest H).
    + exact (organize_failure _ _ _ _ pages rest H).
  - intros pages rest H.
    exact (get_organized_structure_failure _ _ _ _ pages rest H).
Qed.

Lemma client_failures_return_sentinels_witness :
  fst (create_datastore down imaging_client (PStr "store") w0) = Ok PNone /\
  fst (search_studies down imaging_client PNone (PInt 50) w0)
  = Ok (PList []) /\
  fst (delete_datastore down imaging_client PNone w0) = Ok (PBool false) /\
  fst (_list_dicom_files unlisted organizer w0) = Raise denied.
Proof.
  destruct (client_failures_return_sentinels
              down imaging_client unlisted organizer w0
              (Exception "ClientError" "Throttled"))
    as (Hcreate & _ & _ & Hsearch & _ & _ & _ & Hdelete & _).
  destruct (client_failures_return_sentinels
              down imaging_client unlisted organizer w0 denied)
    as (_ & _ & _ & _ & _ & _ & _ & _ & _ & _ & Hlist & _).
  split; [rewrite (Hcreate (PStr "store") eq_refl); reflexivity|].
  split; [rewrite (Hsearch PNone (PInt 50) eq_refl); reflexivity|].
  split; [rewrite (Hdelete PNone eq_refl); reflexivity|].
  exact (proj1 (Hlist [] [] eq_refl)).
Defined.

End GuardTheorems.

Module Witnesses.
Import DicomOrganizer HealthImaging OrganizerSpec ImagingSpec Examples.
Import OrganizerProofs OrganizerRuns KeyProofs ClassifyProofs PollingTheorems.


Lemma listing_classifies_dicom_witness :
  exists accept : string -> bool,
    (forall key, accept key = true <-> is_dicom store organizer key) /\
    fst (_list_dicom_files store organizer w0)
    = Ok (List.filter accept
            ["uploads/a.dcm"; "uploads/scan"; "uploads/notes.txt"]).
Proof.
  destruct (listing_classifies_dicom store organizer
              [Some ["uploads/a.dcm"; "uploads/scan"]; None;
               Some ["uploads/notes.txt"]] w0 eq_refl)
    as (accept & Haccept & Hrun & _).
  exists accept. split; [exact Haccept|]. rewrite Hrun. reflexivity.
Defined.

Lemma structure_groups_series_witness :
  exists structure,
    fst (get_organized_structure store organizer w0) = Ok structure /\
    unique_keys structure /\
    (under structure "P1" "S1" "T2" <->
     exists key,
       key ∈ ["organized/P1/S1/T1/i1.dcm"; "organized/P1/S1/T1/i2.dcm";
              "organized/P1/S1/T2/i3.dcm"; "short/key"] /\
       placed key "P1" "S1" "T2").
Proof.
  destruct (structure_groups_series store organizer
              [Some ["organized/P1/S1/T1/i1.dcm";
                     "organized/P1/S1/T1/i2.dcm";
                     "organized/P1/S1/T2/i3.dcm"; "short/key"]] w0 eq_refl)
    as (structure & Hrun & Hunique & _ & Hunder).
  exists structure. rewrite Hrun.
  split; [reflexivity|]. split; [exact Hunique|]. apply Hunder.
Defined.

Lemma slash_breaks_grouping_witness :
  exists patient study series w',
    get_organized_structure slash_store organizer w0
    = (Ok [(patient, [(study, [series])])], w') /\
    (patient, study, series)
    <> (_sanitize (ds_get slash_header "PatientID" "Unknown_Patient"),
        _sanitize (ds_get slash_header "StudyInstanceUID" "Unknown_Study"),
        _sanitize (ds_get slash_header "SeriesInstanceUID" "Unknown_Series")).
Proof.
  exact (proj2 (proj2 (proj2 (proj2
           (slash_breaks_grouping slash_store organizer w0 eq_refl))))).
Defined.

(** Three jobs: one that completes, one that fails, one that stays in
    progress beyond the maximum wait. *)
Lemma polling_verdict_witness :
  observed (scripted [status_reply "IN_PROGRESS"; status_reply "COMPLETED"])
           imaging_client (PStr "job-1") 1
  = Some (PStr "COMPLETED") /\
  fst (wait_for_import_completion
         (scripted [status_reply "IN_PROGRESS"; status_reply "FAILED"])
         5 imaging_client (PStr "job-1") 30 3600 w0)
  = Ok false /\
  fst (wait_for_import_completion
         (scripted [status_reply "IN_PROGRESS"; status_reply "IN_PROGRESS"])
         5 imaging_client (PStr "job-1") 30 60 w0)
  = Ok false.
Proof.
  split; [|split].
  - set (svc := scripted [status_reply "IN_PROGRESS"; status_reply "COMPLETED"]).
    set (run := wait_for_import_completion svc 5 imaging_client
                  (PStr "job-1") 30 3600 w0).
    destruct (polling_verdict svc imaging_client (PStr "job-1") 5 30 3600 w0
                (fst run) (snd run) eq_refl) as (Htrue & _).
    exact (proj1 (proj2 (Htrue eq_refl))).
  - set (svc := scripted [status_reply "IN_PROGRESS"; status_reply "FAILED"]).
    set (run := wait_for_import_completion svc 5 imaging_client
                  (PStr "job-1") 30 3600 w0).
    destruct (polling_verdict svc imaging_client (PStr "job-1") 5 30 3600 w0
                (fst run) (snd run) eq_refl)
      as (_ & Hfailed & _).
    apply Hfailed. exists 1%nat, (PStr "FAILED").
    split; [vm_compute; lia|]. split; reflexivity.
  - set (svc := scripted [status_reply "IN_PROGRESS"; status_reply "IN_PROGRESS"]).
    set (run := wait_for_import_completion svc 5 imaging_client
                  (PStr "job-1") 30 60 w0).
    destruct (polling_verdict svc imaging_client (PStr "job-1") 5 30 60 w0
                (fst run) (snd run) eq_refl)
      as (_ & _ & Htimeout).
    apply Htimeout; [lia | vm_compute; lia|].
    intros i Hi. exists (PStr "IN_PROGRESS").
    assert (Hcases : i = 0%nat \/ i = 1%nat) by (vm_compute in Hi; lia).
    destruct Hcases as [-> | ->]; split; reflexivity.
Defined.

Lemma polling_terminates_witness :
  exists b w',
    wait_for_import_completion
      (scripted [status_reply "IN_PROGRESS"; status_reply "COMPLETED"])
      200 imaging_client (PStr "job-1") 30 3600 w0
    = (Ok b, w').
Proof.
  destruct (polling_terminates
              (scripted [status_reply "IN_PROGRESS"; status_reply "COMPLETED"])
              imaging_client (PStr "job-1") 200 30 3600 w0)
    as (b & w' & k & es & Hrun & _); [lia | vm_compute; lia|].
  now exists b, w'.
Defined.

Lemma failed_query_ends_polling_witness :
  fst (wait_for_import_completion (scripted [status_reply "IN_PROGRESS"])
         5 imaging_client (PStr "job-1") 30 3600 w0)
  = Ok false.
Proof.
  set (svc := scripted [status_reply "IN_PROGRESS"]).
  set (run := wait_for_import_completion svc 5 imaging_client
                (PStr "job-1") 30 3600 w0).
  refine (proj1 (failed_query_ends_polling svc imaging_client (PStr "job-1")
                   5 30 3600 w0 (fst run) (snd run) 1
                   eq_refl _ eq_refl)).
  vm_compute. lia.
Defined.

End Witnesses.

Module SanitizeExtras.
Import DicomOrganizer OrganizerSpec ExtraSpec.
Import SanitizeProofs KeyProofs ClassifyProofs.

Lemma replace_listed_unlisted c : Str.mem (replace_listed c) invalid_chars = false.
Proof.
  unfold replace_listed.
  destruct (Str.mem c invalid_chars) eqn:E; [reflexivity | exact E].
Qed.

Lemma replace_listed_fixed c :
  Str.mem c invalid_chars = false -> replace_listed c = c.
Proof. intros H. unfold replace_listed. now rewrite H. Qed.

Lemma replace_listed_moved c :
  Str.mem c invalid_chars = true -> replace_listed c <> c.
Proof.
  intros H Heq. pose proof (replace_listed_unlisted c) as Hn.
  rewrite Heq in Hn. congruence.
Qed.

Lemma any_listed_map text : any_listed (Str.map replace_listed text) = false.
Proof.
  induction text as [|c text IH]; [reflexivity|].
  cbn [Str.map any_listed]. now rewrite replace_listed_unlisted, IH.
Qed.

Lemma length_map f text : String.length (Str.map f text) = String.length text.
Proof. induction text as [|c text IH]; cbn; [reflexivity | now rewrite IH]. Qed.

(** X1. What [_sanitize] returns holds none of the eight characters it
    replaces, and is as long as the text it was given. *)
Theorem sanitize_output_clean text :
  any_listed (_sanitize text) = false /\
  String.length (_sanitize text) = String.length text.
Proof.
  rewrite _sanitize_map. split; [apply any_listed_map | apply length_map].
Qed.

Lemma map_fixed text :
  any_listed text = false -> Str.map replace_listed text = text.
Proof.
  induction text as [|c text IH]; [reflexivity|].
  cbn [any_listed Str.map]. intros H. apply orb_false_iff in H as [Hc Ht].
  now rewrite (replace_listed_fixed c Hc), (IH Ht).
Qed.

Lemma map_moved text :
  any_listed text = true -> Str.map replace_listed text <> text.
Proof.
  induction text as [|c text IH]; [discriminate|].
  cbn [any_listed Str.map]. intros H [= Hc Ht].
  destruct (Str.mem c invalid_chars) eqn:E.
  - now apply (replace_listed_moved c E).
  - cbn in H. now apply IH.
Qed.

(** X2. [_sanitize] is idempotent, and it leaves a text unchanged exactly
    when the text holds none of the eight characters. *)
Theorem sanitize_idempotent text :
  _sanitize (_sanitize text) = _sanitize text /\
  String.eqb (_sanitize text) text = negb (any_listed text).
Proof.
  split.
  - rewrite !_sanitize_map. apply map_fixed, any_listed_map.
  - rewrite _sanitize_map. destruct (any_listed text) eqn:E; cbn [negb].
    + apply String.eqb_neq. now apply map_moved.
    + apply String.eqb_eq. now apply map_fixed.
Qed.

End SanitizeExtras.

Module KeyExtras.
Import DicomOrganizer OrganizerSpec ExtraSpec Examples.
Import SanitizeProofs KeyProofs ClassifyProofs SanitizeExtras.

(** *** Headers that share a key *)

Lemma ds_get_fmap_sanitize (ds : dataset) keyword placeholder :
  _sanitize placeholder = placeholder ->
  _sanitize (ds_get (_sanitize <$> ds) keyword placeholder)
  = _sanitize (ds_get ds keyword placeholder).
Proof.
  intros Hp. unfold ds_get. rewrite lookup_fmap.
  destruct (ds !! keyword) as [v|]; cbn; [|reflexivity].
  rewrite !_sanitize_map. apply map_fixed, any_listed_map.
Qed.

Lemma new_key_sanitized self (ds : dataset) :
  new_key self (_sanitize <$> ds) = new_key self ds.
Proof.
  unfold new_key. now rewrite !ds_get_fmap_sanitize by reflexivity.
Qed.

Lemma with_placeholders_lookup (ds : dataset) :
  with_placeholders ds !! "PatientID"
  = Some (ds_get ds "PatientID" "Unknown_Patient") /\
  with_placeholders ds !! "StudyInstanceUID"
  = Some (ds_get ds "StudyInstanceUID" "Unknown_Study") /\
  with_placeholders ds !! "SeriesInstanceUID"
  = Some (ds_get ds "SeriesInstanceUID" "Unknown_Series") /\
  with_placeholders ds !! "SOPInstanceUID"
  = Some (ds_get ds "SOPInstanceUID" "Unknown_Instance").
Proof.
  unfold with_placeholders.
  repeat split;
    repeat (first [ rewrite lookup_insert_eq; reflexivity
                  | rewrite lookup_insert_ne by discriminate ]).
Qed.

Lemma new_key_with_placeholders self (ds : dataset) :
  new_key self (with_placeholders ds) = new_key self ds.
Proof.
  destruct (with_placeholders_lookup ds) as (Hp & Hst & Hse & Hi).
  unfold new_key.
  unfold ds_get at 1. rewrite Hp.
  unfold ds_get at 2. rewrite Hst.
  unfold ds_get at 3. rewrite Hse.
  unfold ds_get at 4. rewrite Hi.
  reflexivity.
Qed.

(** X3. The destination key does not tell a header from its sanitized
    form, nor an absent identifier from one equal to its placeholder: the
    keys are equal, so two files with different patient identifiers can be
    copied to the same key. *)
Theorem destination_key_collisions self (ds : dataset) :
  new_key self (_sanitize <$> ds) = new_key self ds /\
  new_key self (with_placeholders ds) = new_key self ds /\
  exists ds1 ds2 : dataset,
    ds1 !! "PatientID" <> ds2 !! "PatientID" /\
    new_key self ds1 = new_key self ds2.
Proof.
  split; [apply new_key_sanitized|].
  split; [apply new_key_with_placeholders|].
  exists header, (_sanitize <$> header). split.
  - rewrite lookup_fmap. vm_compute. discriminate.
  - symmetry. apply new_key_sanitized.
Qed.

(** *** Keys end in the suffix of a DICOM file *)

Lemma is_tail_refl suffix : is_tail suffix suffix = true.
Proof. destruct suffix; cbn [is_tail]; now rewrite String.eqb_refl. Qed.

Lemma is_tail_app suffix a t :
  is_tail suffix t = true -> is_tail suffix (a ++ t) = true.
Proof.
  intros H. induction a as [|c a IH]; [exact H|].
  change (String c a ++ t) with (String c (a ++ t)).
  cbn [is_tail]. rewrite IH. apply orb_true_r.
Qed.

Lemma new_key_suffix self ds :
  Str.endswith_any (new_key self ds) dicom_suffixes = true.
Proof.
  unfold Str.endswith_any, dicom_suffixes. cbn [existsb].
  rewrite endswith_is_tail.
  replace (is_tail ".dcm" (new_key self ds)) with true; [reflexivity|].
  symmetry. unfold new_key.
  repeat apply is_tail_app. apply is_tail_refl.
Qed.

(** X4. Every destination key ends in [.dcm]; listed again, it is taken
    for a DICOM file on its extension alone, without a read of the
    object. *)
Theorem organized_key_is_listed svc lister self ds files w :
  Str.endswith (new_key self ds) ".dcm" = true /\
  list_object svc lister files (new_key self ds) w
  = (Ok (files ++ [new_key self ds])%list, w).
Proof.
  split.
  - rewrite endswith_is_tail. unfold new_key.
    repeat apply is_tail_app. apply is_tail_refl.
  - rewrite list_object_run. unfold classify, probes. cbn [flat_map List.filter].
    rewrite new_key_suffix. cbn [orb app]. now rewrite logged_nil.
Qed.

End KeyExtras.

Module RoundTrip.
Import DicomOrganizer OrganizerSpec ExtraSpec Examples.
Import SanitizeProofs KeyProofs ClassifyProofs SanitizeExtras KeyExtras.

Lemma split_no_sep sep s : Str.mem sep s = false -> Str.split sep s = [s].
Proof.
  induction s as [|c s IH]; [reflexivity|].
  cbn [Str.mem Str.split]. intros H. apply orb_false_iff in H as [Hc Hs].
  now rewrite Hc, (IH Hs).
Qed.

Lemma mem_app c a b : Str.mem c (a ++ b) = Str.mem c a || Str.mem c b.
Proof.
  induction a as [|c' a IH]; [reflexivity|].
  change (String c' a ++ b) with (String c' (a ++ b)).
  cbn [Str.mem]. now rewrite IH, orb_assoc.
Qed.

Lemma mem_slash_map s :
  Str.mem "/"%char (Str.map replace_listed s) = Str.mem "/"%char s.
Proof.
  induction s as [|c s IH]; [reflexivity|].
  cbn [Str.map Str.mem]. rewrite IH. f_equal.
  unfold replace_listed. destruct (Str.mem c invalid_chars) eqn:E;
    [|reflexivity].
  destruct (Ascii.eqb_spec c "/") as [->|Hne]; [discriminate E | reflexivity].
Qed.

Lemma mem_slash_sanitize s :
  Str.mem "/"%char (_sanitize s) = Str.mem "/"%char s.
Proof. rewrite _sanitize_map. apply mem_slash_map. Qed.

(** The components of a destination key whose identifiers hold no slash. *)
Lemma split_new_key self ds :
  Forall (fun v => Str.mem "/"%char v = false) (identifiers ds) ->
  Str.split "/" (new_key self ds)
  = (Str.split "/" (target_prefix self)
       ++ [_sanitize (ds_get ds "PatientID" "Unknown_Patient");
           _sanitize (ds_get ds "StudyInstanceUID" "Unknown_Study");
           _sanitize (ds_get ds "SeriesInstanceUID" "Unknown_Series");
           (_sanitize (ds_get ds "SOPInstanceUID" "Unknown_Instance")
              ++ ".dcm")%string])%list.
Proof.
  unfold identifiers. intros H.
  apply Forall_cons in H as [Hp H]. apply Forall_cons in H as [Hst H].
  apply Forall_cons in H as [Hse H]. apply Forall_cons in H as [Hi _].
  unfold new_key.
  set (p := _sanitize (ds_get ds "PatientID" "Unknown_Patient")).
  set (st := _sanitize (ds_get ds "StudyInstanceUID" "Unknown_Study")).
  set (se := _sanitize (ds_get ds "SeriesInstanceUID" "Unknown_Series")).
  set (i := _sanitize (ds_get ds "SOPInstanceUID" "Unknown_Instance")).
  change (target_prefix self ++ "/" ++ p ++ "/" ++ st ++ "/" ++ se ++ "/"
            ++ i ++ ".dcm")
    with (target_prefix self
            ++ String "/" (p ++ String "/" (st ++ String "/"
                             (se ++ String "/" (i ++ ".dcm"))))).
  rewrite !split_app_sep.
  rewrite (split_no_sep "/" p) by (subst p; now rewrite mem_slash_sanitize).
  rewrite (split_no_sep "/" st) by (subst st; now rewrite mem_slash_sanitize).
  rewrite (split_no_sep "/" se) by (subst se; now rewrite mem_slash_sanitize).
  rewrite (split_no_sep "/" (i ++ ".dcm"))
    by (subst i; now rewrite mem_app, mem_slash_sanitize, Hi).
  reflexivity.
Qed.

Lemma add_key_placed key patient study series :
  placed key patient study series ->
  add_key [] key = [(patient, [(study, [series])])].
Proof.
  unfold placed, add_key. cbv zeta. intros (Hlen & <- & <- & <-).
  rewrite (proj2 (Nat.leb_le _ _) Hlen).
  generalize (from_end (Str.split "/" key) 4) as p.
  generalize (from_end (Str.split "/" key) 3) as st.
  generalize (from_end (Str.split "/" key) 2) as se.
  intros se st p.
  repeat (first [ rewrite String.eqb_refl
                | progress cbn [assoc dict_set from_option id] ]).
  rewrite bool_decide_false by apply not_elem_of_nil.
  reflexivity.
Qed.

(** X5. When none of the four identifiers of a header holds a slash, the
    destination key is filed by [get_organized_structure] under exactly the
    sanitized patient, study and series it was built from, whatever the
    target prefix. *)
Theorem organized_key_round_trip self ds :
  Forall (fun v => Str.mem "/"%char v = false) (identifiers ds) ->
  placed (new_key self ds)
         (_sanitize (ds_get ds "PatientID" "Unknown_Patient"))
         (_sanitize (ds_get ds "StudyInstanceUID" "Unknown_Study"))
         (_sanitize (ds_get ds "SeriesInstanceUID" "Unknown_Series")) /\
  add_key [] (new_key self ds)
  = [(_sanitize (ds_get ds "PatientID" "Unknown_Patient"),
      [(_sanitize (ds_get ds "StudyInstanceUID" "Unknown_Study"),
        [_sanitize (ds_get ds "SeriesInstanceUID" "Unknown_Series")])])].
Proof.
  intros H.
  assert (Hplaced :
    placed (new_key self ds)
           (_sanitize (ds_get ds "PatientID" "Unknown_Patient"))
           (_sanitize (ds_get ds "StudyInstanceUID" "Unknown_Study"))
           (_sanitize (ds_get ds "SeriesInstanceUID" "Unknown_Series"))).
  { unfold placed. cbv zeta. rewrite (split_new_key self ds H).
    rewrite length_app. cbn [length]. split; [lia|].
    rewrite !from_end_app by (cbn; lia). repeat split. }
  split; [exact Hplaced | now apply add_key_placed].
Qed.

(** X6. A key with at least four components is filed the same way
    whatever prefix is put before it: only its last four components
    count. *)
Theorem structure_ignores_prefix structure prefix key :
  (4 <= length (Str.split "/" key))%nat ->
  add_key structure (prefix ++ "/" ++ key) = add_key structure key.
Proof.
  intros Hlen. unfold add_key.
  change (prefix ++ "/" ++ key) with (prefix ++ String "/" key).
  rewrite split_app_sep, length_app.
  rewrite (proj2 (Nat.leb_le 4 (length (Str.split "/" key))) Hlen).
  rewrite (proj2 (Nat.leb_le 4 _)) by lia.
  cbv zeta. now rewrite !from_end_app by lia.
Qed.

End RoundTrip.

Module StructureExtras.
Import DicomOrganizer OrganizerSpec ExtraSpec Examples.
Import OrganizerProofs.

Lemma dict_set_same {V} k (v : V) d : assoc k d = Some v -> dict_set k v d = d.
Proof.
  induction d as [|[k' v'] d IH]; cbn [assoc dict_set]; [discriminate|].
  destruct (String.eqb_spec k' k) as [->|Hne].
  - now intros [= ->].
  - intros H. now rewrite (IH H).
Qed.

Lemma assoc_keys {V} k (d : dict V) :
  bool_decide (k ∈ List.map fst d) = bool_decide (is_Some (assoc k d)).
Proof.
  apply bool_decide_ext. split.
  - intros Hin. destruct (assoc k d) eqn:E; [eauto|].
    now apply assoc_None_keys in E.
  - intros [v Hv]. apply assoc_Some_elem in Hv.
    apply (list_elem_of_fmap_2 fst _ _ Hv).
Qed.

(** A key whose three names the structure already holds changes nothing. *)
Lemma add_key_present s key studies series_list :
  let parts := Str.split "/" key in
  assoc (from_end parts 4) s = Some studies ->
  assoc (from_end parts 3) studies = Some series_list ->
  from_end parts 2 ∈ series_list ->
  add_key s key = s.
Proof.
  cbv zeta. intros Hp Hst Hse. unfold add_key.
  destruct (4 <=? length (Str.split "/" key))%nat; [|reflexivity].
  cbv zeta.
  repeat first [ rewrite Hp | rewrite Hst
               | progress cbn [from_option id] ].
  rewrite bool_decide_true by exact Hse.
  now rewrite (dict_set_same _ _ _ Hst), (dict_set_same _ _ _ Hp).
Qed.

(** After a key has been added the structure holds its three names. *)
Lemma add_key_lookup s key :
  (4 <= length (Str.split "/" key))%nat ->
  let parts := Str.split "/" key in
  exists studies series_list,
    assoc (from_end parts 4) (add_key s key) = Some studies /\
    assoc (from_end parts 3) studies = Some series_list /\
    from_end parts 2 ∈ series_list.
Proof.
  intros Hlen. cbv zeta. unfold add_key.
  rewrite (proj2 (Nat.leb_le _ _) Hlen). cbv zeta.
  eexists _, _. split; [apply assoc_dict_set_eq|].
  split; [apply assoc_dict_set_eq|].
  case_bool_decide as Hin; [exact Hin|].
  apply elem_of_app. right. apply list_elem_of_singleton. reflexivity.
Qed.

(** X7. Adding a key to the structure a second time changes nothing: a
    listing that repeats a key gives the same structure. *)
Theorem add_key_idempotent s key : add_key (add_key s key) key = add_key s key.
Proof.
  destruct (Nat.leb_spec 4 (length (Str.split "/" key))) as [Hlen|Hlen].
  - destruct (add_key_lookup s key Hlen) as (studies & l & Hp & Hst & Hse).
    exact (add_key_present _ key studies l Hp Hst Hse).
  - now rewrite !add_key_short by lia.
Qed.

(** *** The order of the patients *)

Lemma keys_add_key s key :
  List.map fst (add_key s key)
  = fold_left
      (fun seen x =>
         if bool_decide (x ∈ seen) then seen else (seen ++ [x])%list)
      (patients_of [key]) (List.map fst s).
Proof.
  unfold patients_of, add_key. cbn [flat_map]. rewrite app_nil_r.
  destruct (4 <=? length (Str.split "/" key))%nat; [|reflexivity].
  cbv zeta. cbn [fold_left].
  set (p := from_end (Str.split "/" key) 4).
  rewrite keys_dict_set, assoc_keys.
  destruct (assoc p s) as [studies|] eqn:E.
  - rewrite E. rewrite bool_decide_true by eauto. reflexivity.
  - rewrite assoc_dict_set_eq.
    rewrite bool_decide_false by (intros [? ?]; discriminate).
    rewrite keys_dict_set, E. reflexivity.
Qed.

Lemma patients_of_cons key keys :
  patients_of (key :: keys) = (patients_of [key] ++ patients_of keys)%list.
Proof. unfold patients_of. cbn [flat_map]. now rewrite app_nil_r. Qed.

Lemma keys_fold_add_key keys :
  forall s,
    List.map fst (fold_left add_key keys s)
    = fold_left
        (fun seen x =>
           if bool_decide (x ∈ seen) then seen else (seen ++ [x])%list)
        (patients_of keys) (List.map fst s).
Proof.
  induction keys as [|key keys IH]; intros s; [reflexivity|].
  cbn [fold_left]. rewrite IH, keys_add_key, (patients_of_cons key keys).
  now rewrite fold_left_app.
Qed.

(** X8. The patients of the structure are the patient components of the
    listed keys with at least four components, each once, in the order in
    which the listing first shows them. *)
Theorem patients_in_listing_order svc self pages w :
  paginate svc (target_bucket self) (target_prefix self)
  = List.map Success pages ->
  exists structure w',
    get_organized_structure svc self w = (Ok structure, w') /\
    List.map fst structure = first_seen (patients_of (listed pages)).
Proof.
  intros Hpages.
  exists (fold_left add_key (listed pages) []).
  exists (logged w [S3_paginate (target_bucket self) (target_prefix self)]).
  split; [now apply get_organized_structure_run|].
  apply keys_fold_add_key.
Qed.

End StructureExtras.

Module OrganizeExtras.
Import DicomOrganizer OrganizerSpec ExtraSpec Examples.
Import OrganizerProofs OrganizerRuns ClassifyProofs.

(** X9. An object shorter than 132 bytes is never taken for a DICOM file
    on its marker: whether the ranged read is refused (the object ends
    before offset 128) or comes back short, [_is_dicom_file] returns
    [False] and raises nothing. *)
Theorem short_object_has_no_marker svc self key body w :
  object_body svc (source_bucket self) key = Success body ->
  (length body < 132)%nat ->
  _is_dicom_file svc self key w
  = (Ok false,
     logged w [S3_get_object (source_bucket self) key
                             (Some (128, 131)%nat)]).
Proof.
  intros Hbody Hlen. rewrite _is_dicom_file_run. do 2 f_equal.
  unfold marker_read, byte_range. rewrite Hbody.
  destruct (length body <=? 128)%nat; [reflexivity|].
  apply bool_decide_false. intros Heq.
  apply (f_equal length) in Heq.
  rewrite length_take, length_drop in Heq.
  change (length DICM) with 4%nat in Heq.
  change (S 131 - 128)%nat with 4%nat in Heq. lia.
Qed.

Section Runs.

Context (svc : services) (self : S3DICOMOrganizer).

(** Whatever happens to a file, the loop goes on. *)
Lemma organize_file_events key w :
  organize_file svc self key w
  = (Ok tt, logged w (file_events svc self key)).
Proof.
  unfold organize_file, try_except, file_events.
  rewrite run_bind, _read_dicom_metadata_run.
  destruct (object_body svc (source_bucket self) key) as [body|e].
  2:{ unfold print. now rewrite run_emit, logged_logged. }
  destruct (dcmread svc body true) as [ds|e].
  2:{ unfold print. now rewrite run_emit, logged_logged. }
  erewrite run_bind_ok by apply run_emit. rewrite logged_logged.
  rewrite run_bind.
  destruct (copy_object svc _ _ _) as [[]|e]; cbn [answer ret raise];
    unfold print; rewrite run_emit, logged_logged; reflexivity.
Qed.

Lemma organize_files_events files :
  forall w,
    for_each files (organize_file svc self) w
    = (Ok tt, logged w (flat_map (file_events svc self) files)).
Proof.
  induction files as [|key files IH]; intros w; cbn [for_each flat_map].
  - now rewrite logged_nil.
  - erewrite run_bind_ok by apply organize_file_events.
    now rewrite IH, logged_logged.
Qed.


End Runs.

(** With the listing at hand the run is its log, and it returns. *)
Lemma organize_run svc self pages w :
  paginate svc (source_bucket self) (source_prefix self)
  = List.map Success pages ->
  organize_by_patient_study_series svc self w
  = (Ok tt, logged w (organize_log svc self pages)).
Proof.
  intros Hpages.
  unfold organize_by_patient_study_series, _list_dicom_files, organize_log.
  erewrite run_bind_ok.
  2:{ erewrite run_bind_ok by apply run_emit.
      rewrite Hpages. apply list_pages_run. }
  cbn [app]. unfold print.
  erewrite run_bind_ok by apply run_emit.
  erewrite run_bind_ok by apply organize_files_events.
  rewrite run_emit, !logged_logged. cbn [app].
  rewrite <- ?app_assoc. reflexivity.
Qed.


End OrganizeExtras.

Module ClientExtras.
Import HealthImaging ImagingSpec ExtraSpec Examples.
Import LogProofs PollingProofs.

(** *** What the operations do after the request *)

Lemma emits_getitem d k : emits any_event (getitem d k).
Proof.
  destruct d; try apply emits_raise. cbn [getitem].
  destruct (assoc k d); [apply emits_ret | apply emits_raise].
Qed.

Lemma emits_dict_get d k default : emits any_event (dict_get d k default).
Proof. destruct d; try apply emits_raise. apply emits_ret. Qed.

Lemma emits_contains d k : emits any_event (contains d k).
Proof. destruct d; try apply emits_raise; apply emits_ret. Qed.

Lemma emits_len v : emits any_event (len v).
Proof. destruct v; try apply emits_raise; apply emits_ret. Qed.

Lemma emits_iter v : emits any_event (iter v).
Proof. destruct v; try apply emits_raise; apply emits_ret. Qed.

Lemma emits_read v : emits any_event (read v).
Proof. destruct v; try apply emits_raise; apply emits_ret. Qed.

Lemma emits_print line : emits any_event (print line).
Proof. now apply emits_emit. Qed.

Ltac emits_steps :=
  repeat first
    [ apply emits_ret | apply emits_raise | apply emits_print
    | apply emits_getitem | apply emits_dict_get | apply emits_contains
    | apply emits_len | apply emits_iter | apply emits_read
    | apply emits_answer | (apply emits_emit; exact I)
    | (apply emits_bind; [|intros ?]) ].

Lemma emits_print_image_set img_set : emits any_event (print_image_set img_set).
Proof.
  unfold print_image_set. emits_steps.
  match goal with |- emits _ (if ?b then _ else _) => destruct b end;
    emits_steps.
Qed.

Lemma emits_print_series series : emits any_event (print_series series).
Proof. unfold print_series. emits_steps. Qed.

Lemma emits_print_study study : emits any_event (print_study study).
Proof.
  unfold print_study. emits_steps.
  apply emits_for_each. apply emits_print_series.
Qed.

(** A guarded request: whatever the service answers and whatever becomes
    of the answer, the operation returns, either the sentinel of its
    handler or what the processing of the answer returned. *)
Lemma guarded_request {A} svc op kwargs (rest : pyval -> M A)
      (handler : exn -> M A) (sentinel : A) w :
  (forall resp, emits any_event (rest resp)) ->
  (forall e w1, exists es, handler e w1 = (Ok sentinel, logged w1 es)) ->
  exists v es,
    try_except (resp <- client_call svc op kwargs ;; rest resp) handler w
    = (Ok v, logged (after_request svc w (HI_call op kwargs)) es) /\
    (v = sentinel \/
     exists resp w2,
       respond svc (requests w) op kwargs = Success resp /\
       rest resp (after_request svc w (HI_call op kwargs)) = (Ok v, w2)).
Proof.
  intros Hrest Hhandler. unfold try_except.
  rewrite run_bind, client_call_run.
  set (w1 := after_request svc w (HI_call op kwargs)).
  destruct (respond svc (requests w) op kwargs) as [resp|e].
  - destruct (Hrest resp w1) as (Hfuel & es & Hw & _).
    destruct (rest resp w1) as [[v|e|] w2] eqn:Hrun; cbn in Hw, Hfuel.
    + subst w2. exists v, es. split; [reflexivity|]. right. eauto.
    + subst w2. destruct (Hhandler e (logged w1 es)) as (es' & ->).
      exists sentinel, (es ++ es')%list.
      rewrite logged_logged. auto.
    + contradiction.
  - destruct (Hhandler e w1) as (es & ->). exists sentinel, es. auto.
Qed.

Lemma report_returns {A} title (sentinel : A) e w1 :
  exists es,
    (print [Lit title; FmtExn e] ;; ret sentinel) w1
    = (Ok sentinel, logged w1 es).
Proof. now eexists. Qed.

Lemma two_reports_return {A} line1 line2 (sentinel : A) w1 :
  exists es,
    (print line1 ;; print line2 ;; ret sentinel) w1
    = (Ok sentinel, logged w1 es).
Proof.
  exists [Printed line1; Printed line2]. unfold print.
  do 2 (erewrite run_bind_ok by apply run_emit).
  now rewrite logged_logged.
Qed.

(** Apply [guarded_request] to the guarded request of the goal: the run
    and what is known of its value are added to the context. *)
Ltac guarded sentinel Hrun Hv :=
  lazymatch goal with
  | |- context [try_except (bind (client_call ?svc ?op ?kw) ?rest) ?h ?w] =>
      let v := fresh "v" in
      let es := fresh "es" in
      destruct (guarded_request svc op kw rest h sentinel w)
        as (v & es & Hrun & Hv);
      [ intros ?; emits_steps
      | intros ? ?;
        first [ apply report_returns | apply two_reports_return ]
      | ]
  end.

Lemma yields_ret {A} (v : A) : yields v (ret v).
Proof. intros w x w' [= <- _]. reflexivity. Qed.

Lemma yields_bind {A B} (v : B) (m : M A) (f : A -> M B) :
  (forall a, yields v (f a)) -> yields v (bind m f).
Proof.
  intros Hf w x w' Hrun. rewrite run_bind in Hrun.
  destruct (m w) as [[a|e|] w1]; try discriminate Hrun.
  exact (Hf a w1 x w' Hrun).
Qed.

Section Operations.

Context (svc : service) (self : AWSHealthImaging).

Lemma create_datastore_one name :
  answers_after_one_request (create_datastore svc self name).
Proof.
  intros w. unfold create_datastore. guarded PNone Hrun Hv.
  rewrite Hrun. now eexists _, _.
Qed.

Lemma import_dicom_from_s3_one input output role :
  answers_after_one_request
    (import_dicom_from_s3 svc self input output role).
Proof.
  intros w. unfold import_dicom_from_s3. guarded PNone Hrun Hv.
  rewrite Hrun. now eexists _, _.
Qed.

Lemma get_import_job_status_one job_id :
  answers_after_one_request (get_import_job_status svc self job_id).
Proof.
  intros w. unfold get_import_job_status. guarded PNone Hrun Hv.
  - match goal with |- emits _ (if ?b then _ else _) => destruct b end;
      emits_steps.
  - rewrite Hrun. now eexists _, _.
Qed.

Lemma search_studies_one filters max_results :
  answers_after_one_request (search_studies svc self filters max_results).
Proof.
  intros w. unfold search_studies. cbv zeta. guarded (PList []) Hrun Hv.
  - apply emits_for_each. apply emits_print_image_set.
  - rewrite Hrun. now eexists _, _.
Qed.

Lemma get_image_set_metadata_one image_set_id version_id :
  answers_after_one_request
    (get_image_set_metadata svc self image_set_id version_id).
Proof.
  intros w. unfold get_image_set_metadata. cbv zeta.
  guarded PNone Hrun Hv.
  - match goal with |- emits _ (if ?b then _ else _) => destruct b end;
      emits_steps.
    apply emits_for_each. apply emits_print_study.
  - rewrite Hrun. now eexists _, _.
Qed.

Lemma get_image_frame_one image_set_id image_frame_id :
  answers_after_one_request
    (get_image_frame svc self image_set_id image_frame_id).
Proof.
  intros w. unfold get_image_frame. guarded PNone Hrun Hv.
  rewrite Hrun. now eexists _, _.
Qed.

Lemma delete_image_set_one image_set_id :
  answers_after_one_request (delete_image_set svc self image_set_id).
Proof.
  intros w. unfold delete_image_set. guarded (PBool false) Hrun Hv.
  rewrite Hrun. now eexists _, _.
Qed.

Lemma delete_datastore_one id :
  answers_after_one_request (delete_datastore svc self id).
Proof.
  intros w. unfold delete_datastore. cbv zeta.
  guarded (PBool false) Hrun Hv.
  rewrite Hrun. now eexists _, _.
Qed.

End Operations.

(** X11. Whatever the service answers, every operation of the imaging
    client returns a value and raises nothing, also when the answer lacks
    a field or has the wrong shape, and it has sent exactly one request
    when it returns. *)
Theorem client_operations_never_raise svc self :
  (forall name, answers_after_one_request (create_datastore svc self name)) /\
  (forall input output role,
      answers_after_one_request
        (import_dicom_from_s3 svc self input output role)) /\
  (forall job_id,
      answers_after_one_request (get_import_job_status svc self job_id)) /\
  (forall filters max_results,
      answers_after_one_request
        (search_studies svc self filters max_results)) /\
  (forall image_set_id version_id,
      answers_after_one_request
        (get_image_set_metadata svc self image_set_id version_id)) /\
  (forall image_set_id image_frame_id,
      answers_after_one_request
        (get_image_frame svc self image_set_id image_frame_id)) /\
  (forall image_set_id,
      answers_after_one_request (delete_image_set svc self image_set_id)) /\
  (forall id, answers_after_one_request (delete_datastore svc self id)).
Proof.
  split; [apply create_datastore_one|].
  split; [apply import_dicom_from_s3_one|].
  split; [apply get_import_job_status_one|].
  split; [apply search_studies_one|].
  split; [apply get_image_set_metadata_one|].
  split; [apply get_image_frame_one|].
  split; [apply delete_image_set_one | apply delete_datastore_one].
Qed.

End ClientExtras.

Module ClientValues.
Import HealthImaging ImagingSpec ExtraSpec Examples.
Import LogProofs PollingProofs ClientExtras.

(** X12. [create_datastore] returns the [datastoreId] of the answer and
    [import_dicom_from_s3] its [jobId]; each returns [None] when the
    request fails or the answer has no such field. *)
Theorem identifiers_come_from_the_answer svc self w :
  (forall name,
      fst (create_datastore svc self name w)
      = Ok (default PNone
              (reply_field
                 (next_reply svc w "create_datastore"
                             [("datastoreName", name)])
                 "datastoreId"))) /\
  (forall input output role,
      fst (import_dicom_from_s3 svc self input output role w)
      = Ok (default PNone
              (reply_field
                 (next_reply svc w "start_dicom_import_job"
                             [("datastoreId", datastore_id self);
                              ("inputS3Uri", input);
                              ("outputS3Uri", output);
                              ("dataAccessRoleArn", role)])
                 "jobId"))).
Proof.
  split.
  - intros name. unfold create_datastore, try_except, next_reply, reply_field.
    rewrite run_bind, client_call_run.
    destruct (respond svc (requests w) _ _) as [[| | | | | |d]|e];
      try reflexivity.
    unfold getitem.
    destruct (assoc "datastoreId" d) as [id|]; reflexivity.
  - intros input output role.
    unfold import_dicom_from_s3, try_except, next_reply, reply_field.
    rewrite run_bind, client_call_run.
    destruct (respond svc (requests w) _ _) as [[| | | | | |d]|e];
      try reflexivity.
    unfold getitem.
    destruct (assoc "jobId" d) as [id|]; reflexivity.
Qed.

(** X13. [delete_image_set] returns [True] exactly when the request is
    answered with a dict that has [imageSetState], and [delete_datastore]
    exactly when it has [datastoreStatus]; an answer without the field
    gives [False] although the request succeeded. *)
Theorem deletions_report_the_answer svc self w :
  (forall image_set_id,
      fst (delete_image_set svc self image_set_id w)
      = Ok (PBool
              (has_field
                 (next_reply svc w "delete_image_set"
                             [("datastoreId", datastore_id self);
                              ("imageSetId", image_set_id)])
                 "imageSetState"))) /\
  (forall id,
      fst (delete_datastore svc self id w)
      = Ok (PBool
              (has_field
                 (next_reply svc w "delete_datastore"
                             [("datastoreId",
                               py_or id (datastore_id self))])
                 "datastoreStatus"))).
Proof.
  split.
  - intros image_set_id.
    unfold delete_image_set, try_except, has_field, next_reply, reply_field.
    rewrite run_bind, client_call_run.
    destruct (respond svc (requests w) _ _) as [[| | | | | |d]|e];
      try reflexivity.
    unfold getitem.
    destruct (assoc "imageSetState" d) as [state|]; reflexivity.
  - intros id.
    unfold delete_datastore, try_except, has_field, next_reply, reply_field.
    cbv zeta. rewrite run_bind, client_call_run.
    destruct (respond svc (requests w) _ _) as [[| | | | | |d]|e];
      try reflexivity.
    unfold getitem.
    destruct (assoc "datastoreStatus" d) as [state|]; reflexivity.
Qed.

(** X14. [get_image_frame] returns the bytes of [imageFrameBlob] in the
    answer, and [None] when the request fails, the field is absent or it
    does not hold bytes. *)
Theorem frame_is_the_blob svc self image_set_id image_frame_id w :
  fst (get_image_frame svc self image_set_id image_frame_id w)
  = Ok match
         reply_field
           (next_reply svc w "get_image_frame"
              [("datastoreId", datastore_id self);
               ("imageSetId", image_set_id);
               ("imageFrameInformation",
                PDict [("imageFrameId", image_frame_id)])])
           "imageFrameBlob"
       with
       | Some (PBytes image_data) => PBytes image_data
       | _ => PNone
       end.
Proof.
  unfold get_image_frame, try_except, next_reply, reply_field.
  rewrite run_bind, client_call_run.
  destruct (respond svc (requests w) _ _) as [[| | | | | |d]|e];
    try reflexivity.
  unfold getitem.
  destruct (assoc "imageFrameBlob" d) as [[| | | |b| |]|]; reflexivity.
Qed.

End ClientValues.

Module SearchProofs.
Import HealthImaging ImagingSpec ExtraSpec Examples.
Import LogProofs PollingProofs ClientExtras.

Lemma print_image_set_returns img_set :
  printable_summary img_set = true ->
  forall w, exists w', print_image_set img_set w = (Ok tt, w').
Proof.
  intros H w. destruct img_set as [| | | | | |d]; try discriminate H.
  cbn [printable_summary] in H.
  unfold print_image_set, getitem, contains.
  destruct (assoc "imageSetId" d) as [id|]; [|discriminate H].
  destruct (assoc "DICOMTags" d) as [[| | | | | |tags]|];
    try discriminate H; now eexists.
Qed.

Lemma print_image_sets_return items :
  forallb printable_summary items = true ->
  forall w, exists w', for_each items print_image_set w = (Ok tt, w').
Proof.
  induction items as [|x items IH]; intros H w; cbn [for_each].
  - now eexists.
  - cbn [forallb] in H. apply andb_true_iff in H as [Hx Hitems].
    destruct (print_image_set_returns x Hx w) as (w1 & Hrun).
    erewrite run_bind_ok by exact Hrun. apply IH, Hitems.
Qed.

(** X15. [search_studies] returns either the empty list or the value the
    answer has under [imageSetsMetadataSummaries]; it returns that list
    unchanged when every summary in it is a dict with an [imageSetId]
    whose tags, if any, are a dict. *)
Theorem search_returns_the_summaries svc self filters max_results w :
  (exists v,
      fst (search_studies svc self filters max_results w) = Ok v /\
      (v = PList [] \/
       reply_field
         (next_reply svc w "search_image_sets"
                     (search_params self filters max_results))
         "imageSetsMetadataSummaries"
       = Some v)) /\
  (forall d items,
      next_reply svc w "search_image_sets"
                 (search_params self filters max_results)
      = Success (PDict d) ->
      assoc "imageSetsMetadataSummaries" d = Some (PList items) ->
      forallb printable_summary items = true ->
      fst (search_studies svc self filters max_results w)
      = Ok (PList items)).
Proof.
  split.
  - unfold search_studies. cbv zeta. guarded (PList []) Hrun Hv.
    { apply emits_for_each. apply emits_print_image_set. }
    rewrite Hrun. exists v. split; [reflexivity|].
    destruct Hv as [->|(resp & w2 & Hresp & Hrest)]; [now left|].
    unfold next_reply, reply_field, search_params. cbv zeta. rewrite Hresp.
    destruct resp as [| | | | | |d]; try discriminate Hrest.
    rewrite run_bind in Hrest. cbn [dict_get ret] in Hrest.
    destruct (assoc "imageSetsMetadataSummaries" d) as [summaries|].
    + right. f_equal. symmetry.
      eapply (yields_bind summaries); [|exact Hrest].
      intros n. repeat (apply yields_bind; intros ?). apply yields_ret.
    + left.
      eapply (yields_bind (PList [])); [|exact Hrest].
      intros n. repeat (apply yields_bind; intros ?). apply yields_ret.
  - intros d items Hreply Hitems Hprintable.
    unfold next_reply, search_params in Hreply. cbv zeta in Hreply.
    unfold search_studies, try_except. cbv zeta.
    rewrite run_bind, client_call_run, Hreply.
    cbn [dict_get]. rewrite Hitems.
    erewrite run_bind_ok by reflexivity.
    erewrite run_bind_ok by reflexivity.
    unfold print. erewrite run_bind_ok by apply run_emit.
    erewrite run_bind_ok by reflexivity.
    match goal with
    | |- context [bind (for_each items print_image_set) ?k ?w1] =>
        destruct (print_image_sets_return items Hprintable w1) as (w2 & Hfor)
    end.
    erewrite run_bind_ok by exact Hfor. reflexivity.
Qed.

(** X16. [get_image_set_metadata] returns either [None] or what the JSON
    parser made of the bytes of [imageSetMetadataBlob] in the answer. *)
Theorem metadata_is_the_parsed_blob svc self image_set_id version_id w :
  exists v,
    fst (get_image_set_metadata svc self image_set_id version_id w) = Ok v /\
    (v = PNone \/
     exists text,
       reply_field
         (next_reply svc w "get_image_set_metadata"
                     (metadata_params self image_set_id version_id))
         "imageSetMetadataBlob"
       = Some (PBytes text) /\
       json_loads svc text = Success v).
Proof.
  unfold get_image_set_metadata. cbv zeta. guarded PNone Hrun Hv.
  { match goal with |- emits _ (if ?b then _ else _) => destruct b end;
      emits_steps.
    apply emits_for_each. apply emits_print_study. }
  rewrite Hrun. exists v. split; [reflexivity|].
  destruct Hv as [->|(resp & w2 & Hresp & Hrest)]; [now left | right].
  unfold next_reply, reply_field, metadata_params. cbv zeta. rewrite Hresp.
  destruct resp as [| | | | | |d]; try discriminate Hrest.
  unfold getitem at 1 in Hrest. rewrite run_bind in Hrest.
  destruct (assoc "imageSetMetadataBlob" d) as [blob|];
    [|discriminate Hrest].
  cbn [ret] in Hrest. rewrite run_bind in Hrest.
  destruct blob as [| | | |text| |]; try discriminate Hrest.
  cbn [read ret] in Hrest.
  erewrite run_bind_ok in Hrest by apply run_emit.
  rewrite run_bind in Hrest.
  destruct (json_loads svc text) as [metadata|e] eqn:Hjson;
    [|discriminate Hrest].
  cbn [answer ret] in Hrest.
  exists text. split; [reflexivity|]. rewrite Hjson. f_equal. symmetry.
  eapply (yields_bind metadata); [|exact Hrest].
  intros ?. repeat (apply yields_bind; intros ?). apply yields_ret.
Qed.

End SearchProofs.

Module PollingExtras.
Import HealthImaging ImagingSpec ExtraSpec Examples.
Import PollingProofs LoopProofs WaitProofs PollingTheorems.

(** X17. [get_import_job_status] sends one request and returns either
    [None] or a dict that has [jobStatus] and is therefore true as a
    condition: its caller can index the status without a [KeyError]. *)
Theorem job_status_is_none_or_has_status svc self job_id w :
  exists v,
    fst (get_import_job_status svc self job_id w) = Ok v /\
    requests (snd (get_import_job_status svc self job_id w))
    = S (requests w) /\
    (v = PNone \/
     exists properties status,
       v = PDict properties /\
       assoc "jobStatus" properties = Some status /\
       truthy v = true).
Proof.
  rewrite get_import_job_status_run.
  destruct (job_properties svc self job_id (requests w)) as [properties|]
    eqn:Hprops.
  - destruct (job_properties_status svc self job_id _ _ Hprops)
      as (status & Hstatus & _).
    exists (PDict properties). split; [reflexivity|]. split; [reflexivity|].
    right. exists properties, status. split; [reflexivity|].
    split; [exact Hstatus | exact (truthy_properties _ _ Hstatus)].
  - exists PNone. split; [reflexivity|]. split; [reflexivity | now left].
Qed.

(** X18. Edge cases of [wait_for_import_completion]: with a check
    interval that is not negative it raises nothing; with a maximum wait
    that is not positive it returns [False] without a single request; and
    with a negative check interval it raises the [ValueError] of
    [time.sleep] after the first status of a job still going on. *)
Theorem polling_edge_cases svc self job_id fuel c m w :
  (0 <= c ->
   forall e,
     fst (wait_for_import_completion svc fuel self job_id c m w)
     <> Raise e) /\
  (m <= 0 ->
   wait_for_import_completion svc (S fuel) self job_id c m w
   = (Ok false, logged w [Printed [Lit "Max wait time exceeded"]])) /\
  (c < 0 -> 0 < m ->
   pending (observed svc self job_id (requests w)) ->
   fst (wait_for_import_completion svc (S fuel) self job_id c m w)
   = Raise (Exception "ValueError" "sleep length must be non-negative") /\
   requests (snd (wait_for_import_completion svc (S fuel) self job_id c m w))
   = S (requests w)).
Proof.
  split; [|split].
  - intros Hc e Hraise.
    destruct (wait_for_import_completion svc fuel self job_id c m w)
      as [r w'] eqn:Hrun.
    cbn in Hraise. subst r.
    rewrite wait_for_import_completion_run in Hrun.
    apply wait_loop_spec in Hrun as (k & es & _ & _ & _ & _ & Hneg & _).
    lia.
  - intros Hm. rewrite wait_for_import_completion_run, wait_loop_step.
    destruct (Z.ltb_spec (now w - now w) m); [lia | reflexivity].
  - intros Hc Hm (status & Hobs & Hterminal).
    rewrite wait_for_import_completion_run, wait_loop_step.
    destruct (Z.ltb_spec (now w - now w) m); [|lia].
    cbv zeta. unfold observed in Hobs.
    destruct (job_properties svc self job_id (requests w)) as [properties|];
      [|discriminate Hobs].
    rewrite Hobs. cbn [default from_option id].
    unfold terminal in Hterminal.
    apply orb_false_iff in Hterminal as [-> ->].
    destruct (Z.ltb_spec c 0); [|lia]. split; reflexivity.
Qed.

End PollingExtras.

Module MainExtras.
Import DicomOrganizer HealthImaging Main OrganizerSpec ImagingSpec.
Import ExtraSpec Examples.
Import LogProofs OrganizerProofs OrganizerRuns GuardProofs MainProofs.
Import OrganizeExtras ClientExtras.

(** *** The first step of [main] *)




Section Driver.

Context (rt : runtime) (fuel : nat).


Lemma main_organize_refused pages listing rest e w :
  paginate (s3 rt) SOURCE_BUCKET SOURCE_PREFIX
  = (List.map Success pages ++ Failure e :: rest)%list \/
  (paginate (s3 rt) SOURCE_BUCKET SOURCE_PREFIX = List.map Success pages /\
   paginate (s3 rt) TARGET_BUCKET TARGET_PREFIX
   = (List.map Success listing ++ Failure e :: rest)%list) ->
  fst (main_organize rt w) = Raise e.
Proof.
  intros H. unfold main_organize. cbv zeta. fold main_organizer.
  erewrite run_bind_ok by apply banner_run.
  rewrite run_bind.
  destruct H as [Hpages | [Hpages Hlisting]].
  - pose proof
      (organize_failure (s3 rt) main_organizer
         (logged w (banner_lines "STEP 1: Organizing DICOM files in S3"))
         e pages rest Hpages) as Hrun.
    unfold banner_lines in Hrun.
    destruct (organize_by_patient_study_series _ _ _) as [r w1].
    cbn in Hrun. now subst r.
  - rewrite (organize_run (s3 rt) main_organizer pages _ Hpages).
    unfold print at 1. erewrite run_bind_ok by apply run_emit.
    rewrite run_bind.
    pose proof
      (get_organized_structure_failure (s3 rt) main_organizer
         (logged
            (logged
               (logged w
                  [Printed [Lit (nl ++ rule)];
                   Printed [Lit "STEP 1: Organizing DICOM files in S3"];
                   Printed [Lit rule]])
               (organize_log (s3 rt) main_organizer pages))
            [Printed [Lit nl; Lit "--- Organized Structure ---"]])
         e listing rest Hlisting) as Hrun.
    destruct (get_organized_structure _ _ _) as [r w1].
    cbn in Hrun. now subst r.
Qed.

End Driver.


(** X20. When the store refuses a page of one of the two listings,
    [main] ends in the exception of the store: the listing of the source
    location in [_list_dicom_files], or, once the files are organized,
    the listing of the target location in [get_organized_structure]. *)
Theorem main_stops_at_a_refused_listing rt fuel pages listing rest e w :
  paginate (s3 rt) SOURCE_BUCKET SOURCE_PREFIX
  = (List.map Success pages ++ Failure e :: rest)%list \/
  (paginate (s3 rt) SOURCE_BUCKET SOURCE_PREFIX = List.map Success pages /\
   paginate (s3 rt) TARGET_BUCKET TARGET_PREFIX
   = (List.map Success listing ++ Failure e :: rest)%list) ->
  fst (main rt fuel w) = Raise e.
Proof.
  intros H. unfold main. rewrite run_bind.
  pose proof (main_organize_refused rt pages listing rest e w H) as Hrun.
  destruct (main_organize rt w) as [r w1]. cbn in Hrun. now subst r.
Qed.

(** *** The step that fetches one frame *)

Lemma emits_getindex v i : emits any_event (getindex v i).
Proof.
  unfold getindex.
  destruct v; try apply emits_raise;
    match goal with
    | |- emits _ (match ?x with _ => _ end) => destruct x
    end;
    first [apply emits_ret | apply emits_raise].
Qed.

Lemma quiet_sends {A} P (m : M A) : emits P m -> sends_at_most 0 m.
Proof.
  intros Hm w. destruct (Hm w) as (Hfuel & es & Hw & _).
  split; [exact Hfuel|]. rewrite Hw. cbn. lia.
Qed.

Lemma sends_more {A} n n' (m : M A) :
  (n <= n')%nat -> sends_at_most n m -> sends_at_most n' m.
Proof.
  intros Hn Hm w. destruct (Hm w) as (Hfuel & Hreq).
  split; [exact Hfuel | lia].
Qed.

Lemma one_request_sends {A} (m : M A) :
  answers_after_one_request m -> sends_at_most 1 m.
Proof.
  intros Hm w. destruct (Hm w) as (v & w' & Hrun & Hreq).
  rewrite Hrun. cbn. split; [discriminate | lia].
Qed.

Lemma sends_after_quiet {A B} P n (m : M A) (f : A -> M B) :
  emits P m -> (forall a, sends_at_most n (f a)) ->
  sends_at_most n (bind m f).
Proof.
  intros Hm Hf w. destruct (Hm w) as (Hfuel & es & Hw & _).
  rewrite run_bind.
  destruct (m w) as [[a|e|] w1]; cbn in Hw, Hfuel; subst w1.
  - exact (Hf a (logged w es)).
  - cbn. split; [discriminate | lia].
  - contradiction.
Qed.

Lemma sends_then_quiet {A B} P n (m : M A) (f : A -> M B) :
  sends_at_most n m -> (forall a, emits P (f a)) ->
  sends_at_most n (bind m f).
Proof.
  intros Hm Hf w. destruct (Hm w) as (Hfuel & Hreq).
  rewrite run_bind.
  destruct (m w) as [[a|e|] w1]; cbn in Hreq, Hfuel.
  - destruct (Hf a w1) as (Hfuel' & es & Hw & _).
    split; [exact Hfuel'|]. rewrite Hw. cbn. exact Hreq.
  - cbn. split; [discriminate | exact Hreq].
  - contradiction.
Qed.

Lemma call_get_image_frame rt fuel self image_set_id image_frame_id :
  call_method rt fuel self "get_image_frame" []
    [("image_set_id", image_set_id); ("image_frame_id", image_frame_id)]
  = get_image_frame (imaging rt) self image_set_id image_frame_id.
Proof. reflexivity. Qed.

(** X21. The step of [main] that fetches one image frame never raises,
    whatever the metadata holds and whatever the service answers: what
    goes wrong inside it is printed.  It sends at most one request. *)
Theorem frame_step_never_raises rt fuel healthimaging first_image_set_id
    metadata w :
  exists w',
    main_frame rt fuel healthimaging first_image_set_id metadata w
    = (Ok tt, w') /\
    (requests w <= requests w' <= S (requests w))%nat.
Proof.
  unfold main_frame.
  erewrite run_bind_ok by apply banner_run.
  set (w1 := logged w _).
  assert (Hw1 : requests w1 = requests w) by reflexivity.
  destruct (truthy metadata).
  2:{ exists w1. split; [reflexivity | lia]. }
  match goal with
  | |- context [try_except ?body ?handler w1] =>
      assert (Hbody : sends_at_most 1 body)
  end.
  { repeat (eapply sends_after_quiet;
            [first [apply emits_dict_get | apply emits_getindex]
            | intros ?]).
    match goal with
    | |- sends_at_most _ (if ?b then _ else _) => destruct b
    end.
    2:{ apply (sends_more 0); [lia|].
        eapply quiet_sends. apply (emits_ret any_event). }
    eapply sends_after_quiet; [apply emits_print | intros _].
    rewrite call_get_image_frame.
    eapply sends_then_quiet.
    - apply one_request_sends. apply get_image_frame_one.
    - intros image_data.
      destruct (truthy image_data); emits_steps. }
  unfold try_except. destruct (Hbody w1) as (Hfuel & Hreq).
  match goal with
  | |- context [match ?run with _ => _ end] =>
      destruct run as [[[]|e|] w2]
  end; cbn in Hfuel, Hreq.
  - exists w2. split; [reflexivity | lia].
  - unfold print. rewrite run_emit. eexists. split; [reflexivity|].
    cbn. lia.
  - contradiction.
Qed.

End MainExtras.

Module ExtraWitnesses.
Import DicomOrganizer HealthImaging OrganizerSpec ImagingSpec ExtraSpec.
Import Examples.
Import RoundTrip StructureExtras OrganizeExtras SearchProofs PollingExtras.
Import Main MainExtras.

Lemma organized_key_round_trip_witness :
  add_key [] (new_key organizer header)
  = [("A_B", [("1.2", ["Unknown_Series"])])].
Proof.
  refine (proj2 (organized_key_round_trip organizer header _)).
  repeat constructor.
Defined.

Lemma structure_ignores_prefix_witness :
  add_key [] "organized/P1/S1/T1/i1.dcm" = add_key [] "P1/S1/T1/i1.dcm".
Proof.
  refine (structure_ignores_prefix [] "organized" "P1/S1/T1/i1.dcm" _).
  vm_compute. lia.
Defined.

Lemma patients_in_listing_order_witness :
  exists structure w',
    get_organized_structure store organizer w0 = (Ok structure, w') /\
    List.map fst structure = ["P1"].
Proof.
  exact (patients_in_listing_order store organizer
           [Some ["organized/P1/S1/T1/i1.dcm"; "organized/P1/S1/T1/i2.dcm";
                  "organized/P1/S1/T2/i3.dcm"; "short/key"]] w0 eq_refl).
Defined.

Lemma short_object_has_no_marker_witness :
  fst (_is_dicom_file store organizer "uploads/notes.txt" w0) = Ok false.
Proof.
  rewrite (short_object_has_no_marker store organizer "uploads/notes.txt"
             ["h"; "i"]%byte w0 eq_refl); [reflexivity|].
  vm_compute. lia.
Defined.


(** A service that finds one image set. *)
Lemma search_returns_the_summaries_witness :
  fst (search_studies
         (scripted
            [Success
               (PDict [("imageSetsMetadataSummaries",
                        PList [PDict [("imageSetId", PStr "is-1")]])])])
         imaging_client PNone (PInt 50) w0)
  = Ok (PList [PDict [("imageSetId", PStr "is-1")]]).
Proof.
  exact (proj2 (search_returns_the_summaries
                  (scripted
                     [Success
                        (PDict [("imageSetsMetadataSummaries",
                                 PList [PDict [("imageSetId",
                                                PStr "is-1")]])])])
                  imaging_client PNone (PInt 50) w0)
           _ _ eq_refl eq_refl eq_refl).
Defined.

Lemma polling_edge_cases_witness :
  fst (wait_for_import_completion
         (scripted [status_reply "IN_PROGRESS"; status_reply "COMPLETED"])
         5 imaging_client (PStr "job-1") 30 3600 w0)
  <> Raise denied /\
  fst (wait_for_import_completion down 1 imaging_client (PStr "job-1")
         30 0 w0)
  = Ok false /\
  fst (wait_for_import_completion (scripted [status_reply "IN_PROGRESS"])
         1 imaging_client (PStr "job-1") (-1) 10 w0)
  = Raise (Exception "ValueError" "sleep length must be non-negative").
Proof.
  split; [|split].
  - apply (proj1 (polling_edge_cases
                    (scripted [status_reply "IN_PROGRESS";
                               status_reply "COMPLETED"])
                    imaging_client (PStr "job-1") 5 30 3600 w0)).
    lia.
  - rewrite (proj1 (proj2 (polling_edge_cases down imaging_client
                             (PStr "job-1") 0 30 0 w0)));
      [reflexivity | lia].
  - apply (proj2 (proj2 (polling_edge_cases
                           (scripted [status_reply "IN_PROGRESS"])
                           imaging_client (PStr "job-1") 0 (-1) 10 w0)));
      [lia | lia |].
    exists (PStr "IN_PROGRESS"). split; reflexivity.
Defined.


Lemma main_stops_at_a_refused_listing_witness :
  fst (main unlisted_runtime 0 w0) = Raise denied.
Proof.
  refine
    (main_stops_at_a_refused_listing unlisted_runtime 0%nat [] [] []
       denied w0 _).
  left. reflexivity.
Defined.

End ExtraWitnesses.
